(** * BugBoy Python: a shallow embedding of the demo service

    The development follows the four source files: [models] (plain
    records with unsafe accessors), [utils] (recursion limit helpers),
    [services] (one function per error scenario over in-memory sample
    data) and [app] (the routes and the single error handler).

    Python values are an inductive type [pyval]; a computation that may
    raise returns [res]; code that touches the process (files, threads,
    the recursion limit, the monitoring collaborator) is written in the
    state-and-exception monad [M] over [world].  Whatever the host decides
    (whether a socket connects, how much memory there is, what a template
    renders to) is read from an [env] record. *)

From Stdlib Require Import ZArith NArith QArith_base List String Ascii Bool Lia.
From stdpp Require Import base gmap strings list pretty.

Close Scope Q_scope.
#[local] Set Warnings "-register-all".
Local Open Scope string_scope.
Local Open Scope Z_scope.

(** ** Python values, exceptions and results *)

Module py.

(** A float stands for the binary64 value nearest to the rational. *)
Inductive pyfloat :=
| FNum (q : Q)
| FInf
| FNegInf
| FNaN.

(** The least magnitude that does not round to a finite binary64
    value: halfway between the largest float and 2^1024. *)
Definition float_overflow_bound : Z := 2 ^ 1024 - 2 ^ 970.

Definition too_large (q : Q) : bool :=
  float_overflow_bound * Zpos (Qden q) <=? Z.abs (Qnum q).

(** The float for the rational that a numeral writes or a division of
    floats gives: beyond the floats, an infinity. *)
Definition float_of_rational (q : Q) : pyfloat :=
  if too_large q then (if 0 <? Qnum q then FInf else FNegInf) else FNum q.

(** The JSON-shaped fragment of Python values; a dict keeps insertion
    order, as Python dicts do. *)
Inductive pyval :=
| PNone
| PBool (b : bool)
| PInt (z : Z)
| PFloat (f : pyfloat)
| PStr (s : string)
| PList (l : list pyval)
| PDict (d : list (string * pyval)).

(** An exception class: its [__name__], and whether it derives from
    [Exception] (SystemExit, KeyboardInterrupt and GeneratorExit derive
    from [BaseException] only, so [except Exception] lets them through). *)
Record pyclass := PyClass {
  cls_name : string;
  derives_Exception : bool
}.

(** An exception instance: [type(e)] and [str(e)]. *)
Record exn := mk_exn {
  exn_class : pyclass;
  exn_str : string
}.

Definition TypeError := PyClass "TypeError" true.
Definition KeyError := PyClass "KeyError" true.
Definition AttributeError := PyClass "AttributeError" true.
Definition ZeroDivisionError := PyClass "ZeroDivisionError" true.
Definition IndexError := PyClass "IndexError" true.
Definition ValueError := PyClass "ValueError" true.
Definition FileNotFoundError := PyClass "FileNotFoundError" true.
Definition FileExistsError := PyClass "FileExistsError" true.
Definition IsADirectoryError := PyClass "IsADirectoryError" true.
Definition NotADirectoryError := PyClass "NotADirectoryError" true.
Definition PermissionError := PyClass "PermissionError" true.
Definition JSONDecodeError := PyClass "JSONDecodeError" true.
Definition UnicodeDecodeError := PyClass "UnicodeDecodeError" true.
Definition RecursionError := PyClass "RecursionError" true.
Definition TimeoutError := PyClass "TimeoutError" true.
Definition MemoryError := PyClass "MemoryError" true.
Definition OverflowError := PyClass "OverflowError" true.
Definition SystemExit := PyClass "SystemExit" false.
Definition KeyboardInterrupt := PyClass "KeyboardInterrupt" false.

Inductive res (A : Type) :=
| Ok (a : A)
| Raise (e : exn).
Arguments Ok {A} a.
Arguments Raise {A} e.

Definition raise {A} (c : pyclass) (msg : string) : res A :=
  Raise (mk_exn c msg).

Definition res_bind {A B} (r : res A) (k : A -> res B) : res B :=
  match r with
  | Ok a => k a
  | Raise e => Raise e
  end.

(** [raises r c]: the computation ended by raising an instance of [c]. *)
Definition raises {A} (r : res A) (c : pyclass) : Prop :=
  exists msg, r = Raise (mk_exn c msg).

Definition returns {A} (r : res A) : Prop :=
  exists a, r = Ok a.

(** *** Characters and strings

    A [str] is held as its UTF-8 bytes; [bytes] is the same carrier
    without the validity promise. *)

Definition dq : string := String "034"%char EmptyString.
Definition sq : string := "'".
Definition nl : string := String "010"%char EmptyString.

(** A name between single quotes, as messages show type and attribute
    names. *)
Definition quoted (s : string) : string := sq +:+ s +:+ sq.

Definition ascii_eqb (a b : ascii) : bool := Ascii.eqb a b.

Definition code (c : ascii) : Z := Z.of_nat (nat_of_ascii c).

(** [repr(s)] for a [str], as [str(KeyError(k))] and the messages of
    [int] and [OSError] show text: between single quotes, or double
    ones when the text has a single quote and no double one; the quote
    in use and the backslash are escaped, and so are the control
    characters.  Bytes above 127 are kept: they are the text of a
    printable character. *)
Definition bs : ascii := "092"%char.

Definition hex_lower (n : Z) : ascii :=
  ascii_of_nat (Z.to_nat (if n <? 10 then 48 + n else 87 + n)).

Fixpoint has_char (c : ascii) (s : string) : bool :=
  match s with
  | EmptyString => false
  | String d rest => ascii_eqb d c || has_char c rest
  end.

Definition repr_char (quote c : ascii) : string :=
  let n := code c in
  if ascii_eqb c quote || ascii_eqb c bs then String bs (String c EmptyString)
  else if n =? 9 then String bs "t"
  else if n =? 10 then String bs "n"
  else if n =? 13 then String bs "r"
  else if (n <? 32) || (n =? 127) then
    String bs (String "x" (String (hex_lower (n / 16))
                             (String (hex_lower (n mod 16)) EmptyString)))
  else String c EmptyString.

Fixpoint repr_body (quote : ascii) (s : string) : string :=
  match s with
  | EmptyString => EmptyString
  | String c rest => repr_char quote c +:+ repr_body quote rest
  end.

Definition repr_str (s : string) : string :=
  let quote : ascii :=
    if has_char "'" s && negb (has_char "034" s) then "034"%char else "'"%char in
  String quote (repr_body quote s +:+ String quote EmptyString).

(** [str.isspace] on the characters one byte long. *)
Definition is_space (c : ascii) : bool :=
  let n := code c in
  ((9 <=? n) && (n <=? 13)) || ((28 <=? n) && (n <=? 32)).

Definition is_digit (c : ascii) : bool :=
  let n := code c in (48 <=? n) && (n <=? 57).

Definition digit_val (c : ascii) : Z := code c - 48.

(** The other characters [str.isspace] knows, by their UTF-8 bytes:
    U+0085 and U+00A0 on two bytes; U+1680, U+2000 to U+200A, U+2028,
    U+2029, U+202F, U+205F and U+3000 on three. *)
Definition is_space2 (a b : ascii) : bool :=
  (code a =? 194) && ((code b =? 133) || (code b =? 160)).

Definition is_space3 (a b c : ascii) : bool :=
  let z := code c in
  ((code a =? 225) && (code b =? 154) && (z =? 128))
  || ((code a =? 226) && (code b =? 128)
      && (((128 <=? z) && (z <=? 138)) || (z =? 168) || (z =? 169)
          || (z =? 175)))
  || ((code a =? 226) && (code b =? 129) && (z =? 159))
  || ((code a =? 227) && (code b =? 128) && (z =? 128)).

(** What follows the white-space character [s] starts with, if any. *)
Definition after_space (s : string) : option string :=
  match s with
  | EmptyString => None
  | String a r1 =>
      if is_space a then Some r1
      else
        match r1 with
        | EmptyString => None
        | String b r2 =>
            if is_space2 a b then Some r2
            else
              match r2 with
              | EmptyString => None
              | String c r3 => if is_space3 a b c then Some r3 else None
              end
        end
  end.

(** The same from the end, on the bytes in reverse order. *)
Definition after_space_rev (s : string) : option string :=
  match s with
  | EmptyString => None
  | String c r1 =>
      if is_space c then Some r1
      else
        match r1 with
        | EmptyString => None
        | String b r2 =>
            if is_space2 b c then Some r2
            else
              match r2 with
              | EmptyString => None
              | String a r3 => if is_space3 a b c then Some r3 else None
              end
        end
  end.

Fixpoint drop_while (step : string -> option string) (fuel : nat)
    (s : string) : string :=
  match fuel with
  | O => s
  | S fuel =>
      match step s with
      | Some rest => drop_while step fuel rest
      | None => s
      end
  end.

Definition reversed (s : string) : string :=
  string_of_list_ascii (rev (list_ascii_of_string s)).

Definition lstrip (s : string) : string :=
  drop_while after_space (String.length s) s.

Definition rstrip (s : string) : string :=
  reversed (drop_while after_space_rev (String.length s) (reversed s)).

(** [s.strip()] *)
Definition strip (s : string) : string := rstrip (lstrip s).

(** [s.split(sep)] for a separator of one character: never empty. *)
Fixpoint split (sep : ascii) (s : string) : list string :=
  match s with
  | EmptyString => [EmptyString]
  | String c rest =>
      if ascii_eqb c sep then EmptyString :: split sep rest
      else match split sep rest with
           | w :: ws => String c w :: ws
           | [] => [String c EmptyString]
           end
  end.

Fixpoint starts_with (p s : string) : option string :=
  match p, s with
  | EmptyString, _ => Some s
  | String a p', String b s' =>
      if ascii_eqb a b then starts_with p' s' else None
  | String _ _, EmptyString => None
  end.

(** The rest of [s] after its first character, when that is [c]. *)
Definition eat (c : ascii) (s : string) : option string :=
  match s with
  | String d rest => if ascii_eqb d c then Some rest else None
  | EmptyString => None
  end.

(** ["x" * n] *)
Fixpoint repeat_str (s : string) (n : nat) : string :=
  match n with
  | O => EmptyString
  | S k => s +:+ repeat_str s k
  end.

(** *** [int(text)] for base ten

    Blanks around, one sign, then digits with single underscores
    between them.  The blanks of [int] are fewer than those of
    [str.strip]: the separators 28 to 31 are not among them in ASCII
    text.  A literal of more than 4300 digits is refused, as the
    interpreter does unless told otherwise
    ([sys.set_int_max_str_digits]); the check comes once the digits are
    read, before what follows them is looked at.  Digits other than the
    ASCII ones are not known here. *)

Definition is_int_space (c : ascii) : bool :=
  let n := code c in
  ((9 <=? n) && (n <=? 13)) || (n =? 32).

Fixpoint skip_int_space (s : string) : string :=
  match s with
  | String c rest => if is_int_space c then skip_int_space rest else s
  | EmptyString => EmptyString
  end.

(** The digits and underscores at the head of [s]: their value, the
    number of digits, and what follows; nothing when two underscores
    meet or one ends the run. *)
Fixpoint int_run (acc : Z) (digits : nat) (after_underscore : bool)
    (s : string) : option (Z * nat * string) :=
  match s with
  | EmptyString =>
      if after_underscore then None else Some (acc, digits, EmptyString)
  | String c rest =>
      if is_digit c then
        int_run (10 * acc + digit_val c) (S digits) false rest
      else if ascii_eqb c "_" then
        if after_underscore then None else int_run acc digits true rest
      else if after_underscore then None
      else Some (acc, digits, s)
  end.

Definition int_max_str_digits : nat := 4300.

Inductive int_scanned :=
| IntOk (z : Z)
| IntTooLong (digits : nat)
| IntBad.

Definition int_scan (s : string) : int_scanned :=
  let body := skip_int_space s in
  let signed :=
    match eat "-" body with
    | Some rest => (true, rest)
    | None =>
        match eat "+" body with
        | Some rest => (false, rest)
        | None => (false, body)
        end
    end in
  match eat "_" (snd signed) with
  | Some _ => IntBad
  | None =>
      match int_run 0 0 false (snd signed) with
      | None => IntBad
      | Some (z, digits, rest) =>
          if (int_max_str_digits <? digits)%nat then IntTooLong digits
          else if (digits =? 0)%nat then IntBad
          else
            match skip_int_space rest with
            | EmptyString => IntOk (if fst signed then - z else z)
            | String _ _ => IntBad
            end
      end
  end.

(** The value of a literal that [int] accepts. *)
Definition int_literal (s : string) : option Z :=
  match int_scan s with
  | IntOk z => Some z
  | IntTooLong _ | IntBad => None
  end.

Definition int_of_str (s : string) : res Z :=
  match int_scan s with
  | IntOk z => Ok z
  | IntTooLong digits =>
      raise ValueError
        ("Exceeds the limit (4300 digits) for integer string conversion: "
         +:+ "value has " +:+ pretty (Z.of_nat digits)
         +:+ " digits; use sys.set_int_max_str_digits() to increase the limit")
  | IntBad =>
      raise ValueError
        ("invalid literal for int() with base 10: "
         +:+ String.substring 0 200 (repr_str s))
  end.

(** *** Dictionaries as ordered association lists *)

Fixpoint dict_get {V} (d : list (string * V)) (k : string) : option V :=
  match d with
  | [] => None
  | (k', v) :: rest => if String.eqb k' k then Some v else dict_get rest k
  end.

(** [d[k] = v]: a key already present keeps its place. *)
Fixpoint dict_set {V} (d : list (string * V)) (k : string) (v : V)
  : list (string * V) :=
  match d with
  | [] => [(k, v)]
  | (k', v') :: rest =>
      if String.eqb k' k then (k, v) :: rest else (k', v') :: dict_set rest k v
  end.

(** [dict(pairs)] *)
Definition dict_of_pairs {V} (pairs : list (string * V)) : list (string * V) :=
  fold_left (fun d kv => dict_set d (fst kv) (snd kv)) pairs [].

(** [d[k]], raising KeyError when the key is absent. *)
Definition dict_getitem {V} (d : list (string * V)) (k : string) : res V :=
  match dict_get d k with
  | Some v => Ok v
  | None => raise KeyError (repr_str k)
  end.

Definition keys {V} (d : list (string * V)) : list string := map fst d.

End py.
Export py.

(** ** [json.loads]

    The decoder of the standard library, written after its scanner:
    [scan_once] dispatches on the next character, [JSONObject] and
    [JSONArray] loop over members and elements.  A failure carries the
    number of characters still unread, from which [loads] computes the
    offset, line and column of the message.  The scanner functions call
    each other at most three times for a character read, which is the
    fuel [loads] gives them.

    Two limits of the interpreter are left out: a document nested more
    deeply than its call stack allows (RecursionError there) and an int
    literal longer than its digit limit (ValueError there).  The statements
    below that go through [loads] on a text they do not fix take its
    outcome as given. *)

Module json.

Inductive scan (A : Type) :=
| Scanned (a : A) (rest : string)
| Stop (unread : nat)
| Bad (msg : string) (unread : nat)
| Deep.
Arguments Scanned {A} a rest.
Arguments Stop {A} unread.
Arguments Bad {A} msg unread.
Arguments Deep {A}.

Definition is_json_ws (c : ascii) : bool :=
  let n := code c in
  (n =? 32) || (n =? 9) || (n =? 10) || (n =? 13).

Fixpoint skip_ws (s : string) : string :=
  match s with
  | String c rest => if is_json_ws c then skip_ws rest else s
  | EmptyString => EmptyString
  end.

Definition hex_val (c : ascii) : option Z :=
  let n := code c in
  if (48 <=? n) && (n <=? 57) then Some (n - 48)
  else if (65 <=? n) && (n <=? 70) then Some (n - 55)
  else if (97 <=? n) && (n <=? 102) then Some (n - 87)
  else None.

(** The four hexadecimal digits after a backslash-u. *)
Definition decode_uXXXX (s : string) : option (Z * string) :=
  match s with
  | String a (String b (String c (String d rest))) =>
      match hex_val a, hex_val b, hex_val c, hex_val d with
      | Some x, Some y, Some z, Some w =>
          Some (((x * 16 + y) * 16 + z) * 16 + w, rest)
      | _, _, _, _ => None
      end
  | _ => None
  end.

Definition byte_str (n : Z) : string :=
  String (ascii_of_nat (Z.to_nat n)) EmptyString.

(** [chr(cp)] as UTF-8. *)
Definition utf8_encode (cp : Z) : string :=
  if cp <? 128 then byte_str cp
  else if cp <? 2048 then
    byte_str (192 + cp / 64) +:+ byte_str (128 + cp mod 64)
  else if cp <? 65536 then
    byte_str (224 + cp / 4096) +:+ byte_str (128 + (cp / 64) mod 64)
    +:+ byte_str (128 + cp mod 64)
  else
    byte_str (240 + cp / 262144) +:+ byte_str (128 + (cp / 4096) mod 64)
    +:+ byte_str (128 + (cp / 64) mod 64) +:+ byte_str (128 + cp mod 64).

Definition backslash : ascii := "092"%char.

Definition simple_escape (c : ascii) : option string :=
  if ascii_eqb c "034" then Some dq
  else if ascii_eqb c backslash then Some (String backslash EmptyString)
  else if ascii_eqb c "/" then Some "/"
  else if ascii_eqb c "b" then Some (byte_str 8)
  else if ascii_eqb c "f" then Some (byte_str 12)
  else if ascii_eqb c "n" then Some (byte_str 10)
  else if ascii_eqb c "r" then Some (byte_str 13)
  else if ascii_eqb c "t" then Some (byte_str 9)
  else None.

(** [scanstring]: [s] starts just after the opening quote, whose offset
    is the one reported for an unterminated string. *)
Fixpoint scanstring_go (fuel : nat) (begin_unread : nat) (s : string)
    (acc : string) : scan string :=
  match fuel with
  | O => Bad "Unterminated string starting at" begin_unread
  | S fuel =>
  match s with
  | EmptyString => Bad "Unterminated string starting at" begin_unread
  | String c rest =>
      if ascii_eqb c "034" then Scanned acc rest
      else if ascii_eqb c backslash then
        match rest with
        | EmptyString => Bad "Unterminated string starting at" begin_unread
        | String e rest' =>
            if ascii_eqb e "u" then
              match decode_uXXXX rest' with
              | None => Bad "Invalid \uXXXX escape" (String.length rest)
              | Some (_, EmptyString) =>
                  (* the scanner wants a character after the escape *)
                  Bad "Invalid \uXXXX escape" (String.length rest)
              | Some (uni, after) =>
                  let pair :=
                    if (55296 <=? uni) && (uni <=? 56319) then
                      match after with
                      | String b1 (String b2 more) =>
                          if ascii_eqb b1 backslash && ascii_eqb b2 "u" then
                            match decode_uXXXX more with
                            | Some (uni2, String a2 more2) =>
                                if (56320 <=? uni2) && (uni2 <=? 57343) then
                                  Some (65536 + ((uni - 55296) * 1024
                                                 + (uni2 - 56320)),
                                        String a2 more2)
                                else None
                            | Some (_, EmptyString) | None => None
                            end
                          else None
                      | _ => None
                      end
                    else None in
                  match pair with
                  | Some (cp, after2) =>
                      scanstring_go fuel begin_unread after2
                        (acc +:+ utf8_encode cp)
                  | None =>
                      scanstring_go fuel begin_unread after
                        (acc +:+ utf8_encode uni)
                  end
              end
            else
              match simple_escape e with
              | Some ch => scanstring_go fuel begin_unread rest' (acc +:+ ch)
              | None => Bad "Invalid \escape" (String.length s)
              end
        end
      else if code c <? 32 then
        Bad "Invalid control character at" (String.length s)
      else scanstring_go fuel begin_unread rest (acc +:+ String c EmptyString)
  end
  end.

Definition scanstring (s : string) : scan string :=
  scanstring_go (S (String.length s)) (S (String.length s)) s EmptyString.

(** *** Numbers: an optional minus, an integer part without leading
    zeros, then an optional fraction and an optional exponent. *)

Fixpoint take_digits (s : string) : list Z * string :=
  match s with
  | String c rest =>
      if is_digit c then
        let '(ds, r) := take_digits rest in (digit_val c :: ds, r)
      else ([], s)
  | EmptyString => ([], EmptyString)
  end.

Definition digits_value (ds : list Z) : Z :=
  fold_left (fun acc d => 10 * acc + d) ds 0.

Definition integer_part (s : string) : option (list Z * string) :=
  match s with
  | String c rest =>
      if ascii_eqb c "0" then Some ([0], rest)
      else if is_digit c then Some (take_digits s)
      else None
  | EmptyString => None
  end.

Definition fraction_part (s : string) : list Z * string :=
  match eat "." s with
  | Some rest =>
      match take_digits rest with
      | ([], _) => ([], s)
      | (ds, r) => (ds, r)
      end
  | None => ([], s)
  end.

Definition exponent_part (s : string) : option Z * string :=
  match s with
  | String c rest =>
      if ascii_eqb c "e" || ascii_eqb c "E" then
        let '(neg, body) :=
          match eat "-" rest, eat "+" rest with
          | Some r, _ => (true, r)
          | None, Some r => (false, r)
          | None, None => (false, rest)
          end in
        match take_digits body with
        | ([], _) => (None, s)
        | (ds, r) =>
            (Some (if neg then - digits_value ds else digits_value ds), r)
        end
      else (None, s)
  | EmptyString => (None, s)
  end.

Definition decimal (m e : Z) : Q :=
  if 0 <=? e then Qmake (m * 10 ^ e) 1 else Qmake m (Z.to_pos (10 ^ (- e))).

Definition match_number (s : string) : option (pyval * string) :=
  let '(neg, body) :=
    match eat "-" s with
    | Some r => (true, r)
    | None => (false, s)
    end in
  match integer_part body with
  | None => None
  | Some (ids, s1) =>
      let '(fds, s2) := fraction_part s1 in
      let '(ex, s3) := exponent_part s2 in
      let sign := fun z : Z => if neg then - z else z in
      match fds, ex with
      | [], None => Some (PInt (sign (digits_value ids)), s3)
      | _, _ =>
          let e := match ex with Some e => e | None => 0 end in
          Some (PFloat (float_of_rational
                          (decimal (sign (digits_value (ids ++ fds)%list))
                                   (e - Z.of_nat (length fds)))), s3)
      end
  end.

Definition literal (s : string) : option (pyval * string) :=
  match starts_with "null" s with
  | Some r => Some (PNone, r)
  | None =>
  match starts_with "true" s with
  | Some r => Some (PBool true, r)
  | None =>
  match starts_with "false" s with
  | Some r => Some (PBool false, r)
  | None =>
  match match_number s with
  | Some vr => Some vr
  | None =>
  match starts_with "NaN" s with
  | Some r => Some (PFloat FNaN, r)
  | None =>
  match starts_with "Infinity" s with
  | Some r => Some (PFloat FInf, r)
  | None =>
  match starts_with "-Infinity" s with
  | Some r => Some (PFloat FNegInf, r)
  | None => None
  end end end end end end end.

Definition expecting_name : string :=
  "Expecting property name enclosed in double quotes".

Fixpoint scan_once (fuel : nat) (s : string) {struct fuel} : scan pyval :=
  match fuel with
  | O => Deep
  | S fuel =>
      match s with
      | EmptyString => Stop 0
      | String c rest =>
          if ascii_eqb c "034" then
            match scanstring rest with
            | Scanned str r => Scanned (PStr str) r
            | Stop n => Stop n
            | Bad msg n => Bad msg n
            | Deep => Deep
            end
          else if ascii_eqb c "{" then JSONObject fuel rest
          else if ascii_eqb c "[" then JSONArray fuel rest
          else match literal s with
               | Some (v, r) => Scanned v r
               | None => Stop (String.length s)
               end
      end
  end

with JSONObject (fuel : nat) (s : string) {struct fuel} : scan pyval :=
  match fuel with
  | O => Deep
  | S fuel =>
      let s1 := skip_ws s in
      match eat "034" s1, eat "}" s1 with
      | Some rest, _ => object_members fuel rest []
      | None, Some rest => Scanned (PDict []) rest
      | None, None => Bad expecting_name (String.length s1)
      end
  end

(** [s] starts just after the opening quote of a member name. *)
with object_members (fuel : nat) (s : string) (pairs : list (string * pyval))
    {struct fuel} : scan pyval :=
  match fuel with
  | O => Deep
  | S fuel =>
      match scanstring s with
      | Scanned key s1 =>
          let s2 := skip_ws s1 in
          match eat ":" s2 with
          | Some s3 =>
              match scan_once fuel (skip_ws s3) with
              | Scanned value s5 =>
                  let pairs := (pairs ++ [(key, value)])%list in
                  let s6 := skip_ws s5 in
                  match eat "}" s6, eat "," s6 with
                  | Some s7, _ => Scanned (PDict (dict_of_pairs pairs)) s7
                  | None, Some s7 =>
                      let s8 := skip_ws s7 in
                      match eat "034" s8 with
                      | Some s9 => object_members fuel s9 pairs
                      | None => Bad expecting_name (String.length s8)
                      end
                  | None, None =>
                      Bad "Expecting ',' delimiter" (String.length s6)
                  end
              | Stop n => Bad "Expecting value" n
              | Bad msg n => Bad msg n
              | Deep => Deep
              end
          | None => Bad "Expecting ':' delimiter" (String.length s2)
          end
      | Stop n => Stop n
      | Bad msg n => Bad msg n
      | Deep => Deep
      end
  end

with JSONArray (fuel : nat) (s : string) {struct fuel} : scan pyval :=
  match fuel with
  | O => Deep
  | S fuel =>
      let s1 := skip_ws s in
      match eat "]" s1 with
      | Some rest => Scanned (PList []) rest
      | None => array_elements fuel s1 []
      end
  end

with array_elements (fuel : nat) (s : string) (values : list pyval)
    {struct fuel} : scan pyval :=
  match fuel with
  | O => Deep
  | S fuel =>
      match scan_once fuel s with
      | Scanned value s1 =>
          let values := (values ++ [value])%list in
          let s2 := skip_ws s1 in
          match eat "]" s2, eat "," s2 with
          | Some s3, _ => Scanned (PList values) s3
          | None, Some s3 => array_elements fuel (skip_ws s3) values
          | None, None => Bad "Expecting ',' delimiter" (String.length s2)
          end
      | Stop n => Bad "Expecting value" n
      | Bad msg n => Bad msg n
      | Deep => Deep
      end
  end.

(** Line, column and offset of a place in the text, as
    [JSONDecodeError] prints them: they count characters, so the bytes
    that continue a character are passed over. *)
Definition is_continuation (c : ascii) : bool :=
  (128 <=? code c) && (code c <=? 191).

Fixpoint line_col (s : string) (bytes : nat) (line col : Z) (chars : nat)
  : Z * Z * nat :=
  match bytes, s with
  | S p, String c rest =>
      if ascii_eqb c "010" then line_col rest p (line + 1) 1 (S chars)
      else if is_continuation c then line_col rest p line col chars
      else line_col rest p line (col + 1) (S chars)
  | _, _ => (line, col, chars)
  end.

Definition decode_error (doc msg : string) (unread : nat) : exn :=
  let place := line_col doc (String.length doc - unread) 1 1 0 in
  mk_exn JSONDecodeError
    (msg +:+ ": line " +:+ pretty (fst (fst place))
         +:+ " column " +:+ pretty (snd (fst place))
         +:+ " (char " +:+ pretty (Z.of_nat (snd place)) +:+ ")").

Definition bom : string := byte_str 239 +:+ byte_str 187 +:+ byte_str 191.

Definition loads (s : string) : res pyval :=
  match starts_with bom s with
  | Some _ =>
      Raise (decode_error s "Unexpected UTF-8 BOM (decode using utf-8-sig)"
                          (String.length s))
  | None =>
      match scan_once (3 * String.length s + 3) (skip_ws s) with
      | Scanned v rest =>
          match skip_ws rest with
          | EmptyString => Ok v
          | r => Raise (decode_error s "Extra data" (String.length r))
          end
      | Stop n => Raise (decode_error s "Expecting value" n)
      | Bad msg n => Raise (decode_error s msg n)
      | Deep => raise RecursionError "maximum recursion depth exceeded"
      end
  end.

End json.

(** ** More of the interpreter: dynamic operations on values *)

Module builtins.

Definition type_name (v : pyval) : string :=
  match v with
  | PNone => "NoneType"
  | PBool _ => "bool"
  | PInt _ => "int"
  | PFloat _ => "float"
  | PStr _ => "str"
  | PList _ => "list"
  | PDict _ => "dict"
  end.

(** [a + b] where [a] is a str. *)
Definition str_add (a : string) (b : pyval) : res string :=
  match b with
  | PStr s => Ok (a +:+ s)
  | _ =>
      raise TypeError ("can only concatenate str (not " +:+ dq
                       +:+ type_name b +:+ dq +:+ ") to str")
  end.

(** [v[k]] for a str key. *)
Definition getitem (v : pyval) (k : string) : res pyval :=
  match v with
  | PDict d => dict_getitem d k
  | PList _ =>
      raise TypeError "list indices must be integers or slices, not str"
  | PStr _ => raise TypeError "string indices must be integers, not 'str'"
  | _ =>
      raise TypeError (quoted (type_name v) +:+ " object is not subscriptable")
  end.

(** [l[i]] with an index counted from the end when negative. *)
Definition list_getitem {A} (l : list A) (i : Z) : res A :=
  let n := Z.of_nat (length l) in
  let j := if i <? 0 then i + n else i in
  if (0 <=? j) && (j <? n) then
    match l !! Z.to_nat j with
    | Some x => Ok x
    | None => raise IndexError "list index out of range"
    end
  else raise IndexError "list index out of range".

(** Attribute access on [None]. *)
Definition none_has_no {A} (attr : string) : res A :=
  raise AttributeError
    ("'NoneType' object has no attribute " +:+ quoted attr).

(** [a / b] for an int [a]: true division.  Between ints the quotient
    is rounded once, and one that rounds out of the floats is an
    OverflowError; before a float the int is converted first, and the
    quotient of two floats overflows to an infinity. *)
Definition truediv (a : Z) (b : pyval) : res pyval :=
  let by_int (d : Z) : res pyval :=
    if d =? 0 then raise ZeroDivisionError "division by zero"
    else
      let q := if 0 <? d then Qmake a (Z.to_pos d)
               else Qmake (- a) (Z.to_pos (- d)) in
      if too_large q then
        raise OverflowError "integer division result too large for a float"
      else Ok (PFloat (FNum q)) in
  match b with
  | PInt d => by_int d
  | PBool d => by_int (if d then 1 else 0)
  | PFloat f =>
      if too_large (Qmake a 1) then
        raise OverflowError "int too large to convert to float"
      else
        match f with
        | FNum q =>
            if Qnum q =? 0 then raise ZeroDivisionError "float division by zero"
            else
              let r := Qdiv (Qmake a 1) q in
              Ok (PFloat (float_of_rational r))
        | FNaN => Ok (PFloat FNaN)
        | FInf | FNegInf => Ok (PFloat (FNum (Qmake 0 1)))
        end
  | _ =>
      raise TypeError ("unsupported operand type(s) for /: 'int' and "
                       +:+ quoted (type_name b))
  end.

(** *** [bytes.decode] for UTF-8, strict *)

Definition hex_digit (n : Z) : string :=
  String (ascii_of_nat (Z.to_nat (if n <? 10 then 48 + n else 87 + n)))
         EmptyString.

Definition hex_byte (c : ascii) : string :=
  "0x" +:+ hex_digit (code c / 16) +:+ hex_digit (code c mod 16).

(** The message names the byte when one byte is at fault, and the
    positions from the lead byte to the last accepted one otherwise. *)
Definition cannot_decode (c : ascii) (pos accepted : nat) (why : string) : exn :=
  mk_exn UnicodeDecodeError
    (match accepted with
     | O =>
         "'utf-8' codec can't decode byte " +:+ hex_byte c +:+ " in position "
         +:+ pretty (Z.of_nat pos) +:+ ": " +:+ why
     | S _ =>
         "'utf-8' codec can't decode bytes in position "
         +:+ pretty (Z.of_nat pos) +:+ "-" +:+ pretty (Z.of_nat (pos + accepted))
         +:+ ": " +:+ why
     end).

Definition in_range (lo hi : Z) (c : ascii) : bool :=
  (lo <=? code c) && (code c <=? hi).

(** How many continuation bytes follow a lead byte, and the range the
    first of them must lie in. *)
Definition lead (c : ascii) : option (nat * Z * Z) :=
  let n := code c in
  if (194 <=? n) && (n <=? 223) then Some (1%nat, 128, 191)
  else if n =? 224 then Some (2%nat, 160, 191)
  else if n =? 237 then Some (2%nat, 128, 159)
  else if (225 <=? n) && (n <=? 239) then Some (2%nat, 128, 191)
  else if n =? 240 then Some (3%nat, 144, 191)
  else if n =? 244 then Some (3%nat, 128, 143)
  else if (241 <=? n) && (n <=? 243) then Some (3%nat, 128, 191)
  else None.

(** The continuation bytes of one character: what follows them, or how
    many were accepted before the text ended or a byte was wrong. *)
Inductive tail_check :=
| TailOk (rest : string)
| TailShort (accepted : nat)
| TailBad (accepted : nat).

Fixpoint continuation (k : nat) (lo hi : Z) (accepted : nat) (s : string)
  : tail_check :=
  match k with
  | O => TailOk s
  | S k' =>
      match s with
      | EmptyString => TailShort accepted
      | String c rest =>
          if in_range lo hi c then continuation k' 128 191 (S accepted) rest
          else TailBad accepted
      end
  end.

Fixpoint utf8_check (fuel : nat) (pos : nat) (s : string) : option exn :=
  match fuel with
  | O => None
  | S fuel =>
      match s with
      | EmptyString => None
      | String c rest =>
          if code c <? 128 then utf8_check fuel (S pos) rest
          else
            match lead c with
            | None => Some (cannot_decode c pos 0 "invalid start byte")
            | Some (k, lo, hi) =>
                match continuation k lo hi 0 rest with
                | TailOk rest' => utf8_check fuel (S pos + k) rest'
                | TailShort accepted =>
                    Some (cannot_decode c pos accepted "unexpected end of data")
                | TailBad accepted =>
                    Some (cannot_decode c pos accepted
                                        "invalid continuation byte")
                end
            end
      end
  end.

(** [payload.decode(utf-8)]: the text is the same bytes once checked. *)
Definition decode_utf8 (b : string) : res string :=
  match utf8_check (S (String.length b)) 0 b with
  | None => Ok b
  | Some e => Raise e
  end.

(** *** [str.format] with keyword arguments, for named fields

    Text is copied, a doubled brace stands for one brace, and a field
    between braces is looked up by name in the keyword arguments.  The
    text of a value comes from [str_of]. *)

Fixpoint take_field (s : string) : option (string * string) :=
  match s with
  | EmptyString => None
  | String c rest =>
      if ascii_eqb c "}" then Some (EmptyString, rest)
      else match take_field rest with
           | Some (name, r) => Some (String c name, r)
           | None => None
           end
  end.

Fixpoint format_go (fuel : nat) (str_of : pyval -> string) (s : string)
    (kwargs : list (string * pyval)) (acc : string) : res string :=
  match fuel with
  | O => Ok acc
  | S fuel =>
      match s with
      | EmptyString => Ok acc
      | String c rest =>
          if ascii_eqb c "{" then
            match rest with
            | String "{" rest' =>
                format_go fuel str_of rest' kwargs (acc +:+ "{")
            | _ =>
                match take_field rest with
                | None =>
                    raise ValueError "expected '}' before end of string"
                | Some (name, rest') =>
                    match dict_get kwargs name with
                    | Some v =>
                        format_go fuel str_of rest' kwargs (acc +:+ str_of v)
                    | None => raise KeyError (repr_str name)
                    end
                end
            end
          else if ascii_eqb c "}" then
            match rest with
            | String "}" rest' =>
                format_go fuel str_of rest' kwargs (acc +:+ "}")
            | _ => raise ValueError "Single '}' encountered in format string"
            end
          else format_go fuel str_of rest kwargs (acc +:+ String c EmptyString)
      end
  end.

Definition format (str_of : pyval -> string) (template : string)
    (kwargs : list (string * pyval)) : res string :=
  format_go (S (String.length template)) str_of template kwargs EmptyString.

End builtins.

(** ** The process the service runs in *)

Module host.

(** A file holds text, or the document [json.dump] wrote into it. *)
Inductive fcontent :=
| Text (s : string)
| JsonDoc (v : pyval).

Record file := File {
  content : fcontent;
  mode : Z
}.

(** The disk as the service looks at it: the directories and the
    regular files, by path.  What is here belongs to the process, which
    may create entries in the directories it finds; a directory has no
    mode of its own, and there are no links. *)
Record filesystem := FS {
  dirs : gset string;
  files : gmap string file
}.

(** A thread that was started: the work it still has to do, the
    exception its target will let escape (if any), and whether it
    still runs. *)
Record thread := Thread {
  daemon : bool;
  work_ms : N;
  dies_with : option exn;
  alive : bool
}.

Record world := World {
  fs : filesystem;
  recursion_limit : nat;              (* sys.getrecursionlimit() *)
  threads : list thread;
  last_error : option exn;            (* app._last_thread_error, key error *)
  last_traceback : option string;     (* app._last_thread_error, key traceback *)
  captured : list exn;                (* what bugstack.capture_exception received *)
  logged : list string                (* app.logger and stderr *)
}.

(** What the host decides. *)
Record env := Env {
  privileged : bool;                  (* file modes are not enforced for the superuser *)
  here : string;                      (* os.path.dirname(__file__) of services.py *)
  now : Q;                            (* time.time() *)
  connect_error : option exn;         (* what sock.connect raises, if anything *)
  heap_cells : N;                     (* list cells available before MemoryError *)
  render : string -> pyval -> res string;   (* flask.render_template *)
  format_exception : exn -> string;   (* the traceback module *)
  str_of : pyval -> string;           (* str() of a value *)
  object_id : nat -> Z                (* id() of the n-th item of a payload *)
}.

Definition set_fs (f : filesystem) (w : world) : world :=
  World f (recursion_limit w) (threads w) (last_error w) (last_traceback w)
        (captured w) (logged w).

Definition set_recursion_limit (n : nat) (w : world) : world :=
  World (fs w) n (threads w) (last_error w) (last_traceback w)
        (captured w) (logged w).

Definition set_threads (ts : list thread) (w : world) : world :=
  World (fs w) (recursion_limit w) ts (last_error w) (last_traceback w)
        (captured w) (logged w).

Definition set_last (e : option exn) (tb : option string) (w : world) : world :=
  World (fs w) (recursion_limit w) (threads w) e tb (captured w) (logged w).

Definition capture (e : exn) (w : world) : world :=
  World (fs w) (recursion_limit w) (threads w) (last_error w)
        (last_traceback w) (captured w ++ [e]) (logged w).

Definition log_line (s : string) (w : world) : world :=
  World (fs w) (recursion_limit w) (threads w) (last_error w)
        (last_traceback w) (captured w) (logged w ++ [s]).

(** *** State and exceptions *)

Definition M (A : Type) : Type := world -> res A * world.

Definition ret {A} (a : A) : M A := fun w => (Ok a, w).

Definition bind {A B} (m : M A) (k : A -> M B) : M B :=
  fun w =>
    match m w with
    | (Ok a, w') => k a w'
    | (Raise e, w') => (Raise e, w')
    end.

Definition throw {A} (e : exn) : M A := fun w => (Raise e, w).

Definition lift {A} (r : res A) : M A := fun w => (r, w).

Definition gets {A} (f : world -> A) : M A := fun w => (Ok (f w), w).

Definition modify (f : world -> world) : M unit := fun w => (Ok tt, f w).

(** [try: body finally: cleanup]: the cleanup runs however the body
    ends; an exception of the cleanup replaces the body's outcome. *)
Definition try_finally {A} (body : M A) (cleanup : M unit) : M A :=
  fun w =>
    let '(r, w1) := body w in
    match cleanup w1 with
    | (Ok _, w2) => (r, w2)
    | (Raise e, w2) => (Raise e, w2)
    end.

End host.
Export host.

Notation "x <- m ;; k" := (bind m (fun x => k))
  (at level 100, m at next level, right associativity).
Notation "m ;;; k" := (bind m (fun _ => k))
  (at level 100, right associativity).
Notation "x <~ r ;; k" := (res_bind r (fun x => k))
  (at level 100, r at next level, right associativity).

(** ** [os] and [open] *)

Module os.

Fixpoint ends_with_slash (s : string) : bool :=
  match s with
  | EmptyString => false
  | String c EmptyString => ascii_eqb c "/"
  | String _ rest => ends_with_slash rest
  end.

(** [os.path.join(a, b)] for a relative [b]. *)
Definition path_join (a b : string) : string :=
  if String.eqb a "" then b
  else if ends_with_slash a then a +:+ b
  else a +:+ "/" +:+ b.

(** [os.path.dirname] *)
Fixpoint before_last_slash (s : string) : option string :=
  match s with
  | EmptyString => None
  | String c rest =>
      match before_last_slash rest with
      | Some p => Some (String c p)
      | None => if ascii_eqb c "/" then Some EmptyString else None
      end
  end.

Definition dirname (s : string) : string :=
  match before_last_slash s with
  | None => EmptyString
  | Some EmptyString => "/"
  | Some p => p
  end.

Definition is_dir (f : filesystem) (p : string) : bool :=
  bool_decide (p ∈ dirs f).

Definition is_file (f : filesystem) (p : string) : bool :=
  match files f !! p with Some _ => true | None => false end.

Definition path_exists (p : string) : M bool :=
  gets (fun w => is_dir (fs w) p || is_file (fs w) p).

Definition errno (n : Z) (what path : string) : string :=
  "[Errno " +:+ pretty n +:+ "] " +:+ what +:+ ": " +:+ repr_str path.

(** [os.makedirs(p, exist_ok=True)] *)
Definition makedirs (p : string) : M unit :=
  f <- gets fs ;;
  if is_file f p then throw (mk_exn FileExistsError (errno 17 "File exists" p))
  else modify (set_fs (FS ({[p]} ∪ dirs f) (files f))).

Definition owner_may_write (m : Z) : bool := Z.testbit m 7.
Definition owner_may_read (m : Z) : bool := Z.testbit m 8.

(** The mode of a file that [open] creates (umask 022). *)
Definition created_mode : Z := 420.

(** [open(p, w)]: create the file or empty it. *)
Definition open_w (e : env) (p : string) : M unit :=
  f <- gets fs ;;
  if is_dir f p then
    throw (mk_exn IsADirectoryError (errno 21 "Is a directory" p))
  else
    match files f !! p with
    | Some old =>
        if privileged e || owner_may_write (mode old) then
          modify (set_fs (FS (dirs f) (<[p := File (Text "") (mode old)]> (files f))))
        else throw (mk_exn PermissionError (errno 13 "Permission denied" p))
    | None =>
        if String.eqb (dirname p) "" || is_dir f (dirname p) then
          modify (set_fs (FS (dirs f) (<[p := File (Text "") created_mode]> (files f))))
        else
          throw (mk_exn FileNotFoundError (errno 2 "No such file or directory" p))
    end.

(** [json.dump(v, f)] on the file just opened for writing. *)
Definition dump (p : string) (v : pyval) : M unit :=
  modify (fun w =>
    let f := fs w in
    match files f !! p with
    | Some old => set_fs (FS (dirs f) (<[p := File (JsonDoc v) (mode old)]> (files f))) w
    | None => w
    end).

(** [os.chmod(p, m)]; on a directory there is no mode to change. *)
Definition chmod (p : string) (m : Z) : M unit :=
  f <- gets fs ;;
  match files f !! p with
  | Some old =>
      modify (set_fs (FS (dirs f) (<[p := File (content old) m]> (files f))))
  | None =>
      if is_dir f p then ret tt
      else throw (mk_exn FileNotFoundError (errno 2 "No such file or directory" p))
  end.

(** [open(p, r)] followed by reading everything. *)
Definition read (e : env) (p : string) : M fcontent :=
  f <- gets fs ;;
  if is_dir f p then
    throw (mk_exn IsADirectoryError (errno 21 "Is a directory" p))
  else
    match files f !! p with
    | Some x =>
        if privileged e || owner_may_read (mode x) then ret (content x)
        else throw (mk_exn PermissionError (errno 13 "Permission denied" p))
    | None =>
        throw (mk_exn FileNotFoundError (errno 2 "No such file or directory" p))
    end.

End os.

(** ** [sys] and [threading] *)

Module sys.

Definition getrecursionlimit : M nat := gets recursion_limit.

Definition setrecursionlimit (n : nat) : M unit := modify (set_recursion_limit n).

End sys.

Module threading.

(** A function of no argument, reduced to how long it runs and how it
    ends. *)
Record callable := Callable {
  takes_ms : N;
  yields : res pyval
}.

(** The hook of the library, which [app] keeps as
    [_original_excepthook]: it prints the traceback to stderr, and says
    nothing of a SystemExit. *)
Definition _original_excepthook (e : env) (x : exn) : M unit :=
  if String.eqb (cls_name (exn_class x)) "SystemExit" then ret tt
  else modify (log_line (format_exception e x)).

(** The hook [app] installs over [threading.excepthook] when it is
    imported: it keeps the exception and its traceback, then calls the
    original hook. *)
Definition _thread_excepthook (e : env) (x : exn) : M unit :=
  modify (set_last (Some x) (Some (format_exception e x))) ;;;
  _original_excepthook e x.

(** [Thread(target=...).start()] *)
Definition start (d : bool) (work : N) (escapes : option exn) : M nat :=
  ts <- gets threads ;;
  modify (set_threads (ts ++ [Thread d work escapes true])) ;;;
  ret (length ts).

(** [t.join(timeout)]: the thread runs for at most [timeout_ms] more;
    when its work fits, it ends, and an exception that escaped its
    target goes to the hook. *)
Definition join (e : env) (tid : nat) (timeout_ms : N) : M unit :=
  ts <- gets threads ;;
  match ts !! tid with
  | None => ret tt
  | Some t =>
      if negb (alive t) then ret tt
      else if (work_ms t <=? timeout_ms)%N then
        modify (set_threads (<[tid := Thread (daemon t) 0 (dies_with t) false]> ts)) ;;;
        match dies_with t with
        | Some x => _thread_excepthook e x
        | None => ret tt
        end
      else
        modify (set_threads
                  (<[tid := Thread (daemon t) (work_ms t - timeout_ms)
                                   (dies_with t) true]> ts))
  end.

Definition is_alive (tid : nat) : M bool :=
  ts <- gets threads ;;
  ret (match ts !! tid with Some t => alive t | None => false end).

End threading.

(** ** models.py *)

Module models.

Module User.

Record t := mk {
  user_id : Z;
  name : string;
  email : string;
  role : string;
  preferences : pyval;
  last_name : pyval
}.

Definition __init__ (user_id : Z) (name email role : string) : t :=
  mk user_id name email role PNone PNone.

Definition set_preferences (p : pyval) (self : t) : t :=
  mk (user_id self) (name self) (email self) (role self) p (last_name self).

Definition get_display_name (self : t) : res string :=
  builtins.str_add (name self +:+ " ") (last_name self).

Definition get_notification_settings (self : t) : res pyval :=
  builtins.getitem (preferences self) "notifications".

End User.

Module Task.

Record t := mk {
  task_id : string;
  title : string;
  description : string;
  assignee : option User.t;
  tags : list string;
  priority : Z;
  comments : list pyval;
  history : list pyval
}.

Definition __init__ (task_id title description : string)
    (assignee : option User.t) (tags : option (list string)) (priority : Z) : t :=
  mk task_id title description assignee (default [] tags) priority [] [].

Definition get_latest_comment (self : t) : res pyval :=
  builtins.list_getitem (comments self) (-1).

Definition get_tag (self : t) (index : Z) : res string :=
  builtins.list_getitem (tags self) index.

Definition to_dict (self : t) : pyval :=
  PDict [("id", PStr (task_id self));
         ("title", PStr (title self));
         ("description", PStr (description self));
         ("assignee", match assignee self with
                      | Some u => PStr (User.name u)
                      | None => PNone
                      end);
         ("tags", PList (map PStr (tags self)));
         ("priority", PInt (priority self))].

End Task.

Module Project.

Record t := mk {
  project_id : string;
  name : string;
  owner : User.t;
  tasks : list Task.t;
  members : list User.t;
  settings : list (string * pyval)
}.

Definition __init__ (project_id name : string) (owner : User.t) : t :=
  mk project_id name owner [] [] [].

Definition set_members (ms : list User.t) (self : t) : t :=
  mk (project_id self) (name self) (owner self) (tasks self) ms (settings self).

Definition set_tasks (ts : list Task.t) (self : t) : t :=
  mk (project_id self) (name self) (owner self) ts (members self) (settings self).

Definition get_task_by_id (self : t) (task_id : string) : option Task.t :=
  find (fun task => String.eqb (Task.task_id task) task_id) (tasks self).

(** [completed / len(self.tasks) * 100]; the product of a float by an
    int is the interpreter's, [float_mul]. *)
Definition calculate_completion_rate (float_mul : pyfloat -> Z -> pyfloat)
    (self : t) : res pyval :=
  let completed :=
    length (filter (fun task => Task.priority task =? 0) (tasks self)) in
  ratio <~ builtins.truediv (Z.of_nat completed)
                            (PInt (Z.of_nat (length (tasks self)))) ;;
  match ratio with
  | PFloat f => Ok (PFloat (float_mul f 100))
  | other => Ok other
  end.

Definition get_config_value (self : t) (key : string) : res pyval :=
  dict_getitem (settings self) key.

End Project.

Module NotificationQueue.

Record t := mk {
  queue : list (list (string * pyval))
}.

Definition __init__ : t := mk [].

Definition enqueue (self : t) (notification : list (string * pyval)) : t :=
  mk (queue self ++ [notification]).

(** The loop of the worker, after its tenth of a second of sleep. *)
Definition _process_queue (self : t)
    (handler : list (string * pyval) -> res unit) : res unit :=
  fold_left (fun done notification => _ <~ done ;; handler notification)
            (queue self) (Ok tt).

Definition process_in_background (self : t)
    (handler : list (string * pyval) -> res unit) : M nat :=
  threading.start true 100
    (match _process_queue self handler with
     | Ok _ => None
     | Raise e => Some e
     end).

End NotificationQueue.

(** Category nodes are objects that point at each other, so they live
    in a store and are named by their index in it. *)
Module CategoryTree.

Record t := mk {
  name : string;
  parent : option nat;
  children : list nat
}.

Definition store := list t.

Definition __init__ (name : string) (parent : option nat) (h : store)
  : nat * store :=
  (length h, (h ++ [mk name parent []])%list).

(** [self.children.append(x)] *)
Definition children_append (self x : nat) (h : store) : store :=
  match h !! self with
  | Some node =>
      <[self := mk (name node) (parent node) (children node ++ [x])]> h
  | None => h
  end.

Definition add_child (self : nat) (name : string) (h : store) : nat * store :=
  let '(child, h1) := __init__ name (Some self) h in
  (child, children_append self child h1).

(** [frames] is the number of calls the interpreter still allows. *)
Fixpoint get_full_path (frames : nat) (h : store) (self : nat) : res string :=
  match frames with
  | O => raise RecursionError "maximum recursion depth exceeded"
  | S frames =>
      match h !! self with
      | None => builtins.none_has_no "get_full_path"
      | Some node =>
          match parent node with
          | None => Ok (name node)
          | Some p =>
              above <~ get_full_path frames h p ;;
              Ok (above +:+ " > " +:+ name node)
          end
      end
  end.

(** The answer is the index of the node found, or [None]. *)
Fixpoint find_category (frames : nat) (h : store) (self : nat)
    (wanted : string) : res (option nat) :=
  match frames with
  | O => raise RecursionError "maximum recursion depth exceeded"
  | S frames =>
      match h !! self with
      | None => builtins.none_has_no "find_category"
      | Some node =>
          if String.eqb (name node) wanted then Ok (Some self)
          else
            (fix each (cs : list nat) : res (option nat) :=
               match cs with
               | [] => Ok None
               | child :: rest =>
                   result <~ find_category frames h child wanted ;;
                   match result with
                   | Some found => Ok (Some found)
                   | None => each rest
                   end
               end) (children node)
      end
  end.

(** [frames] is the number of calls the interpreter still allows. *)
Fixpoint flatten (frames : nat) (h : store) (self : nat) : res (list string) :=
  match frames with
  | O => raise RecursionError "maximum recursion depth exceeded"
  | S frames =>
      match h !! self with
      | None => builtins.none_has_no "flatten"
      | Some node =>
          fold_left
            (fun result child =>
               r <~ result ;;
               sub <~ flatten frames h child ;;
               Ok (r ++ sub)%list)
            (children node) (Ok [name node])
      end
  end.

End CategoryTree.

Module APIResponse.

Record t := mk {
  raw_body : string;
  status_code : Z;
  _parsed : pyval
}.

Definition __init__ (raw_body : string) : t := mk raw_body 200 PNone.

(** Returns the parsed body and the response with its cache filled. *)
Definition json (self : t) : res (pyval * t) :=
  match _parsed self with
  | PNone =>
      v <~ json.loads (raw_body self) ;;
      Ok (v, mk (raw_body self) (status_code self) v)
  | v => Ok (v, self)
  end.

Definition get_field (self : t) (field_name : string) : res pyval :=
  data <~ json self ;;
  builtins.getitem (fst data) field_name.

End APIResponse.

End models.

(** ** utils.py *)

Module utils.

(** The numerator is an int; the denominator is any value. *)
Definition safe_divide (numerator : Z) (denominator : pyval) : res pyval :=
  builtins.truediv numerator denominator.

Definition parse_int_strict (value : string) : res Z := int_of_str value.

(** [max(min_val, min(max_val, value))] on ints. *)
Definition clamp (value min_val max_val : Z) : Z :=
  Z.max min_val (Z.min max_val value).

Definition generate_large_payload (n : Z) : list (list (string * pyval)) :=
  map (fun i => [("id", PInt (Z.of_nat i)); ("data", PStr (repeat_str "x" 1024))])
      (seq 0 (Z.to_nat n)).

Definition set_recursion_limit_for_deep_trees : M nat :=
  original <- sys.getrecursionlimit ;;
  sys.setrecursionlimit 50 ;;;
  ret original.

Definition restore_recursion_limit (original : nat) : M unit :=
  sys.setrecursionlimit original.

End utils.

(** ** services.py *)

Module services.
Import models.

(** *** The in-memory sample data *)

Record db := DB {
  users : gmap Z User.t;
  projects : gmap string Project.t;
  tasks_by_project : gmap string (list Task.t)
}.

(** The module globals as the three assignments leave them. *)
Definition unseeded : db :=
  DB (<[1 := User.__init__ 1 "Alice Chen" "alice@example.com" "admin"]>
     (<[2 := User.__init__ 2 "Bob Martinez" "bob@example.com" "member"]>
     (<[3 := User.__init__ 3 "Charlie Kim" "charlie@example.com" "member"]> ∅)))
     ∅ ∅.

Definition _seed_data (d : db) : db :=
  let users1 :=
    alter (User.set_preferences
             (PDict [("theme", PStr "dark"); ("language", PStr "en")]))
          1 (users d) in
  match users1 !! 1 with
  | None => d
  | Some owner =>
      let project := Project.__init__ "proj-1" "BugBoy Demo" owner in
      let project :=
        Project.set_members (snd <$> map_to_list users1) project in
      let task1 :=
        Task.__init__ "TASK-101" "Set up CI pipeline" "Configure GitHub Actions"
                      (users1 !! 2) (Some ["devops"; "ci"]) 1 in
      let task2 :=
        Task.__init__ "TASK-102" "Design landing page" "Create mockups in Figma"
                      (users1 !! 3) (Some ["design"]) 1 in
      let task3 :=
        Task.__init__ "TASK-103" "Write API docs" "Document all REST endpoints"
                      None (Some ["docs"]) 1 in
      let project := Project.set_tasks [task1; task2; task3] project in
      DB users1
         (<["proj-1" := project]> (projects d))
         (<["proj-1" := Project.tasks project]> (tasks_by_project d))
  end.

(** The globals once the module is imported: [_seed_data()] has run. *)
Definition seeded : db := _seed_data unseeded.
Definition _users : gmap Z User.t := users seeded.
Definition _projects : gmap string Project.t := projects seeded.
Definition _tasks_by_project : gmap string (list Task.t) := tasks_by_project seeded.

(** *** User service *)

Definition get_user (user_id : Z) : option User.t := _users !! user_id.

Definition get_user_display_name (user_id : Z) : res string :=
  match get_user user_id with
  | Some user => User.get_display_name user
  | None => builtins.none_has_no "get_display_name"
  end.

Definition get_user_notifications (user_id : Z) : res pyval :=
  match get_user user_id with
  | Some user => User.get_notification_settings user
  | None => builtins.none_has_no "get_notification_settings"
  end.

(** *** Task service *)

Definition get_project_tasks (project_id : string) : list Task.t :=
  default [] (_tasks_by_project !! project_id).

Definition get_task_detail (project_id task_id : string) : option Task.t :=
  match _projects !! project_id with
  | None => None
  | Some project => Project.get_task_by_id project task_id
  end.

Definition get_latest_comment (project_id task_id : string) : res pyval :=
  match get_task_detail project_id task_id with
  | Some task => Task.get_latest_comment task
  | None => builtins.none_has_no "get_latest_comment"
  end.

Definition get_task_assignee_email (project_id task_id : string) : res string :=
  match get_task_detail project_id task_id with
  | Some task =>
      match Task.assignee task with
      | Some user => Ok (User.email user)
      | None => builtins.none_has_no "email"
      end
  | None => builtins.none_has_no "assignee"
  end.

Definition get_task_tag (project_id task_id : string) (tag_index : Z)
  : res string :=
  match get_task_detail project_id task_id with
  | Some task => Task.get_tag task tag_index
  | None => builtins.none_has_no "get_tag"
  end.

(** *** Reporting *)

Definition calculate_project_stats (float_mul : pyfloat -> Z -> pyfloat)
    (project_id : string) : res pyval :=
  match _projects !! project_id with
  | None => Ok (PDict [("error", PStr "Project not found")])
  | Some project =>
      rate <~ Project.calculate_completion_rate float_mul project ;;
      Ok (PDict [("total_tasks",
                  PInt (Z.of_nat (length (Project.tasks project))));
                 ("completion_rate", rate)])
  end.

Definition generate_velocity_report (project_id : string) (sprint_points : Z)
  : res pyval :=
  match _projects !! project_id with
  | None => Ok PNone
  | Some project =>
      let days_in_sprint :=
        default (PInt 0) (dict_get (Project.settings project) "sprint_length_days") in
      velocity <~ builtins.truediv sprint_points days_in_sprint ;;
      Ok (PDict [("velocity_per_day", velocity);
                 ("total_points", PInt sprint_points)])
  end.

(** *** Config and file operations *)

Definition load_project_config (e : env) (project_id : string) : M pyval :=
  let config_path :=
    os.path_join (os.path_join "config" "projects") (project_id +:+ ".json") in
  c <- os.read e config_path ;;
  match c with
  | Text s => lift (json.loads s)
  | JsonDoc v => ret v
  end.

Definition write_export_file (e : env) (project_id : string) (data : pyval)
  : M string :=
  let export_dir := os.path_join (here e) ".exports" in
  os.makedirs export_dir ;;;
  let export_path := os.path_join export_dir (project_id +:+ ".json") in
  there <- os.path_exists export_path ;;
  (if negb there then
     os.open_w e export_path ;;;
     os.dump export_path (PDict [("placeholder", PBool true)])
   else ret tt) ;;;
  os.chmod export_path 292 ;;;
  os.open_w e export_path ;;;
  os.dump export_path data ;;;
  ret export_path.

(** *** External API integration *)

Definition in_quotes (s : string) : string := dq +:+ s +:+ dq.

Definition raw_responses : list (string * string) :=
  [("slack",
    "{" +:+ in_quotes "ok" +:+ ": true, " +:+ in_quotes "channel" +:+ ": "
        +:+ in_quotes "#general" +:+ "}");
   ("jira",
    "{" +:+ in_quotes "issues" +:+ ": [{" +:+ in_quotes "key" +:+ ": "
        +:+ in_quotes "BUG-1" +:+ ", " +:+ in_quotes "summary" +:+ ": "
        +:+ in_quotes "Fix login" +:+ "}]}");
   ("webhook",
    "{" +:+ in_quotes "event" +:+ ": " +:+ in_quotes "push" +:+ ", "
        +:+ in_quotes "ref" +:+ ": " +:+ in_quotes "main"
        +:+ ", timestamp: 1700000000}")].

Definition unknown_response : string :=
  "{" +:+ in_quotes "status" +:+ ": " +:+ in_quotes "unknown" +:+ "}".

Definition fetch_integration_data (service_name : string) : res pyval :=
  let raw := default unknown_response (dict_get raw_responses service_name) in
  let response := APIResponse.__init__ raw in
  parsed <~ APIResponse.json response ;;
  Ok (fst parsed).

Definition parse_incoming_webhook (payload_bytes : string) : res pyval :=
  text <~ builtins.decode_utf8 payload_bytes ;;
  json.loads text.

(** *** Database connection *)

Definition connect_to_database (e : env) (host : string) (port timeout : Z)
  : M bool :=
  try_finally
    (match connect_error e with
     | Some x => throw x
     | None => ret tt
     end)
    (ret tt) ;;;
  ret true.

(** *** Data processing *)

Definition import_tasks_from_csv (csv_text : string)
  : res (list (list (string * pyval))) :=
  match split "010" (strip csv_text) with
  | [] => raise IndexError "list index out of range"
  | first :: rest =>
      let headers := split "," first in
      fold_left
        (fun tasks line =>
           done <~ tasks ;;
           let values := split "," line in
           let row := dict_of_pairs (zip headers (PStr <$> values)) in
           p <~ dict_getitem row "priority" ;;
           n <~ match p with
                | PStr s => int_of_str s
                | _ => raise TypeError "int() argument must be a string"
                end ;;
           Ok (done ++ [dict_set row "priority" (PInt n)])%list)
        rest (Ok [])
  end.

(** *** Category hierarchy *)

Definition build_category_tree : nat * CategoryTree.store :=
  let '(root, h) := CategoryTree.__init__ "All Tasks" None [] in
  let '(eng, h) := CategoryTree.add_child root "Engineering" h in
  let '(_, h) := CategoryTree.add_child eng "Backend" h in
  let '(_, h) := CategoryTree.add_child eng "Frontend" h in
  let '(design, h) := CategoryTree.add_child root "Design" h in
  let '(_, h) := CategoryTree.add_child design "UI" h in
  let '(_, h) := CategoryTree.add_child design "UX" h in
  (root, h).

(** The three statements that build the tree of
    [build_recursive_categories]: the root, its child, and the store
    once the root is appended to the children of the child. *)
Definition recursive_categories : nat * nat * CategoryTree.store :=
  let '(root, h) := CategoryTree.__init__ "Root" None [] in
  let '(child, h) := CategoryTree.add_child root "Child" h in
  (root, child, CategoryTree.children_append child root h).

(** The traversal gets as many nested calls as the recursion limit
    allows; the calls already on the stack only shorten that budget. *)
Definition build_recursive_categories : M (list string) :=
  let '(root, _, h) := recursive_categories in
  frames <- sys.getrecursionlimit ;;
  lift (CategoryTree.flatten frames h root).

(** *** Background processing *)

Definition _load_notification_template (event_type : string) : res string :=
  dict_getitem
    [("task_assigned", "You have been assigned to {task}.");
     ("comment_added", "New comment on {task}: {comment}")]
    event_type.

Definition _send_notification (e : env) (user : option User.t)
    (template : string) (notification : list (string * pyval)) : res string :=
  builtins.format (str_of e) template notification.

Definition process_notifications_async (e : env) (user_id : Z)
    (event_type : string) : M nat :=
  let queue :=
    NotificationQueue.enqueue NotificationQueue.__init__
      [("user_id", PInt user_id); ("type", PStr event_type);
       ("ts", PFloat (FNum (now e)))] in
  let _handler := fun notification : list (string * pyval) =>
    uid <~ dict_getitem notification "user_id" ;;
    let recipient := match uid with PInt u => get_user u | _ => None end in
    ty <~ dict_getitem notification "type" ;;
    template <~ match ty with
                | PStr s => _load_notification_template s
                | other => raise KeyError (str_of e other)
                end ;;
    _ <~ _send_notification e recipient template notification ;;
    Ok tt in
  NotificationQueue.process_in_background queue _handler.

(** *** Timeout simulation *)

(** The two one-element lists the worker and the caller share. *)
Record cells := Cells {
  result : pyval;
  error : option exn
}.

(** What [wrapper] leaves in the cells when it has run to its end,
    and the exception that leaves it uncaught, if any: [except
    Exception] catches the instances of [Exception] only. *)
Definition wrapper (func : threading.callable) : cells * option exn :=
  match threading.yields func with
  | Ok v => (Cells v None, None)
  | Raise x =>
      if derives_Exception (exn_class x) then (Cells PNone (Some x), None)
      else (Cells PNone None, Some x)
  end.

Definition run_with_timeout (e : env) (func : threading.callable)
    (timeout_sec : N) : M pyval :=
  let '(finished, escaped) := wrapper func in
  thread <- threading.start false (threading.takes_ms func) escaped ;;
  threading.join e thread (1000 * timeout_sec) ;;;
  still <- threading.is_alive thread ;;
  if still then
    throw (mk_exn TimeoutError
             ("Operation timed out after " +:+ pretty timeout_sec +:+ "s"))
  else
    match error finished with
    | Some x => throw x
    | None => ret (result finished)
    end.

Definition slow_aggregation_query : threading.callable :=
  threading.Callable 10000 (Ok (PDict [("result", PStr "done")])).

(** *** Large-payload processing *)

Inductive index_key :=
| IntKey (z : Z)
| StrKey (s : string).

Definition key_eqb (a b : index_key) : bool :=
  match a, b with
  | IntKey x, IntKey y => x =? y
  | StrKey x, StrKey y => String.eqb x y
  | _, _ => false
  end.

Definition key_str (k : index_key) : string :=
  match k with
  | IntKey z => pretty z
  | StrKey s => s
  end.

(** An entry of the index: an item, or a cross-reference holding the
    item and a list of [duplicates] aliases of the values the index had
    at that moment. *)
Inductive entry :=
| Item (item : list (string * pyval))
| CrossRef (item : list (string * pyval)) (duplicates : nat).

Fixpoint index_set (index : list (index_key * entry)) (k : index_key)
    (v : entry) : list (index_key * entry) :=
  match index with
  | [] => [(k, v)]
  | (k', v') :: rest =>
      if key_eqb k' k then (k, v) :: rest else (k', v') :: index_set rest k v
  end.

(** [item.get(id, id(item))] as a key of the index.  An id that is
    neither an int nor a str is keyed by its text here (a dict would key
    True with 1, and refuse a list). *)
Definition item_key (e : env) (n : nat) (item : list (string * pyval))
  : index_key :=
  match dict_get item "id" with
  | Some (PInt i) => IntKey i
  | Some (PStr s) => StrKey s
  | Some v => StrKey (str_of e v)
  | None => IntKey (object_id e n)
  end.

(** The loop of [process_bulk_import] from the [n]-th item on; [used]
    counts the list cells allocated so far for the [duplicates] lists. *)
Fixpoint bulk_index (e : env) (n : nat) (items : list (list (string * pyval)))
    (index : list (index_key * entry)) (used : N)
  : res (list (index_key * entry)) :=
  match items with
  | [] => Ok index
  | item :: rest =>
      let key := item_key e n item in
      let index := index_set index key (Item item) in
      let used := (used + N.of_nat (length index))%N in
      if (heap_cells e <? used)%N then raise MemoryError ""
      else
        bulk_index e (S n) rest
          (index_set index (StrKey ("ref-" +:+ key_str key))
                     (CrossRef item (length index)))
          used
  end.

Definition process_bulk_import (e : env) (items : list (list (string * pyval)))
  : res pyval :=
  index <~ bulk_index e 0 items [] 0%N ;;
  Ok (PDict [("indexed", PInt (Z.of_nat (length index)))]).

End services.

(** ** app.py *)

Module app.
Import models.

(** *** The bug registry *)

Definition bug (id name route method description category : string)
  : list (string * pyval) :=
  [("id", PStr id);
   ("name", PStr name);
   ("route", PStr route);
   ("method", PStr method);
   ("description", PStr description);
   ("category", PStr category)].

Definition BUGS : list (list (string * pyval)) :=
  [bug "type-error" "TypeError" "/trigger/type-error" "GET"
       ("Format a user's full display name — fails because "
        +:+ "last_name is None (can't concatenate str and NoneType).")
       "TypeError";
   bug "key-error" "KeyError" "/trigger/key-error" "GET"
       ("Load notification settings for a user whose preferences "
        +:+ "dict is missing the 'notifications' key.")
       "KeyError / AttributeError";
   bug "attribute-error" "AttributeError" "/trigger/attribute-error" "GET"
       ("Look up the assignee's email for an unassigned task — "
        +:+ "accessing .email on None raises AttributeError.")
       "AttributeError";
   bug "zero-division" "ZeroDivisionError" "/trigger/zero-division" "GET"
       ("Generate a velocity report where sprint_length_days "
        +:+ "defaults to 0, causing division by zero.")
       "ZeroDivisionError";
   bug "index-error" "IndexError" "/trigger/index-error" "GET"
       ("Retrieve the latest comment on a task that has no "
        +:+ "comments — list index out of range.")
       "IndexError";
   bug "file-not-found" "FileNotFoundError" "/trigger/file-not-found" "GET"
       "Load a project config file from disk that doesn't exist."
       "FileNotFoundError";
   bug "json-decode-error" "JSONDecodeError" "/trigger/json-decode-error" "GET"
       ("Parse a webhook response from a third-party service "
        +:+ "that returns malformed JSON.")
       "JSONDecodeError";
   bug "unicode-decode-error" "UnicodeDecodeError"
       "/trigger/unicode-decode-error" "POST"
       ("Process an incoming webhook payload containing "
        +:+ "invalid UTF-8 byte sequences.")
       "UnicodeDecodeError";
   bug "recursion-error" "RecursionError" "/trigger/recursion-error" "GET"
       ("Flatten a category tree that has an accidental "
        +:+ "circular parent→child reference.")
       "RecursionError";
   bug "connection-error" "ConnectionError" "/trigger/connection-error" "GET"
       ("Attempt to connect to an internal database host "
        +:+ "that is unreachable.")
       "ConnectionError";
   bug "value-error" "ValueError" "/trigger/value-error" "POST"
       ("Import tasks from CSV where the priority column "
        +:+ "contains a non-numeric string.")
       "ValueError";
   bug "permission-error" "PermissionError" "/trigger/permission-error" "GET"
       ("Export project data to a file that was locked "
        +:+ "read-only by a previous backup job.")
       "PermissionError";
   bug "timeout-error" "TimeoutError" "/trigger/timeout-error" "GET"
       ("Run a slow aggregation query that exceeds the "
        +:+ "configured timeout threshold.")
       "TimeoutError";
   bug "thread-error" "Unhandled Thread Exception" "/trigger/thread-error" "GET"
       ("Fire a background notification job whose handler "
        +:+ "crashes — exception surfaces via threading.excepthook.")
       "Unhandled Thread Exception";
   bug "memory-error" "MemoryError" "/trigger/memory-error" "POST"
       ("Submit an extremely large bulk-import payload that "
        +:+ "causes excessive memory consumption.")
       "MemoryError"].

(** *** Requests and responses *)

Record request := Request {
  args : list (string * string);      (* the query string *)
  data : string                       (* the body, as bytes *)
}.

(** [request.args.get(key, default)] *)
Definition args_get (req : request) (key fallback : string) : string :=
  default fallback (dict_get (args req) key).

(** [request.args.get(key, default, type=int)]: a value that is not a
    number gives the default too. *)
Definition args_get_int (req : request) (key : string) (fallback : Z) : Z :=
  match dict_get (args req) key with
  | None => fallback
  | Some v => default fallback (int_literal v)
  end.

Inductive payload :=
| Json (v : pyval)
| Html (s : string).

Record response := Response {
  status : Z;
  body : payload
}.

Definition jsonify (v : pyval) : response := Response 200 (Json v).

(** *** The views *)

Definition dashboard (e : env) : M response :=
  html <- lift (render e "dashboard.html" (PDict [("bugs", PList (PDict <$> BUGS))])) ;;
  ret (Response 200 (Html html)).

Definition list_bugs : M response :=
  ret (jsonify (PList (PDict <$> BUGS))).

Definition trigger_type_error (req : request) : M response :=
  let user_id := args_get_int req "user_id" 2 in
  display_name <- lift (services.get_user_display_name user_id) ;;
  ret (jsonify (PDict [("display_name", PStr display_name)])).

Definition trigger_key_error (req : request) : M response :=
  let user_id := args_get_int req "user_id" 1 in
  settings <- lift (services.get_user_notifications user_id) ;;
  ret (jsonify (PDict [("notifications", settings)])).

Definition trigger_attribute_error : M response :=
  email <- lift (services.get_task_assignee_email "proj-1" "TASK-103") ;;
  ret (jsonify (PDict [("assignee_email", PStr email)])).

Definition trigger_zero_division (req : request) : M response :=
  let sprint_points := args_get_int req "points" 42 in
  report <- lift (services.generate_velocity_report "proj-1" sprint_points) ;;
  ret (jsonify report).

Definition trigger_index_error : M response :=
  comment <- lift (services.get_latest_comment "proj-1" "TASK-101") ;;
  ret (jsonify (PDict [("latest_comment", comment)])).

Definition trigger_file_not_found (e : env) : M response :=
  config <- services.load_project_config e "proj-1" ;;
  ret (jsonify config).

Definition trigger_json_decode_error (req : request) : M response :=
  let service := args_get req "service" "webhook" in
  data <- lift (services.fetch_integration_data service) ;;
  ret (jsonify data).

Definition bad_payload : string :=
  "{" +:+ services.in_quotes "user" +:+ ": " +:+ dq +:+ "M"
      +:+ json.byte_str 252 +:+ "ller" +:+ dq +:+ ", "
      +:+ services.in_quotes "action" +:+ ": " +:+ services.in_quotes "login"
      +:+ "}".

Definition trigger_unicode_decode_error : M response :=
  result <- lift (services.parse_incoming_webhook bad_payload) ;;
  ret (jsonify result).

Definition trigger_recursion_error : M response :=
  original_limit <- utils.set_recursion_limit_for_deep_trees ;;
  try_finally
    (categories <- services.build_recursive_categories ;;
     ret (jsonify (PDict [("categories", PList (PStr <$> categories))])))
    (utils.restore_recursion_limit original_limit).

Definition trigger_connection_error (e : env) : M response :=
  services.connect_to_database e "db.internal.local" 5432 2 ;;;
  ret (jsonify (PDict [("status", PStr "connected")])).

Definition default_csv : string :=
  "title,description,priority" +:+ nl
  +:+ "Fix login,Users can't log in,high" +:+ nl
  +:+ "Update docs,Add API examples,2".

Definition trigger_value_error (req : request) : M response :=
  csv_data <- (if String.eqb (data req) "" then ret ""
               else lift (builtins.decode_utf8 (data req))) ;;
  let csv_data := if String.eqb csv_data "" then default_csv else csv_data in
  tasks <- lift (services.import_tasks_from_csv csv_data) ;;
  ret (jsonify (PDict [("imported", PInt (Z.of_nat (length tasks)));
                       ("tasks", PList (PDict <$> tasks))])).

Definition trigger_permission_error (e : env) : M response :=
  match services._projects !! "proj-1" with
  | None => lift (builtins.none_has_no "tasks")
  | Some project =>
      let task_data := PList (Task.to_dict <$> Project.tasks project) in
      path <- services.write_export_file e "proj-1" task_data ;;
      ret (jsonify (PDict [("exported_to", PStr path)]))
  end.

Definition trigger_timeout_error (e : env) : M response :=
  result <- services.run_with_timeout e services.slow_aggregation_query 2 ;;
  ret (jsonify result).

Definition trigger_thread_error (e : env) : M response :=
  modify (set_last None None) ;;;
  thread <- services.process_notifications_async e 1 "task_assigned" ;;
  threading.join e thread 5000 ;;;
  failed <- gets last_error ;;
  match failed with
  | Some x => throw x
  | None => ret (jsonify (PDict [("status", PStr "notification sent")]))
  end.

Definition trigger_memory_error (e : env) (req : request) : M response :=
  let count := args_get_int req "count" 500000 in
  let items := utils.generate_large_payload count in
  result <- lift (services.process_bulk_import e items) ;;
  ret (jsonify result).

Definition health : M response :=
  ret (jsonify (PDict [("status", PStr "ok"); ("app", PStr "bugboy-python")])).

(** *** The error handler *)

Definition handle_exception (e : env) (x : exn) : M response :=
  modify (capture x) ;;;
  let tb := format_exception e x in
  modify (log_line ("Unhandled exception:" +:+ nl +:+ tb)) ;;;
  ret (Response 500
         (Json (PDict [("error", PStr (cls_name (exn_class x)));
                       ("message", PStr (exn_str x));
                       ("traceback", PStr tb)]))).

(** *** Routing *)

Inductive endpoint :=
| Dashboard
| ListBugs
| TriggerTypeError
| TriggerKeyError
| TriggerAttributeError
| TriggerZeroDivision
| TriggerIndexError
| TriggerFileNotFound
| TriggerJsonDecodeError
| TriggerUnicodeDecodeError
| TriggerRecursionError
| TriggerConnectionError
| TriggerValueError
| TriggerPermissionError
| TriggerTimeoutError
| TriggerThreadError
| TriggerMemoryError
| Health.

(** The rules the [app.route] decorators register, in source order. *)
Definition url_map : list (string * string * endpoint) :=
  [("/", "GET", Dashboard);
   ("/api/bugs", "GET", ListBugs);
   ("/trigger/type-error", "GET", TriggerTypeError);
   ("/trigger/key-error", "GET", TriggerKeyError);
   ("/trigger/attribute-error", "GET", TriggerAttributeError);
   ("/trigger/zero-division", "GET", TriggerZeroDivision);
   ("/trigger/index-error", "GET", TriggerIndexError);
   ("/trigger/file-not-found", "GET", TriggerFileNotFound);
   ("/trigger/json-decode-error", "GET", TriggerJsonDecodeError);
   ("/trigger/unicode-decode-error", "POST", TriggerUnicodeDecodeError);
   ("/trigger/recursion-error", "GET", TriggerRecursionError);
   ("/trigger/connection-error", "GET", TriggerConnectionError);
   ("/trigger/value-error", "POST", TriggerValueError);
   ("/trigger/permission-error", "GET", TriggerPermissionError);
   ("/trigger/timeout-error", "GET", TriggerTimeoutError);
   ("/trigger/thread-error", "GET", TriggerThreadError);
   ("/trigger/memory-error", "POST", TriggerMemoryError);
   ("/health", "GET", Health)].

Definition view (ep : endpoint) (e : env) (req : request) : M response :=
  match ep with
  | Dashboard => dashboard e
  | ListBugs => list_bugs
  | TriggerTypeError => trigger_type_error req
  | TriggerKeyError => trigger_key_error req
  | TriggerAttributeError => trigger_attribute_error
  | TriggerZeroDivision => trigger_zero_division req
  | TriggerIndexError => trigger_index_error
  | TriggerFileNotFound => trigger_file_not_found e
  | TriggerJsonDecodeError => trigger_json_decode_error req
  | TriggerUnicodeDecodeError => trigger_unicode_decode_error
  | TriggerRecursionError => trigger_recursion_error
  | TriggerConnectionError => trigger_connection_error e
  | TriggerValueError => trigger_value_error req
  | TriggerPermissionError => trigger_permission_error e
  | TriggerTimeoutError => trigger_timeout_error e
  | TriggerThreadError => trigger_thread_error e
  | TriggerMemoryError => trigger_memory_error e req
  | Health => health
  end.

(** One request: the view runs, and an instance of [Exception] that
    leaves it reaches [handle_exception]. *)
Definition serve (ep : endpoint) (e : env) (req : request) : M response :=
  fun w =>
    match view ep e req w with
    | (Ok r, w') => (Ok r, w')
    | (Raise x, w') =>
        if derives_Exception (exn_class x) then handle_exception e x w'
        else (Raise x, w')
    end.

(** A request that carries nothing: every parameter takes its default. *)
Definition no_input : request := Request [] "".

End app.

(** ** A sample host, for evaluating the service on concrete requests *)

Module sample.

Definition quiet_env : env :=
  Env false "/srv/app" (Qmake 1700000000 1) None 1000
      (fun _ _ => Ok "<html></html>")
      (fun x => cls_name (exn_class x) +:+ ": " +:+ exn_str x)
      (fun _ => "")
      (fun n => Z.of_nat n).

Definition fresh_world : world :=
  World (FS ∅ ∅) 1000 [] None None [] [].

(** A function that calls [sys.exit(1)] at once. *)
Definition exits_at_once : threading.callable :=
  threading.Callable 0 (raise SystemExit "1").

End sample.

(** ** Properties used in the statements below *)

(** What a scanner may answer on input [s] when its fuel is enough:
    anything but [Deep], and what it leaves unread is part of [s]. *)
Definition string_scanned (s : string) (x : json.scan string) : Prop :=
  match x with
  | json.Scanned _ r => (String.length r <= String.length s)%nat
  | json.Bad _ _ => True
  | _ => False
  end.

Definition rest_le {A} (s : string) (x : json.scan A) : Prop :=
  match x with
  | json.Scanned _ r => (String.length r <= String.length s)%nat
  | json.Deep => False
  | _ => True
  end.

Definition rest_lt {A} (s : string) (x : json.scan A) : Prop :=
  match x with
  | json.Scanned _ r => (String.length r < String.length s)%nat
  | json.Deep => False
  | _ => True
  end.

(** The fuel each scanner function needs for an input, three calls for
    a character. *)
Definition enough (fuel : nat) : Prop :=
  (forall s, (3 * String.length s + 1 <= fuel)%nat ->
             rest_lt s (json.scan_once fuel s))
  /\ (forall s, (3 * String.length s + 3 <= fuel)%nat ->
                rest_le s (json.JSONObject fuel s))
  /\ (forall s p, (3 * String.length s + 2 <= fuel)%nat ->
                  rest_le s (json.object_members fuel s p))
  /\ (forall s, (3 * String.length s + 3 <= fuel)%nat ->
                rest_le s (json.JSONArray fuel s))
  /\ (forall s vs, (3 * String.length s + 2 <= fuel)%nat ->
                   rest_le s (json.array_elements fuel s vs)).

(** A computation that leaves the file system as it found it. *)
Definition keeps_fs {A} (m : M A) : Prop :=
  forall w, fs (snd (m w)) = fs w.

(** Two file systems that agree on every path outside [P]. *)
Definition same_outside (P : string -> Prop) (f g : filesystem) : Prop :=
  forall p, ~ P p ->
    (p ∈ dirs g <-> p ∈ dirs f) /\ files g !! p = files f !! p.

(** A computation that creates or modifies nothing outside [P]. *)
Definition touches_only {A} (P : string -> Prop) (m : M A) : Prop :=
  forall w, same_outside P (fs w) (fs (snd (m w))).

(** The rules of [url_map] under the trigger prefix. *)
Definition trigger_rules : list (string * string * app.endpoint) :=
  filter (fun r => bool_decide (is_Some (starts_with "/trigger/" (fst (fst r)))))
         app.url_map.

(** Where [write_export_file] puts the export of a project. *)
Definition export_dir (e : env) : string := os.path_join (here e) ".exports".

Definition export_path (e : env) (project_id : string) : string :=
  os.path_join (export_dir e) (project_id +:+ ".json").

Fixpoint has_slash (s : string) : bool :=
  match s with
  | EmptyString => false
  | String c rest => ascii_eqb c "/" || has_slash rest
  end.

(** What the first [open] of [write_export_file] writes. *)
Definition placeholder : pyval := PDict [("placeholder", PBool true)].

(** What the export of proj-1 holds after [write_export_file]: the
    data when the process may overwrite a read-only file, else what was
    there, or the placeholder when nothing was. *)
Definition export_content (e : env) (w : world) (data : pyval) : fcontent :=
  if privileged e then JsonDoc data
  else match files (fs w) !! export_path e "proj-1" with
       | Some old => content old
       | None => JsonDoc placeholder
       end.

(** What [trigger_permission_error] hands to [write_export_file]. *)
Definition task_data : pyval :=
  PList (models.Task.to_dict
           <$> default [] (models.Project.tasks <$> services._projects !! "proj-1")).

(** The exception [run_with_timeout] raises at the deadline. *)
Definition timed_out (timeout_sec : N) : exn :=
  mk_exn TimeoutError
         ("Operation timed out after " +:+ pretty timeout_sec +:+ "s").

(** The world after the worker of [run_with_timeout] ended within the
    deadline: its thread is over, and an exception that escaped it went
    to the hook. *)
Definition after_worker (e : env) (escaped : option exn) (w : world) : world :=
  snd ((match escaped with
        | Some x => threading._thread_excepthook e x
        | None => ret tt
        end)
         (set_threads (threads w ++ [Thread false 0 escaped false]) w)).

(** The body of an error response for an exception of class [c]. *)
Definition error_body (c : pyclass) (msg tb : string) : app.payload :=
  app.Json (PDict [("error", PStr (cls_name c));
                   ("message", PStr msg);
                   ("traceback", PStr tb)]).

(** ** Properties used for the rest of the code *)

(** The stores that the constructor and [add_child] make. *)
Inductive built : models.CategoryTree.store -> Prop :=
| built_nothing : built []
| built_root (name : string) (h : models.CategoryTree.store) :
    built h -> built (snd (models.CategoryTree.__init__ name None h))
| built_child (self : nat) (name : string) (h : models.CategoryTree.store) :
    built h -> (self < length h)%nat ->
    built (snd (models.CategoryTree.add_child self name h)).

(** Children come after their parent in the store, parents before. *)
Definition children_forward (h : models.CategoryTree.store) : Prop :=
  forall i node, h !! i = Some node ->
    Forall (fun c => (i < c < length h)%nat) (models.CategoryTree.children node).

Definition parents_backward (h : models.CategoryTree.store) : Prop :=
  forall i node p, h !! i = Some node ->
    models.CategoryTree.parent node = Some p -> (p < i)%nat.


(** The loop body of [import_tasks_from_csv]. *)
Definition import_row (headers : list string)
    (tasks : res (list (list (string * pyval)))) (line : string)
  : res (list (list (string * pyval))) :=
  done <~ tasks ;;
  let values := split "," line in
  let row := dict_of_pairs (zip headers (PStr <$> values)) in
  p <~ dict_getitem row "priority" ;;
  n <~ match p with
       | PStr s => int_of_str s
       | _ => raise TypeError "int() argument must be a string"
       end ;;
  Ok (done ++ [dict_set row "priority" (PInt n)])%list.

Definition int_priority (row : list (string * pyval)) : Prop :=
  exists n, dict_get row "priority" = Some (PInt n).


(** The keys the index holds once the items [0 .. k-1] of a generated
    payload are in. *)
Definition key_below (k : nat) (key : services.index_key) : Prop :=
  match key with
  | services.IntKey z => 0 <= z < Z.of_nat k
  | services.StrKey s => exists i : Z, 0 <= i < Z.of_nat k /\ s = "ref-" +:+ pretty i
  end.

Definition payload_item (i : nat) : list (string * pyval) :=
  [("id", PInt (Z.of_nat i)); ("data", PStr (repeat_str "x" 1024))].


(** A computation that leaves one component of the world as it found
    it. *)
Definition keeps {A B} (part : world -> B) (m : M A) : Prop :=
  forall w, part (snd (m w)) = part w.

(** A view that answers with status 200 whenever it answers. *)
Definition answers_200 (m : M app.response) : Prop :=
  forall w r w', m w = (Ok r, w') -> app.status r = 200.


(** Bytes below 128 only. *)
Definition all_ascii (s : string) : Prop :=
  Forall (fun c => code c < 128) (list_ascii_of_string s).

(** The bytes that no UTF-8 text holds: 0xC0, 0xC1 and 0xF5 to 0xFF. *)
Definition never_in_utf8 (c : ascii) : bool :=
  (code c =? 192) || (code c =? 193) || (245 <=? code c).

(** * Theorems *)

(** ** The monad *)

Lemma bind_ok {A B} (m : M A) (k : A -> M B) w a w' :
  m w = (Ok a, w') -> bind m k w = k a w'.
Proof. intros H. unfold bind. now rewrite H. Qed.


Lemma raises_intro {A} (c : pyclass) (msg : string) :
  raises (A := A) (raise c msg) c.
Proof. now exists msg. Qed.

(** ** The decoder has fuel enough *)

Lemma skip_ws_le (s : string) :
  (String.length (json.skip_ws s) <= String.length s)%nat.
Proof.
  induction s as [| c s IH]; [reflexivity |].
  cbn [json.skip_ws]. destruct (json.is_json_ws c); cbn [String.length]; lia.
Qed.

Lemma eat_length (c : ascii) (s r : string) :
  eat c s = Some r -> String.length s = S (String.length r).
Proof.
  destruct s as [| d s]; [discriminate |]. cbn [eat].
  destruct (ascii_eqb d c); [| discriminate]. now intros [= ->].
Qed.

Lemma starts_with_length (p s r : string) :
  starts_with p s = Some r ->
  String.length s = (String.length p + String.length r)%nat.
Proof.
  revert s. induction p as [| a p IH]; intros s H.
  - now injection H as ->.
  - destruct s as [| b s]; [discriminate |]. cbn [starts_with] in H.
    destruct (ascii_eqb a b); [| discriminate].
    cbn [String.length]. now rewrite (IH s H).
Qed.

Lemma take_digits_le (s : string) :
  (String.length (snd (json.take_digits s)) <= String.length s)%nat.
Proof.
  induction s as [| c s IH]; [reflexivity |].
  cbn [json.take_digits]. destruct (is_digit c); [| reflexivity].
  destruct (json.take_digits s) as [ds r]. cbn [snd String.length] in *. lia.
Qed.

Lemma integer_part_lt (s r : string) (ds : list Z) :
  json.integer_part s = Some (ds, r) ->
  (String.length r < String.length s)%nat.
Proof.
  destruct s as [| c s]; [discriminate |]. cbn [json.integer_part].
  destruct (ascii_eqb c "0").
  - intros [= <- <-]. cbn. lia.
  - destruct (is_digit c) eqn:Hd; [| discriminate].
    cbn [json.take_digits]. rewrite Hd.
    pose proof (take_digits_le s) as Hle.
    destruct (json.take_digits s) as [ds' r']. intros [= <- <-].
    cbn [snd String.length] in *. lia.
Qed.

Lemma fraction_part_le (s : string) :
  (String.length (snd (json.fraction_part s)) <= String.length s)%nat.
Proof.
  unfold json.fraction_part. destruct (eat "." s) as [rest |] eqn:He; [| reflexivity].
  apply eat_length in He. pose proof (take_digits_le rest) as Hle.
  destruct (json.take_digits rest) as [[| d ds] r]; cbn [snd] in *; lia.
Qed.

Lemma exponent_part_le (s : string) :
  (String.length (snd (json.exponent_part s)) <= String.length s)%nat.
Proof.
  unfold json.exponent_part. destruct s as [| c rest]; [reflexivity |].
  destruct (ascii_eqb c "e" || ascii_eqb c "E"); [| reflexivity].
  destruct (eat "-" rest) as [r1 |] eqn:H1;
    [apply eat_length in H1
    | destruct (eat "+" rest) as [r2 |] eqn:H2; [apply eat_length in H2 |]].
  all: match goal with
       | |- context [json.take_digits ?b] =>
           pose proof (take_digits_le b);
           destruct (json.take_digits b) as [[| d ds] r]
       end.
  all: cbn [snd String.length] in *; lia.
Qed.

Lemma match_number_lt (s r : string) (v : pyval) :
  json.match_number s = Some (v, r) ->
  (String.length r < String.length s)%nat.
Proof.
  unfold json.match_number. intros H.
  destruct (eat "-" s) as [r1 |] eqn:H1; [apply eat_length in H1 |].
  all: match type of H with
       | context [json.integer_part ?b] =>
           destruct (json.integer_part b) as [[ids s1] |] eqn:Hi;
           [apply integer_part_lt in Hi | discriminate H]
       end.
  all: pose proof (fraction_part_le s1) as Hf;
    destruct (json.fraction_part s1) as [fds s2];
    pose proof (exponent_part_le s2) as He;
    destruct (json.exponent_part s2) as [ex s3]; cbn [snd] in *.
  all: destruct fds, ex; injection H as _ <-; lia.
Qed.

Lemma literal_lt (s r : string) (v : pyval) :
  json.literal s = Some (v, r) -> (String.length r < String.length s)%nat.
Proof.
  unfold json.literal. intros H.
  repeat match type of H with
         | context [match starts_with ?p s with _ => _ end] =>
             let E := fresh "E" in
             destruct (starts_with p s) eqn:E;
             [apply starts_with_length in E; injection H as _ <-; cbn in E; lia |]
         end.
  destruct (json.match_number s) as [[v' r'] |] eqn:Hn.
  - injection H as _ <-. now apply match_number_lt in Hn.
  - repeat match type of H with
         | context [match starts_with ?p s with _ => _ end] =>
             let E := fresh "E" in
             destruct (starts_with p s) eqn:E;
             [apply starts_with_length in E; injection H as _ <-; cbn in E; lia |]
         end.
    discriminate.
Qed.

Lemma decode_uXXXX_length (s rest : string) (u : Z) :
  json.decode_uXXXX s = Some (u, rest) ->
  String.length s = (4 + String.length rest)%nat.
Proof.
  unfold json.decode_uXXXX. intros H.
  destruct s as [| a [| b [| c [| d s]]]]; try discriminate.
  destruct (json.hex_val a), (json.hex_val b), (json.hex_val c), (json.hex_val d);
    try discriminate.
  now injection H as _ <-.
Qed.

Lemma string_scanned_le (s s' : string) (x : json.scan string) :
  string_scanned s' x -> (String.length s' <= String.length s)%nat ->
  string_scanned s x.
Proof. destruct x; cbn; lia. Qed.

Lemma scanstring_go_scanned (fuel b : nat) (s acc : string) :
  string_scanned s (json.scanstring_go fuel b s acc).
Proof.
  revert s acc. induction fuel as [| fuel IH]; intros s acc; [exact I |].
  cbn [json.scanstring_go]. destruct s as [| c rest]; [exact I |].
  destruct (ascii_eqb c "034"); [cbn; lia |].
  destruct (ascii_eqb c json.backslash).
  - destruct rest as [| e rest']; [exact I |].
    destruct (ascii_eqb e "u").
    + destruct (json.decode_uXXXX rest') as [[uni after] |] eqn:Hu; [| exact I].
      apply decode_uXXXX_length in Hu.
      destruct after as [| a1 after']; [exact I |].
      match goal with
      | |- context [match ?p with Some _ => _ | None => _ end] =>
          destruct p as [[cp after2] |] eqn:Hp
      end.
      * eapply string_scanned_le; [apply IH |].
        destruct ((55296 <=? uni) && (uni <=? 56319)); [| discriminate].
        destruct after' as [| b2 more]; try discriminate.
        destruct (ascii_eqb a1 json.backslash && ascii_eqb b2 "u"); [| discriminate].
        destruct (json.decode_uXXXX more) as [[uni2 [| a2 more2]] |] eqn:Hu2;
          try discriminate.
        apply decode_uXXXX_length in Hu2.
        destruct ((56320 <=? uni2) && (uni2 <=? 57343)); [| discriminate].
        injection Hp as _ <-. cbn [String.length] in *. lia.
      * eapply string_scanned_le; [apply IH |]. cbn [String.length] in *. lia.
    + destruct (json.simple_escape e); [| exact I].
      eapply string_scanned_le; [apply IH |]. cbn [String.length]. lia.
  - destruct (code c <? 32); [exact I |].
    eapply string_scanned_le; [apply IH |]. cbn [String.length]. lia.
Qed.

Lemma scanstring_scanned (s : string) : string_scanned s (json.scanstring s).
Proof. apply scanstring_go_scanned. Qed.

Lemma rest_le_mono {A} (s s' : string) (x : json.scan A) :
  rest_le s' x -> (String.length s' <= String.length s)%nat -> rest_le s x.
Proof. destruct x; cbn; lia. Qed.

Lemma rest_le_lt {A} (s s' : string) (x : json.scan A) :
  rest_le s' x -> (String.length s' < String.length s)%nat -> rest_lt s x.
Proof. destruct x; cbn; lia. Qed.

Lemma enough_fuel (fuel : nat) : enough fuel.
Proof.
  induction fuel as [| fuel (IHs & IHo & IHm & IHa & IHe)].
  { repeat split; intros; lia. }
  repeat split.
  - intros s Hf. cbn [json.scan_once].
    destruct s as [| c rest]; [exact I |]. cbn [String.length] in Hf.
    destruct (ascii_eqb c "034").
    { pose proof (scanstring_scanned rest) as Hs.
      destruct (json.scanstring rest); cbn in *; try exact I; try lia; tauto. }
    destruct (ascii_eqb c "{").
    { eapply rest_le_lt; [apply IHo; lia | cbn; lia]. }
    destruct (ascii_eqb c "[").
    { eapply rest_le_lt; [apply IHa; lia | cbn; lia]. }
    destruct (json.literal (String c rest)) as [[v r] |] eqn:Hl; [| exact I].
    apply literal_lt in Hl. exact Hl.
  - intros s Hf. cbn [json.JSONObject]. cbv zeta.
    pose proof (skip_ws_le s) as Hw.
    destruct (eat "034" (json.skip_ws s)) as [rest |] eqn:H1.
    { apply eat_length in H1. eapply rest_le_mono; [apply IHm; lia | lia]. }
    destruct (eat "}" (json.skip_ws s)) as [rest |] eqn:H2; [| exact I].
    apply eat_length in H2. cbn. lia.
  - intros s p Hf. cbn [json.object_members].
    pose proof (scanstring_scanned s) as Hs.
    destruct (json.scanstring s) as [key s1 | | |]; cbn in Hs; try exact I; try tauto.
    cbv zeta. pose proof (skip_ws_le s1) as Hw1.
    destruct (eat ":" (json.skip_ws s1)) as [s3 |] eqn:H3; [| exact I].
    apply eat_length in H3. pose proof (skip_ws_le s3) as Hw3.
    pose proof (IHs (json.skip_ws s3)) as Hv.
    destruct (json.scan_once fuel (json.skip_ws s3)) as [value s5 | | |];
      try exact I; [| cbn in Hv; apply Hv; lia].
    cbn in Hv. specialize (Hv ltac:(lia)).
    pose proof (skip_ws_le s5) as Hw5.
    destruct (eat "}" (json.skip_ws s5)) as [s7 |] eqn:H7.
    { apply eat_length in H7. cbn. lia. }
    destruct (eat "," (json.skip_ws s5)) as [s7 |] eqn:H8; [| exact I].
    apply eat_length in H8. pose proof (skip_ws_le s7) as Hw7.
    destruct (eat "034" (json.skip_ws s7)) as [s9 |] eqn:H9; [| exact I].
    apply eat_length in H9. eapply rest_le_mono; [apply IHm; lia | lia].
  - intros s Hf. cbn [json.JSONArray]. cbv zeta.
    pose proof (skip_ws_le s) as Hw.
    destruct (eat "]" (json.skip_ws s)) as [rest |] eqn:H1.
    { apply eat_length in H1. cbn. lia. }
    eapply rest_le_mono; [apply IHe; lia | lia].
  - intros s vs Hf. cbn [json.array_elements].
    pose proof (IHs s) as Hv.
    destruct (json.scan_once fuel s) as [value s1 | | |];
      try exact I; [| cbn in Hv; apply Hv; lia].
    cbn in Hv. specialize (Hv ltac:(lia)). cbv zeta.
    pose proof (skip_ws_le s1) as Hw1.
    destruct (eat "]" (json.skip_ws s1)) as [s3 |] eqn:H3.
    { apply eat_length in H3. cbn. lia. }
    destruct (eat "," (json.skip_ws s1)) as [s3 |] eqn:H4; [| exact I].
    apply eat_length in H4. pose proof (skip_ws_le s3) as Hw3.
    eapply rest_le_mono; [apply IHe; lia | lia].
Qed.

(** The decoder never gives up for lack of fuel. *)
Lemma loads_fuel (s : string) :
  json.scan_once (3 * String.length s + 3) (json.skip_ws s) <> json.Deep.
Proof.
  pose proof (skip_ws_le s) as Hw.
  destruct (enough_fuel (3 * String.length s + 3)) as (Hs & _).
  specialize (Hs (json.skip_ws s) ltac:(lia)).
  intros Heq. rewrite Heq in Hs. exact Hs.
Qed.

(** The decoder as it is written here returns a value or raises
    JSONDecodeError: it never stops for lack of fuel. *)
Lemma loads_total (s : string) :
  returns (json.loads s) \/ raises (json.loads s) JSONDecodeError.
Proof.
  assert (Herr : forall msg n, raises (A := pyval)
                                 (Raise (json.decode_error s msg n))
                                 JSONDecodeError).
  { intros msg n. unfold json.decode_error. eexists. reflexivity. }
  unfold json.loads.
  destruct (starts_with json.bom s); [right; apply Herr |].
  pose proof (loads_fuel s) as Hfuel.
  destruct (json.scan_once (3 * String.length s + 3) (json.skip_ws s))
    as [v rest | n | msg n |]; [| right; apply Herr | right; apply Herr | congruence].
  destruct (json.skip_ws rest); [left; now exists v | right; apply Herr].
Qed.

(** ** fetch_integration_data *)

Lemma loads_slack :
  json.loads (default services.unknown_response
                      (dict_get services.raw_responses "slack"))
  = Ok (PDict [("ok", PBool true); ("channel", PStr "#general")]).
Proof. vm_compute. reflexivity. Qed.

Lemma loads_jira :
  json.loads (default services.unknown_response
                      (dict_get services.raw_responses "jira"))
  = Ok (PDict [("issues",
                PList [PDict [("key", PStr "BUG-1");
                              ("summary", PStr "Fix login")]])]).
Proof. vm_compute. reflexivity. Qed.

Lemma loads_webhook :
  json.loads (default services.unknown_response
                      (dict_get services.raw_responses "webhook"))
  = raise JSONDecodeError
      "Expecting property name enclosed in double quotes: line 1 column 34 (char 33)".
Proof. vm_compute. reflexivity. Qed.

Lemma loads_unknown :
  json.loads services.unknown_response
  = Ok (PDict [("status", PStr "unknown")]).
Proof. vm_compute. reflexivity. Qed.

Lemma raw_response_other (s : string) :
  s <> "slack" -> s <> "jira" -> s <> "webhook" ->
  dict_get services.raw_responses s = None.
Proof.
  intros H1 H2 H3. unfold services.raw_responses. cbn [dict_get].
  destruct (String.eqb_spec "slack" s); [congruence |].
  destruct (String.eqb_spec "jira" s); [congruence |].
  destruct (String.eqb_spec "webhook" s); [congruence |].
  reflexivity.
Qed.

Lemma fetch_unfold (s : string) :
  services.fetch_integration_data s
  = (v <~ json.loads (default services.unknown_response
                              (dict_get services.raw_responses s)) ;;
     Ok v).
Proof.
  unfold services.fetch_integration_data, models.APIResponse.json,
    models.APIResponse.__init__.
  cbn [models.APIResponse._parsed models.APIResponse.raw_body].
  destruct (json.loads _); reflexivity.
Qed.

Lemma fetch_other (s : string) :
  s <> "slack" -> s <> "jira" -> s <> "webhook" ->
  services.fetch_integration_data s = Ok (PDict [("status", PStr "unknown")]).
Proof.
  intros H1 H2 H3. rewrite fetch_unfold, (raw_response_other s H1 H2 H3).
  cbn [default]. now rewrite loads_unknown.
Qed.

(** C10. [fetch_integration_data] raises JSONDecodeError exactly for the
    service name webhook; for slack and jira it returns the parsed canned
    body; for every other name it returns the dict with status unknown. *)
Theorem C10_fetch_integration_data :
  (forall s, raises (services.fetch_integration_data s) JSONDecodeError
             <-> s = "webhook")
  /\ services.fetch_integration_data "slack"
     = Ok (PDict [("ok", PBool true); ("channel", PStr "#general")])
  /\ services.fetch_integration_data "jira"
     = Ok (PDict [("issues",
                   PList [PDict [("key", PStr "BUG-1");
                                 ("summary", PStr "Fix login")]])])
  /\ (forall s, s <> "slack" -> s <> "jira" -> s <> "webhook" ->
        services.fetch_integration_data s
        = Ok (PDict [("status", PStr "unknown")])).
Proof.
  assert (Hs : services.fetch_integration_data "slack"
               = Ok (PDict [("ok", PBool true); ("channel", PStr "#general")])).
  { now rewrite fetch_unfold, loads_slack. }
  assert (Hj : services.fetch_integration_data "jira"
               = Ok (PDict [("issues",
                             PList [PDict [("key", PStr "BUG-1");
                                           ("summary", PStr "Fix login")]])])).
  { now rewrite fetch_unfold, loads_jira. }
  split; [| split; [exact Hs | split; [exact Hj | exact fetch_other]]].
  intros s. split.
  - intros [msg Hr].
    destruct (string_dec s "webhook") as [| Hw]; [assumption | exfalso].
    destruct (string_dec s "slack") as [-> | H1]; [congruence |].
    destruct (string_dec s "jira") as [-> | H2]; [congruence |].
    rewrite (fetch_other s H1 H2 Hw) in Hr. discriminate.
  - intros ->. rewrite fetch_unfold, loads_webhook. apply raises_intro.
Qed.

Lemma C10_fetch_integration_data_witness :
  (raises (services.fetch_integration_data "webhook") JSONDecodeError)
  /\ services.fetch_integration_data "github"
     = Ok (PDict [("status", PStr "unknown")]).
Proof.
  split.
  - apply (proj1 C10_fetch_integration_data "webhook"). reflexivity.
  - apply (proj2 (proj2 (proj2 C10_fetch_integration_data)) "github");
      discriminate.
Defined.

(** ** The error handler *)

Lemma handle_exception_eq (e : env) (x : exn) (w : world) :
  app.handle_exception e x w
  = (Ok (app.Response 500
           (error_body (exn_class x) (exn_str x) (format_exception e x))),
     log_line ("Unhandled exception:" +:+ nl +:+ format_exception e x)
              (capture x w)).
Proof. reflexivity. Qed.

Lemma serve_raise (ep : app.endpoint) (e : env) (req : app.request)
    (w w1 : world) (x : exn) :
  app.view ep e req w = (Raise x, w1) ->
  derives_Exception (exn_class x) = true ->
  app.serve ep e req w = app.handle_exception e x w1.
Proof. intros Hv Hd. unfold app.serve. now rewrite Hv, Hd. Qed.

Lemma serve_ok (ep : app.endpoint) (e : env) (req : app.request)
    (w w1 : world) (r : app.response) :
  app.view ep e req w = (Ok r, w1) ->
  app.serve ep e req w = (Ok r, w1).
Proof. intros Hv. unfold app.serve. now rewrite Hv. Qed.

(** C1. Whatever exception reaches [handle_exception], the response has
    status 500 and a JSON object with exactly the fields error (the name
    of the class), message (the text of the exception) and traceback (a
    string); and every route hands an exception of its view to this one
    handler. *)
Theorem C1_handle_exception_response :
  (forall (e : env) (x : exn) (w : world),
      exists tb : string,
        fst (app.handle_exception e x w)
        = Ok (app.Response 500
                (app.Json (PDict [("error", PStr (cls_name (exn_class x)));
                                  ("message", PStr (exn_str x));
                                  ("traceback", PStr tb)]))))
  /\ (forall (ep : app.endpoint) (e : env) (req : app.request)
             (w w1 : world) (x : exn),
         app.view ep e req w = (Raise x, w1) ->
         derives_Exception (exn_class x) = true ->
         exists tb w2,
           app.serve ep e req w
           = (Ok (app.Response 500
                    (app.Json (PDict [("error", PStr (cls_name (exn_class x)));
                                      ("message", PStr (exn_str x));
                                      ("traceback", PStr tb)]))), w2)).
Proof.
  split.
  - intros e x w. exists (format_exception e x). reflexivity.
  - intros ep e req w w1 x Hv Hd.
    rewrite (serve_raise ep e req w w1 x Hv Hd), handle_exception_eq.
    eexists. eexists. reflexivity.
Qed.

Lemma C1_handle_exception_response_witness :
  exists tb w2,
    app.serve app.TriggerIndexError sample.quiet_env app.no_input
              sample.fresh_world
    = (Ok (app.Response 500
             (app.Json (PDict [("error", PStr "IndexError");
                               ("message", PStr "list index out of range");
                               ("traceback", PStr tb)]))), w2).
Proof.
  apply (proj2 C1_handle_exception_response app.TriggerIndexError
               sample.quiet_env app.no_input sample.fresh_world
               sample.fresh_world
               (mk_exn IndexError "list index out of range")).
  - vm_compute. reflexivity.
  - reflexivity.
Defined.

(** ** The type-error route *)

Lemma display_name_of_new_user (uid : Z) (name email role : string) :
  models.User.get_display_name (models.User.__init__ uid name email role)
  = raise TypeError ("can only concatenate str (not " +:+ dq +:+ "NoneType"
                     +:+ dq +:+ ") to str").
Proof. reflexivity. Qed.

Lemma user_2_display_name :
  services.get_user_display_name 2
  = raise TypeError ("can only concatenate str (not " +:+ dq +:+ "NoneType"
                     +:+ dq +:+ ") to str").
Proof. vm_compute. reflexivity. Qed.

Lemma no_input_int (key : string) (fallback : Z) :
  app.args_get_int app.no_input key fallback = fallback.
Proof. reflexivity. Qed.

(** C2. With no parameter the type-error route looks up user 2; the
    last name of every user is None from the constructor on, so the
    display name raises TypeError, and the response is the 500 error
    object naming TypeError. *)
Theorem C2_type_error_route :
  app.args_get_int app.no_input "user_id" 2 = 2
  /\ (forall uid name email role,
         models.User.last_name (models.User.__init__ uid name email role)
         = PNone)
  /\ (forall uid name email role,
         raises (models.User.get_display_name
                   (models.User.__init__ uid name email role)) TypeError)
  /\ (forall w : world,
         raises (fst (app.trigger_type_error app.no_input w)) TypeError)
  /\ (forall (e : env) (w : world),
         exists msg tb w',
           app.serve app.TriggerTypeError e app.no_input w
           = (Ok (app.Response 500 (error_body TypeError msg tb)), w')).
Proof.
  split; [reflexivity |].
  split; [reflexivity |].
  split; [intros; rewrite display_name_of_new_user; apply raises_intro |].
  assert (Hview : forall w,
             app.trigger_type_error app.no_input w
             = (raise TypeError ("can only concatenate str (not " +:+ dq
                                 +:+ "NoneType" +:+ dq +:+ ") to str"), w)).
  { intros w. unfold app.trigger_type_error.
    rewrite no_input_int. unfold bind, lift.
    now rewrite user_2_display_name. }
  split.
  - intros w. rewrite Hview. apply raises_intro.
  - intros e w. do 3 eexists.
    erewrite serve_raise; [| apply Hview | reflexivity].
    rewrite handle_exception_eq. reflexivity.
Qed.

(** ** The zero-division route *)

Lemma proj_1_settings :
  models.Project.settings <$> (services._projects !! "proj-1") = Some [].
Proof. vm_compute. reflexivity. Qed.

Lemma velocity_report_proj_1 (sprint_points : Z) :
  services.generate_velocity_report "proj-1" sprint_points
  = raise ZeroDivisionError "division by zero".
Proof.
  unfold services.generate_velocity_report.
  pose proof proj_1_settings as H.
  destruct (services._projects !! "proj-1") as [p |]; [| discriminate].
  cbn in H. injection H as H. rewrite H. reflexivity.
Qed.

(** C3. With no parameter the zero-division route passes 42 points;
    project proj-1 has no settings, so the sprint length defaults to 0,
    the division raises ZeroDivisionError, and the response is the 500
    error object naming ZeroDivisionError. *)
Theorem C3_zero_division_route :
  app.args_get_int app.no_input "points" 42 = 42
  /\ models.Project.settings <$> (services._projects !! "proj-1") = Some []
  /\ default (PInt 0) (dict_get [] "sprint_length_days") = PInt 0
  /\ (forall points : Z,
         raises (services.generate_velocity_report "proj-1" points)
                ZeroDivisionError)
  /\ (forall w : world,
         raises (fst (app.trigger_zero_division app.no_input w))
                ZeroDivisionError)
  /\ (forall (e : env) (w : world),
         exists msg tb w',
           app.serve app.TriggerZeroDivision e app.no_input w
           = (Ok (app.Response 500 (error_body ZeroDivisionError msg tb)), w')).
Proof.
  split; [reflexivity |].
  split; [exact proj_1_settings |].
  split; [reflexivity |].
  split; [intros; rewrite velocity_report_proj_1; apply raises_intro |].
  assert (Hview : forall w,
             app.trigger_zero_division app.no_input w
             = (raise ZeroDivisionError "division by zero", w)).
  { intros w. unfold app.trigger_zero_division.
    rewrite no_input_int. unfold bind, lift.
    now rewrite velocity_report_proj_1. }
  split.
  - intros w. rewrite Hview. apply raises_intro.
  - intros e w. do 3 eexists.
    erewrite serve_raise; [| apply Hview | reflexivity].
    rewrite handle_exception_eq. reflexivity.
Qed.

(** ** The catalog and the health check *)

(** C4. The bugs route answers every request with the static catalog
    and changes nothing: fifteen entries, each with the six fields id,
    name, route, method, description and category, one for each trigger
    rule of the URL map, in the same order. *)
Theorem C4_list_bugs_catalog :
  (forall (e : env) (req : app.request) (w : world),
      app.serve app.ListBugs e req w
      = (Ok (app.Response 200 (app.Json (PList (PDict <$> app.BUGS)))), w))
  /\ length app.BUGS = 15%nat
  /\ Forall (fun b => keys b
                      = ["id"; "name"; "route"; "method"; "description";
                         "category"]) app.BUGS
  /\ NoDup ((fun b => dict_get b "id") <$> app.BUGS)
  /\ (fun b => (dict_get b "route", dict_get b "method")) <$> app.BUGS
     = (fun r => (Some (PStr (fst (fst r))), Some (PStr (snd (fst r)))))
         <$> trigger_rules.
Proof.
  split; [reflexivity |].
  split; [reflexivity |].
  split; [repeat constructor |].
  split; [| vm_compute; reflexivity].
  apply NoDup_ListNoDup, (List.NoDup_map_inv (fun o => default PNone o)).
  vm_compute. repeat (constructor; [cbn; intuition discriminate |]).
  constructor.
Qed.

(** C5. The health route answers every request, in every state, with
    status ok and the name of the app, and changes nothing. *)
Theorem C5_health_static :
  forall (e : env) (req : app.request) (w : world),
    app.serve app.Health e req w
    = (Ok (app.Response 200
             (app.Json (PDict [("status", PStr "ok");
                               ("app", PStr "bugboy-python")]))), w).
Proof. reflexivity. Qed.

(** ** The circular category tree *)

Lemma recursive_categories_eq :
  services.recursive_categories
  = (0%nat, 1%nat,
     [models.CategoryTree.mk "Root" None [1%nat];
      models.CategoryTree.mk "Child" (Some 0%nat) [0%nat]]).
Proof. reflexivity. Qed.

Lemma flatten_step (frames : nat) (h : models.CategoryTree.store)
    (self child : nat) (node : models.CategoryTree.t) (x : exn) :
  h !! self = Some node ->
  models.CategoryTree.children node = [child] ->
  models.CategoryTree.flatten frames h child = Raise x ->
  models.CategoryTree.flatten (S frames) h self = Raise x.
Proof.
  intros Hn Hc Hx. cbn [models.CategoryTree.flatten].
  rewrite Hn, Hc. cbn [fold_left res_bind]. now rewrite Hx.
Qed.

Lemma flatten_cycle (frames : nat) :
  let h := [models.CategoryTree.mk "Root" None [1%nat];
            models.CategoryTree.mk "Child" (Some 0%nat) [0%nat]] in
  models.CategoryTree.flatten frames h 0
  = raise RecursionError "maximum recursion depth exceeded"
  /\ models.CategoryTree.flatten frames h 1
     = raise RecursionError "maximum recursion depth exceeded".
Proof.
  induction frames as [| frames [IH0 IH1]]; [split; reflexivity |].
  split.
  - eapply flatten_step; [reflexivity | reflexivity | exact IH1].
  - eapply flatten_step; [reflexivity | reflexivity | exact IH0].
Qed.

(** The same traversal returns on the tree without a cycle, once the
    interpreter allows three nested calls. *)
Example flatten_category_tree :
  let '(root, h) := services.build_category_tree in
  models.CategoryTree.flatten 3 h root
  = Ok ["All Tasks"; "Engineering"; "Backend"; "Frontend"; "Design"; "UI"; "UX"].
Proof. reflexivity. Qed.

Lemma find_category_cycle (wanted : string) (frames : nat) :
  wanted <> "Root" -> wanted <> "Child" ->
  let h := [models.CategoryTree.mk "Root" None [1%nat];
            models.CategoryTree.mk "Child" (Some 0%nat) [0%nat]] in
  models.CategoryTree.find_category frames h 0 wanted
  = raise RecursionError "maximum recursion depth exceeded"
  /\ models.CategoryTree.find_category frames h 1 wanted
     = raise RecursionError "maximum recursion depth exceeded".
Proof.
  intros Hr Hc. cbv zeta.
  induction frames as [| frames [IH0 IH1]]; [split; reflexivity |].
  cbn [models.CategoryTree.find_category]. cbn [lookup list_lookup models.CategoryTree.name models.CategoryTree.children].
  destruct (String.eqb_spec "Root" wanted); [congruence |].
  destruct (String.eqb_spec "Child" wanted); [congruence |].
  rewrite IH0, IH1. split; reflexivity.
Qed.

(** C6 as stated fails: not every recursive traversal of this tree
    recurses without bound.  The append leaves the parent links alone,
    so [get_full_path] returns from the child after two calls, and
    [find_category] finds the child before it reaches the cycle. *)
Lemma C6_counterexample :
  let '(root, child, h) := services.recursive_categories in
  models.CategoryTree.get_full_path 2 h child = Ok "Root > Child"
  /\ models.CategoryTree.find_category 2 h root "Child" = Ok (Some child)
  /\ ~ (forall frames : nat,
          ~ returns (models.CategoryTree.get_full_path frames h child)).
Proof.
  rewrite recursive_categories_eq.
  split; [reflexivity |]. split; [reflexivity |].
  intros H. apply (H 2%nat). eexists. reflexivity.
Qed.

(** C6, amended. [build_recursive_categories] makes two nodes, Root and
    Child, and appends the root to the children of the child: the
    children links form a cycle.  Its result is that of [flatten] on the
    root with the nested calls the interpreter allows, and [flatten]
    never returns on this tree: each call on one node makes a call on
    the other, so whichever node it starts from and however many calls
    are allowed, it runs into the limit.  The other traversals are
    bounded where they do not go round the cycle: [get_full_path]
    follows the parent links and returns, [find_category] returns for a
    name that is on the tree, and runs into the limit only for a name
    that is not. *)
Theorem C6_recursive_categories_cycle :
  let '(root, child, h) := services.recursive_categories in
  (length h = 2%nat
   /\ root <> child
   /\ models.CategoryTree.name <$> h !! root = Some "Root"
   /\ models.CategoryTree.name <$> h !! child = Some "Child"
   /\ models.CategoryTree.parent <$> h !! root = Some None
   /\ models.CategoryTree.parent <$> h !! child = Some (Some root)
   /\ models.CategoryTree.children <$> h !! root = Some [child]
   /\ models.CategoryTree.children <$> h !! child = Some [root])
  /\ (forall frames : nat,
         models.CategoryTree.flatten (S frames) h root
         = (below <~ models.CategoryTree.flatten frames h child ;;
            Ok ("Root" :: below))
         /\ models.CategoryTree.flatten (S frames) h child
            = (below <~ models.CategoryTree.flatten frames h root ;;
               Ok ("Child" :: below)))
  /\ (forall frames : nat,
         raises (models.CategoryTree.flatten frames h root) RecursionError
         /\ raises (models.CategoryTree.flatten frames h child) RecursionError
         /\ ~ returns (models.CategoryTree.flatten frames h root)
         /\ ~ returns (models.CategoryTree.flatten frames h child))
  /\ (forall w : world,
         services.build_recursive_categories w
         = (models.CategoryTree.flatten (recursion_limit w) h root, w)
         /\ raises (fst (services.build_recursive_categories w))
                   RecursionError)
  /\ (forall frames : nat,
         models.CategoryTree.get_full_path (S frames) h root = Ok "Root"
         /\ models.CategoryTree.get_full_path (S (S frames)) h child
            = Ok "Root > Child")
  /\ (forall frames : nat,
         models.CategoryTree.find_category (S frames) h root "Root"
         = Ok (Some root)
         /\ models.CategoryTree.find_category (S (S frames)) h root "Child"
            = Ok (Some child))
  /\ (forall (wanted : string) (frames : nat),
         wanted <> "Root" -> wanted <> "Child" ->
         raises (models.CategoryTree.find_category frames h root wanted)
                RecursionError).
Proof.
  unfold services.build_recursive_categories.
  rewrite recursive_categories_eq.
  split; [repeat (split; [first [reflexivity | discriminate] |]); reflexivity |].
  split; [intros frames; split; reflexivity |].
  split; [| split; [| split; [| split]]].
  - intros frames. destruct (flatten_cycle frames) as [H0 H1].
    cbv zeta in H0, H1. rewrite H0, H1.
    repeat split; first [apply raises_intro | intros [l Hl]; discriminate].
  - intros w. unfold bind, sys.getrecursionlimit, gets, lift. cbn [fst].
    split; [reflexivity |].
    destruct (flatten_cycle (recursion_limit w)) as [H0 _].
    cbv zeta in H0. rewrite H0. apply raises_intro.
  - intros frames. split; reflexivity.
  - intros frames. split; reflexivity.
  - intros wanted frames Hr Hc.
    destruct (find_category_cycle wanted frames Hr Hc) as [H0 _].
    cbv zeta in H0. rewrite H0. apply raises_intro.
Qed.

Lemma C6_recursive_categories_cycle_witness :
  raises (models.CategoryTree.find_category 40
            [models.CategoryTree.mk "Root" None [1%nat];
             models.CategoryTree.mk "Child" (Some 0%nat) [0%nat]] 0 "Engineering")
         RecursionError.
Proof.
  pose proof C6_recursive_categories_cycle as H.
  rewrite recursive_categories_eq in H.
  apply (proj2 (proj2 (proj2 (proj2 (proj2 (proj2 H))))) "Engineering" 40%nat);
    discriminate.
Defined.

(** ** The recursion limit *)

Lemma restore_in_finally {A} (body : M A) (original : nat) (w : world) :
  recursion_limit
    (snd (try_finally body (utils.restore_recursion_limit original) w))
  = original.
Proof.
  unfold try_finally. destruct (body w) as [r w1]. reflexivity.
Qed.

Lemma build_recursive_categories_eq (w : world) :
  services.build_recursive_categories w
  = (raise RecursionError "maximum recursion depth exceeded", w).
Proof.
  unfold services.build_recursive_categories.
  rewrite recursive_categories_eq.
  unfold bind, sys.getrecursionlimit, gets, lift.
  destruct (flatten_cycle (recursion_limit w)) as [H0 _].
  cbv zeta in H0. now rewrite H0.
Qed.

Lemma trigger_recursion_error_eq (w : world) :
  app.trigger_recursion_error w
  = (raise RecursionError "maximum recursion depth exceeded", w).
Proof.
  unfold app.trigger_recursion_error, utils.set_recursion_limit_for_deep_trees,
    utils.restore_recursion_limit, sys.getrecursionlimit, sys.setrecursionlimit.
  unfold bind at 1 2 3. unfold gets, modify, ret, try_finally.
  unfold bind. rewrite build_recursive_categories_eq.
  destruct w. reflexivity.
Qed.

(** C9. The recursion route lowers the limit to 50, keeping the former
    value; the flattening raises RecursionError; the cleanup of the
    try statement puts the former value back however the body ends, so
    after the request the limit is what it was before. *)
Theorem C9_recursion_limit_restored :
  (forall w : world,
      utils.set_recursion_limit_for_deep_trees w
      = (Ok (recursion_limit w), set_recursion_limit 50 w))
  /\ (forall (A : Type) (body : M A) (original : nat) (w : world),
         recursion_limit
           (snd (try_finally body (utils.restore_recursion_limit original) w))
         = original)
  /\ (forall w : world,
         raises (fst (app.trigger_recursion_error w)) RecursionError)
  /\ (forall w : world,
         recursion_limit (snd (app.trigger_recursion_error w))
         = recursion_limit w)
  /\ (forall (e : env) (req : app.request) (w : world),
         recursion_limit (snd (app.serve app.TriggerRecursionError e req w))
         = recursion_limit w).
Proof.
  split; [reflexivity |].
  split; [intros; apply restore_in_finally |].
  split; [intros w; rewrite trigger_recursion_error_eq; apply raises_intro |].
  split; [intros w; now rewrite trigger_recursion_error_eq |].
  intros e req w.
  erewrite serve_raise;
    [| cbn [app.view]; apply trigger_recursion_error_eq | reflexivity].
  reflexivity.
Qed.

(** ** The timeout helper *)

Lemma start_eq (d : bool) (work : N) (escapes : option exn) (w : world) :
  threading.start d work escapes w
  = (Ok (length (threads w)),
     set_threads (threads w ++ [Thread d work escapes true]) w).
Proof. reflexivity. Qed.

Lemma join_new (e : env) (ts : list thread) (t : thread) (timeout : N) (w : world) :
  alive t = true ->
  threading.join e (length ts) timeout (set_threads (ts ++ [t]) w)
  = if (work_ms t <=? timeout)%N then
      (match dies_with t with
       | Some x => threading._thread_excepthook e x
       | None => ret tt
       end) (set_threads (ts ++ [Thread (daemon t) 0 (dies_with t) false]) w)
    else
      (Ok tt, set_threads (ts ++ [Thread (daemon t) (work_ms t - timeout) (dies_with t) true]) w).
Proof.
  intros Ha. unfold threading.join.
  unfold bind at 1. unfold gets at 1. cbn [threads set_threads].
  rewrite list_lookup_middle by reflexivity. rewrite Ha. cbn [negb].
  destruct (work_ms t <=? timeout)%N.
  - unfold bind, modify. cbn [threads set_threads].
    rewrite insert_app_r_alt by lia. rewrite Nat.sub_diag. 
    destruct w; reflexivity.
  - unfold modify.
    rewrite insert_app_r_alt by lia. rewrite Nat.sub_diag. 
    destruct w; reflexivity.
Qed.

Lemma is_alive_new (ts : list thread) (t : thread) (w : world) :
  threads w = (ts ++ [t])%list ->
  threading.is_alive (length ts) w = (Ok (alive t), w).
Proof.
  intros H. unfold threading.is_alive, bind, gets, ret. rewrite H.
  now rewrite list_lookup_middle by reflexivity.
Qed.

Lemma excepthook_spec (e : env) (x : exn) (w : world) :
  exists w',
    threading._thread_excepthook e x w = (Ok tt, w')
    /\ threads w' = threads w
    /\ last_error w' = Some x
    /\ fs w' = fs w.
Proof.
  unfold threading._thread_excepthook, threading._original_excepthook.
  destruct (String.eqb (cls_name (exn_class x)) "SystemExit");
    eexists; (split; [reflexivity |]); destruct w; repeat split.
Qed.

Lemma run_with_timeout_eq (e : env) (func : threading.callable)
    (timeout_sec : N) (w : world) :
  services.run_with_timeout e func timeout_sec w
  = if (threading.takes_ms func <=? 1000 * timeout_sec)%N then
      (match services.error (fst (services.wrapper func)) with
       | Some x => Raise x
       | None => Ok (services.result (fst (services.wrapper func)))
       end,
       after_worker e (snd (services.wrapper func)) w)
    else
      (Raise (timed_out timeout_sec),
       set_threads
         (threads w ++ [Thread false (threading.takes_ms func - 1000 * timeout_sec)
                               (snd (services.wrapper func)) true]) w).
Proof.
  unfold services.run_with_timeout, after_worker.
  destruct (services.wrapper func) as [finished escaped]. cbn [fst snd].
  rewrite (bind_ok _ _ _ _ _ (start_eq _ _ _ w)). cbv beta.
  unfold bind at 1. rewrite join_new by reflexivity.
  cbn [work_ms daemon dies_with].
  destruct (threading.takes_ms func <=? 1000 * timeout_sec)%N.
  - set (w0 := set_threads _ w).
    assert (Hhook :
      (match escaped with
       | Some x => threading._thread_excepthook e x
       | None => ret tt
       end) w0
      = (Ok tt, snd ((match escaped with
                      | Some x => threading._thread_excepthook e x
                      | None => ret tt
                      end) w0))
      /\ threads (snd ((match escaped with
                        | Some x => threading._thread_excepthook e x
                        | None => ret tt
                        end) w0))
         = (threads w ++ [Thread false 0 escaped false])%list).
    { destruct escaped as [x |].
      - destruct (excepthook_spec e x w0) as (w' & -> & Hts & _).
        split; [reflexivity |]. cbn [snd]. now rewrite Hts.
      - split; reflexivity. }
    destruct Hhook as [Hrun Hts]. rewrite Hrun.
    unfold bind at 1. rewrite (is_alive_new _ _ _ Hts). cbn [alive].
    destruct (services.error finished); reflexivity.
  - unfold bind at 1.
    erewrite is_alive_new by (destruct w; reflexivity). reflexivity.
Qed.

Lemma after_worker_threads (e : env) (escaped : option exn) (w : world) :
  threads (after_worker e escaped w)
  = (threads w ++ [Thread false 0 escaped false])%list.
Proof.
  unfold after_worker. destruct escaped as [x |]; [| reflexivity].
  destruct (excepthook_spec e x (set_threads
              (threads w ++ [Thread false 0 (Some x) false]) w))
    as (w' & -> & Hts & _).
  cbn [snd]. now rewrite Hts.
Qed.

Lemma after_worker_last_error (e : env) (x : exn) (w : world) :
  last_error (after_worker e (Some x) w) = Some x.
Proof.
  unfold after_worker.
  destruct (excepthook_spec e x (set_threads
              (threads w ++ [Thread false 0 (Some x) false]) w))
    as (w' & -> & _ & Hlast & _).
  exact Hlast.
Qed.

(** C7, amended. [run_with_timeout] starts exactly one worker thread
    and leaves the other threads alone.  When the work of the function
    does not fit in the deadline, it raises TimeoutError and the worker
    is still alive, with its remaining work: nothing cancels it.  When
    the work fits, the worker is over, and the caller gets the result of
    the function, or the exception it raised if that is an instance of
    Exception; an exception outside Exception escapes the worker, goes
    to the thread hook, and the caller gets None. *)
Theorem C7_run_with_timeout_amended :
  forall (e : env) (func : threading.callable) (timeout_sec : N) (w : world),
    let r := fst (services.run_with_timeout e func timeout_sec w) in
    let w' := snd (services.run_with_timeout e func timeout_sec w) in
    let n := length (threads w) in
    length (threads w') = S n
    /\ take n (threads w') = threads w
    /\ (if (1000 * timeout_sec <? threading.takes_ms func)%N then
          r = Raise (timed_out timeout_sec)
          /\ threads w' !! n
             = Some (Thread false (threading.takes_ms func - 1000 * timeout_sec)
                            (snd (services.wrapper func)) true)
        else
          alive <$> threads w' !! n = Some false
          /\ match threading.yields func with
             | Ok v => r = Ok v
             | Raise x =>
                 if derives_Exception (exn_class x) then r = Raise x
                 else r = Ok PNone /\ last_error w' = Some x
             end).
Proof.
  intros e func timeout_sec w. cbv zeta.
  rewrite run_with_timeout_eq, N.ltb_antisym.
  destruct (threading.takes_ms func <=? 1000 * timeout_sec)%N; cbn [negb fst snd].
  - rewrite after_worker_threads, length_app, take_app_length,
      list_lookup_middle by reflexivity.
    split; [cbn; lia |]. split; [reflexivity |]. split; [reflexivity |].
    unfold services.wrapper.
    destruct (threading.yields func) as [v | x]; [reflexivity |].
    destruct (derives_Exception (exn_class x)); [reflexivity |].
    split; [reflexivity | apply after_worker_last_error].
  - replace (threads (set_threads (threads w ++ [Thread false (threading.takes_ms func - 1000 * timeout_sec) (snd (services.wrapper func)) true]) w))
      with (threads w ++ [Thread false (threading.takes_ms func - 1000 * timeout_sec) (snd (services.wrapper func)) true])%list
      by (destruct w; reflexivity).
    rewrite length_app, take_app_length, list_lookup_middle by reflexivity.
    split; [cbn; lia |]. split; [reflexivity |]. split; reflexivity.
Qed.

(** C7 as stated fails: a function that raises SystemExit ends within
    the deadline, yet the caller neither gets a result of the function
    nor sees the exception; it gets None. *)
Lemma C7_counterexample :
  (threading.takes_ms sample.exits_at_once <= 1000 * 2)%N
  /\ threading.yields sample.exits_at_once = raise SystemExit "1"
  /\ fst (services.run_with_timeout sample.quiet_env sample.exits_at_once 2
                                    sample.fresh_world) = Ok PNone
  /\ fst (services.run_with_timeout sample.quiet_env sample.exits_at_once 2
                                    sample.fresh_world)
     <> threading.yields sample.exits_at_once.
Proof.
  split; [vm_compute; discriminate |].
  split; [reflexivity |].
  split; [vm_compute; reflexivity |].
  vm_compute. discriminate.
Qed.

(** ** The file system *)

Lemma keeps_fs_ret {A} (a : A) : keeps_fs (ret a).
Proof. intros w. reflexivity. Qed.

Lemma keeps_fs_throw {A} (x : exn) : keeps_fs (throw (A := A) x).
Proof. intros w. reflexivity. Qed.

Lemma keeps_fs_lift {A} (r : res A) : keeps_fs (lift r).
Proof. intros w. reflexivity. Qed.

Lemma keeps_fs_gets {A} (f : world -> A) : keeps_fs (gets f).
Proof. intros w. reflexivity. Qed.

Lemma keeps_fs_modify (f : world -> world) :
  (forall w, fs (f w) = fs w) -> keeps_fs (modify f).
Proof. intros H w. apply H. Qed.

Lemma keeps_fs_bind {A B} (m : M A) (k : A -> M B) :
  keeps_fs m -> (forall a, keeps_fs (k a)) -> keeps_fs (bind m k).
Proof.
  intros Hm Hk w. unfold bind. specialize (Hm w).
  destruct (m w) as [[a | x] w1]; cbn [snd] in *.
  - now rewrite Hk.
  - exact Hm.
Qed.

Lemma keeps_fs_try_finally {A} (body : M A) (cleanup : M unit) :
  keeps_fs body -> keeps_fs cleanup -> keeps_fs (try_finally body cleanup).
Proof.
  intros Hb Hc w. unfold try_finally. specialize (Hb w).
  destruct (body w) as [r w1]. specialize (Hc w1).
  destruct (cleanup w1) as [[u | x] w2]; cbn [snd] in *; congruence.
Qed.

Lemma keeps_fs_original_excepthook (e : env) (x : exn) :
  keeps_fs (threading._original_excepthook e x).
Proof.
  unfold threading._original_excepthook.
  destruct (String.eqb (cls_name (exn_class x)) "SystemExit").
  - apply keeps_fs_ret.
  - apply keeps_fs_modify. intros w. reflexivity.
Qed.

Ltac frame :=
  repeat first
    [ apply keeps_fs_ret
    | apply keeps_fs_original_excepthook
    | apply keeps_fs_throw
    | apply keeps_fs_lift
    | apply keeps_fs_gets
    | apply keeps_fs_modify; intros []; reflexivity
    | apply keeps_fs_try_finally
    | apply keeps_fs_bind; [| intros ?]
    | match goal with
      | |- keeps_fs (match ?x with _ => _ end) => destruct x
      | |- keeps_fs (let '(_, _) := ?x in _) => destruct x
      end ].




Lemma keeps_fs_handle_exception (e : env) (x : exn) :
  keeps_fs (app.handle_exception e x).
Proof. unfold app.handle_exception. frame. Qed.


(** ** Paths *)

Lemma append_nonempty (a b : string) : b <> "" -> a +:+ b <> "".
Proof. intros Hb. destruct a; [exact Hb | discriminate]. Qed.

Lemma ends_with_slash_cons (c : ascii) (s : string) :
  s <> "" -> os.ends_with_slash (String c s) = os.ends_with_slash s.
Proof. intros Hs. destruct s; [congruence | reflexivity]. Qed.

Lemma ends_with_slash_app (a b : string) :
  b <> "" -> os.ends_with_slash (a +:+ b) = os.ends_with_slash b.
Proof.
  intros Hb. induction a as [| c a IH]; [reflexivity |].
  change (String c a +:+ b) with (String c (a +:+ b)).
  rewrite ends_with_slash_cons by now apply append_nonempty.
  exact IH.
Qed.

Lemma export_dir_shape (e : env) :
  exists h, export_dir e = h +:+ ".exports".
Proof.
  unfold export_dir, os.path_join.
  destruct (String.eqb (here e) ""); [now exists "" |].
  destruct (os.ends_with_slash (here e)); [now exists (here e) |].
  exists (here e +:+ "/").
  induction (here e) as [| c s IH]; [reflexivity |].
  change (String c s +:+ "/" +:+ ".exports")
    with (String c (s +:+ "/" +:+ ".exports")).
  now rewrite IH.
Qed.

Lemma export_path_eq (e : env) (project_id : string) :
  export_path e project_id = export_dir e +:+ "/" +:+ project_id +:+ ".json".
Proof.
  unfold export_path, os.path_join at 1.
  destruct (export_dir_shape e) as [h Hh]. rewrite Hh.
  rewrite ends_with_slash_app by discriminate.
  destruct (String.eqb_spec (h +:+ ".exports") ""); [| reflexivity].
  destruct h; discriminate.
Qed.

Lemma before_last_slash_none (s : string) :
  has_slash s = false -> os.before_last_slash s = None.
Proof.
  induction s as [| c s IH]; [reflexivity |]. cbn.
  intros H. apply orb_false_elim in H as [Hc Hs].
  rewrite (IH Hs). unfold ascii_eqb in Hc. cbv [ascii_eqb]. now rewrite Hc.
Qed.

Lemma before_last_slash_app (a b : string) :
  has_slash b = false ->
  os.before_last_slash (a +:+ "/" +:+ b) = Some a.
Proof.
  intros Hb. induction a as [| c a IH].
  - change ("" +:+ "/" +:+ b) with (String "/" b).
    cbn [os.before_last_slash]. now rewrite (before_last_slash_none b Hb).
  - change (String c a +:+ "/" +:+ b) with (String c (a +:+ "/" +:+ b)).
    cbn [os.before_last_slash]. now rewrite IH.
Qed.

Lemma dirname_export_path (e : env) :
  os.dirname (export_path e "proj-1") = export_dir e.
Proof.
  rewrite export_path_eq. unfold os.dirname.
  rewrite before_last_slash_app by reflexivity.
  destruct (export_dir_shape e) as [h ->]. destruct h; reflexivity.
Qed.

Lemma append_self (a x : string) : a +:+ x = a -> x = "".
Proof.
  induction a as [| c a IH]; [intros H; exact H |].
  intros H. injection H as H. now apply IH.
Qed.

Lemma export_path_not_dir (e : env) :
  export_path e "proj-1" <> export_dir e.
Proof.
  rewrite export_path_eq. intros H. apply append_self in H. discriminate.
Qed.

Lemma fs_set_fs (f : filesystem) (w : world) : fs (set_fs f w) = f.
Proof. reflexivity. Qed.

Lemma makedirs_eq (p : string) (w : world) :
  os.is_file (fs w) p = false ->
  os.makedirs p w
  = (Ok tt, set_fs (FS ({[p]} ∪ dirs (fs w)) (files (fs w))) w).
Proof. intros H. unfold os.makedirs, bind, gets. now rewrite H. Qed.

Lemma chmod_file (p : string) (m : Z) (old : file) (w : world) :
  files (fs w) !! p = Some old ->
  os.chmod p m w
  = (Ok tt, set_fs (FS (dirs (fs w)) (<[p := File (content old) m]> (files (fs w)))) w).
Proof. intros H. unfold os.chmod, bind, gets. now rewrite H. Qed.

Lemma dump_file (p : string) (v : pyval) (old : file) (w : world) :
  files (fs w) !! p = Some old ->
  os.dump p v w
  = (Ok tt, set_fs (FS (dirs (fs w)) (<[p := File (JsonDoc v) (mode old)]> (files (fs w)))) w).
Proof. intros H. unfold os.dump, modify. now rewrite H. Qed.

Lemma open_w_existing (e : env) (p : string) (old : file) (w : world) :
  os.is_dir (fs w) p = false ->
  files (fs w) !! p = Some old ->
  os.open_w e p w
  = if privileged e || os.owner_may_write (mode old) then
      (Ok tt, set_fs (FS (dirs (fs w)) (<[p := File (Text "") (mode old)]> (files (fs w)))) w)
    else (Raise (mk_exn PermissionError (os.errno 13 "Permission denied" p)), w).
Proof.
  intros Hd Hf. unfold os.open_w, bind, gets. rewrite Hd, Hf.
  destruct (privileged e || os.owner_may_write (mode old)); reflexivity.
Qed.

Lemma open_w_new (e : env) (p : string) (w : world) :
  os.is_dir (fs w) p = false ->
  files (fs w) !! p = None ->
  os.is_dir (fs w) (os.dirname p) = true ->
  os.open_w e p w
  = (Ok tt, set_fs (FS (dirs (fs w)) (<[p := File (Text "") os.created_mode]> (files (fs w)))) w).
Proof.
  intros Hd Hf Hp. unfold os.open_w, bind, gets. rewrite Hd, Hf, Hp.
  now rewrite orb_true_r.
Qed.

Lemma set_fs_set_fs (f g : filesystem) (w : world) :
  set_fs f (set_fs g w) = set_fs f w.
Proof. reflexivity. Qed.

Lemma write_export_file_eq (e : env) (data : pyval) (w : world) :
  os.is_file (fs w) (export_dir e) = false ->
  os.is_dir (fs w) (export_path e "proj-1") = false ->
  services.write_export_file e "proj-1" data w
  = (if privileged e then Ok (export_path e "proj-1")
     else Raise (mk_exn PermissionError
                        (os.errno 13 "Permission denied" (export_path e "proj-1"))),
     set_fs (FS ({[export_dir e]} ∪ dirs (fs w))
                (<[export_path e "proj-1" := File (export_content e w data) 292]>
                   (files (fs w)))) w).
Proof.
  intros Hfile Hdir. unfold services.write_export_file.
  change (os.path_join (here e) ".exports") with (export_dir e).
  change (os.path_join (export_dir e) ("proj-1" +:+ ".json"))
    with (export_path e "proj-1").
  set (p := export_path e "proj-1") in *. set (d := export_dir e) in *.
  rewrite (bind_ok _ _ _ _ _ (makedirs_eq d w Hfile)).
  set (w1 := set_fs _ w).
  assert (Hd1 : os.is_dir (fs w1) p = false).
  { subst w1. rewrite fs_set_fs. unfold os.is_dir in *. cbn [dirs].
    apply bool_decide_eq_false. apply bool_decide_eq_false in Hdir.
    rewrite elem_of_union, elem_of_singleton.
    intros [Heq | Hin]; [now apply (export_path_not_dir e) | now apply Hdir]. }
  assert (Hpar : os.is_dir (fs w1) (os.dirname p) = true).
  { subst w1 p. rewrite fs_set_fs, dirname_export_path. unfold os.is_dir.
    cbn [dirs]. apply bool_decide_eq_true.
    apply elem_of_union_l. now apply elem_of_singleton. }
  assert (Hf1 : files (fs w1) = files (fs w)) by reflexivity.
  unfold bind at 1. unfold os.path_exists at 1, gets at 1.
  rewrite Hd1. cbn [orb]. unfold os.is_file at 1. rewrite Hf1.
  unfold export_content. fold p.
  destruct (files (fs w) !! p) as [old |] eqn:Hold; cbn [negb].
  - unfold bind at 1. unfold ret at 1.
    assert (Hold1 : files (fs w1) !! p = Some old) by (now rewrite Hf1).
    rewrite (bind_ok _ _ _ _ _ (chmod_file p 292 old w1 Hold1)).
    set (w2 := set_fs _ w1).
    assert (Hd2 : os.is_dir (fs w2) p = false) by exact Hd1.
    assert (Hf2 : files (fs w2) !! p = Some (File (content old) 292)).
    { subst w2. rewrite fs_set_fs. cbn [files]. apply lookup_insert_eq. }
    unfold bind at 1. rewrite (open_w_existing e p _ w2 Hd2 Hf2).
    cbn [mode]. replace (os.owner_may_write 292) with false by reflexivity.
    rewrite orb_false_r. destruct (privileged e).
    + set (w3 := set_fs _ w2).
      assert (Hf3 : files (fs w3) !! p = Some (File (Text "") 292)).
      { subst w3. rewrite fs_set_fs. cbn [files]. apply lookup_insert_eq. }
      rewrite (bind_ok _ _ _ _ _ (dump_file p data _ w3 Hf3)).
      unfold ret. f_equal. subst w3 w2 w1. rewrite !fs_set_fs, !set_fs_set_fs.
      cbn [dirs files mode]. now rewrite !insert_insert_eq.
    + reflexivity.
  - assert (Hnone1 : files (fs w1) !! p = None) by (now rewrite Hf1).
    unfold bind at 1. unfold bind at 1.
    rewrite (open_w_new e p w1 Hd1 Hnone1 Hpar).
    set (w2 := set_fs _ w1).
    assert (Hf2 : files (fs w2) !! p = Some (File (Text "") os.created_mode)).
    { subst w2. rewrite fs_set_fs. cbn [files]. apply lookup_insert_eq. }
    rewrite (dump_file p _ _ w2 Hf2).
    set (w3 := set_fs _ w2).
    assert (Hf3 : files (fs w3) !! p
                  = Some (File (JsonDoc placeholder) os.created_mode)).
    { subst w3. rewrite fs_set_fs. cbn [files mode]. apply lookup_insert_eq. }
    rewrite (bind_ok _ _ _ _ _ (chmod_file p 292 _ w3 Hf3)).
    set (w4 := set_fs _ w3).
    assert (Hd4 : os.is_dir (fs w4) p = false) by exact Hd1.
    assert (Hf4 : files (fs w4) !! p = Some (File (JsonDoc placeholder) 292)).
    { subst w4. rewrite fs_set_fs. cbn [files content]. apply lookup_insert_eq. }
    unfold bind at 1. rewrite (open_w_existing e p _ w4 Hd4 Hf4).
    cbn [mode]. replace (os.owner_may_write 292) with false by reflexivity.
    rewrite orb_false_r. destruct (privileged e).
    + set (w5 := set_fs _ w4).
      assert (Hf5 : files (fs w5) !! p = Some (File (Text "") 292)).
      { subst w5. rewrite fs_set_fs. cbn [files]. apply lookup_insert_eq. }
      rewrite (bind_ok _ _ _ _ _ (dump_file p data _ w5 Hf5)).
      unfold ret. f_equal. subst w5 w4 w3 w2 w1.
      rewrite !fs_set_fs, !set_fs_set_fs.
      cbn [dirs files mode]. now rewrite !insert_insert_eq.
    + f_equal. subst w4 w3 w2 w1. rewrite !fs_set_fs, !set_fs_set_fs.
      cbn [dirs files mode content]. now rewrite !insert_insert_eq.
Qed.

Lemma proj_1_tasks :
  exists project,
    services._projects !! "proj-1" = Some project
    /\ PList (models.Task.to_dict <$> models.Project.tasks project) = task_data.
Proof. eexists. split; vm_compute; reflexivity. Qed.


Lemma permission_route_fs (e : env) (req : app.request) (w : world) :
  os.is_file (fs w) (export_dir e) = false ->
  os.is_dir (fs w) (export_path e "proj-1") = false ->
  fs (snd (app.serve app.TriggerPermissionError e req w))
  = FS ({[export_dir e]} ∪ dirs (fs w))
       (<[export_path e "proj-1" := File (export_content e w task_data) 292]>
          (files (fs w))).
Proof.
  intros Hfile Hdir. unfold app.serve. cbn [app.view].
  unfold app.trigger_permission_error.
  destruct proj_1_tasks as (project & -> & ->).
  unfold bind at 1. rewrite (write_export_file_eq e task_data w Hfile Hdir).
  destruct (privileged e); [reflexivity |].
  cbn [exn_class derives_Exception PermissionError].
  now rewrite keeps_fs_handle_exception.
Qed.


Section TouchesOnly.
Context (P : string -> Prop).





Lemma touches_only_set_fs (g : world -> filesystem) :
  (forall w, same_outside P (fs w) (g w)) ->
  touches_only P (fun w => (Ok tt, set_fs (g w) w)).
Proof. intros H w. cbn [snd]. rewrite fs_set_fs. apply H. Qed.






End TouchesOnly.





(** * The rest of the code *)

(** ** utils.py *)

(** X1. [clamp] keeps a value inside the bounds when they are in order,
    leaves a value already inside unchanged, and is idempotent; with the
    bounds swapped it answers [min_val] whatever the value. *)
Theorem X1_clamp_bounds :
  forall value min_val max_val : Z,
    (min_val <= max_val ->
     min_val <= utils.clamp value min_val max_val <= max_val)
    /\ (min_val <= value <= max_val ->
        utils.clamp value min_val max_val = value)
    /\ (max_val < min_val -> utils.clamp value min_val max_val = min_val)
    /\ utils.clamp (utils.clamp value min_val max_val) min_val max_val
       = utils.clamp value min_val max_val.
Proof. intros. unfold utils.clamp. repeat split; lia. Qed.

Lemma X1_clamp_bounds_witness :
  (0 <= utils.clamp 17 0 10 <= 10)
  /\ utils.clamp 7 0 10 = 7
  /\ utils.clamp 7 10 0 = 10.
Proof.
  split; [apply (proj1 (X1_clamp_bounds 17 0 10)); lia |].
  split; [apply (proj1 (proj2 (X1_clamp_bounds 7 0 10))); lia |].
  apply (proj1 (proj2 (proj2 (X1_clamp_bounds 7 10 0)))). lia.
Defined.

Lemma float_overflow_bound_big : 1 < float_overflow_bound.
Proof. reflexivity. Qed.

Lemma truediv_int (a d : Z) :
  d <> 0 ->
  builtins.truediv a (PInt d)
  = if float_overflow_bound * Z.abs d <=? Z.abs a
    then raise OverflowError "integer division result too large for a float"
    else Ok (PFloat (FNum (if 0 <? d then Qmake a (Z.to_pos d)
                           else Qmake (- a) (Z.to_pos (- d))))).
Proof.
  intros Hd. unfold builtins.truediv.
  destruct (Z.eqb_spec d 0) as [| _]; [contradiction |].
  unfold too_large.
  destruct (Z.ltb_spec 0 d) as [Hpos | Hneg]; cbn [Qnum Qden].
  - now rewrite Z2Pos.id, (Z.abs_eq d) by lia.
  - now rewrite Z2Pos.id, Z.abs_opp, (Z.abs_neq d) by lia.
Qed.

(** X2. [safe_divide] of two ints returns exactly when the denominator
    is not zero and the quotient rounds to a finite float; it raises
    ZeroDivisionError on a zero denominator, and OverflowError when the
    quotient is at least halfway from the largest float to 2^1024 in
    magnitude.  It never returns 0 in place of a failure. *)
Theorem X2_safe_divide_zero :
  forall numerator denominator : Z,
    (returns (utils.safe_divide numerator (PInt denominator))
     <-> denominator <> 0
         /\ Z.abs numerator
            < float_overflow_bound * Z.abs denominator)
    /\ (denominator = 0 ->
        raises (utils.safe_divide numerator (PInt denominator))
               ZeroDivisionError)
    /\ (denominator <> 0 ->
        float_overflow_bound * Z.abs denominator
        <= Z.abs numerator ->
        raises (utils.safe_divide numerator (PInt denominator))
               OverflowError).
Proof.
  intros n d. unfold utils.safe_divide.
  destruct (Z.eq_dec d 0) as [-> | Hd].
  - split; [split |]; [| | split].
    + intros [v Hv]. discriminate.
    + intros [H _]. congruence.
    + intros _. apply raises_intro.
    + congruence.
  - rewrite (truediv_int n d Hd).
    destruct (Z.leb_spec (float_overflow_bound * Z.abs d) (Z.abs n))
      as [Hbig | Hfits].
    + split; [split |]; [| | split].
      * intros [v Hv]. discriminate.
      * intros [_ H]. lia.
      * congruence.
      * intros _ _. apply raises_intro.
    + split; [split |]; [| | split].
      * intros _. split; [exact Hd | exact Hfits].
      * intros _. eexists. reflexivity.
      * congruence.
      * intros _ H. lia.
Qed.

Lemma X2_safe_divide_zero_witness :
  returns (utils.safe_divide 6 (PInt 3))
  /\ raises (utils.safe_divide 6 (PInt 0)) ZeroDivisionError
  /\ raises (utils.safe_divide (10 ^ 400) (PInt 1)) OverflowError.
Proof.
  split; [| split].
  - apply (proj1 (X2_safe_divide_zero 6 3)). split; [discriminate |].
    vm_compute. reflexivity.
  - apply (proj1 (proj2 (X2_safe_divide_zero 6 0))). reflexivity.
  - apply (proj2 (proj2 (X2_safe_divide_zero (10 ^ 400) 1))); [discriminate |].
    vm_compute. discriminate.
Defined.

Lemma repeat_str_length (s : string) (n : nat) :
  String.length (repeat_str s n) = (n * String.length s)%nat.
Proof.
  induction n as [| n IH]; [reflexivity |].
  cbn [repeat_str]. 
  assert (Happ : forall a b, String.length (a +:+ b)
                             = (String.length a + String.length b)%nat).
  { induction a as [| c a IHa]; intros b; [reflexivity |].
    change (String c a +:+ b) with (String c (a +:+ b)).
    cbn [String.length]. now rewrite IHa. }
  rewrite Happ, IH. lia.
Qed.

(** X3. [generate_large_payload n] has [n] items (none when [n] is zero
    or negative); the item at position [i] carries the id [i] and 1024
    characters of data. *)
Theorem X3_generate_large_payload_items :
  forall n : Z,
    length (utils.generate_large_payload n) = Z.to_nat n
    /\ (n <= 0 -> utils.generate_large_payload n = [])
    /\ (forall (i : nat) item,
           utils.generate_large_payload n !! i = Some item ->
           (i < Z.to_nat n)%nat
           /\ dict_get item "id" = Some (PInt (Z.of_nat i))
           /\ exists d, dict_get item "data" = Some (PStr d)
                        /\ String.length d = 1024%nat).
Proof.
  intros n. unfold utils.generate_large_payload. split; [| split].
  - now rewrite length_map, length_seq.
  - intros Hn. replace (Z.to_nat n) with 0%nat by lia. reflexivity.
  - intros i item Hi.
    change (map ?f ?l) with (f <$> l) in Hi.
    rewrite list_lookup_fmap in Hi.
    destruct (seq 0 (Z.to_nat n) !! i) as [j |] eqn:Hj; [| discriminate].
    apply lookup_seq in Hj as [-> Hlt]. cbn in Hi. injection Hi as <-.
    split; [exact Hlt |]. split; [reflexivity |].
    exists (repeat_str "x" 1024). split; [reflexivity |].
    now rewrite repeat_str_length.
Qed.

Lemma X3_generate_large_payload_items_witness :
  utils.generate_large_payload (-3) = []
  /\ dict_get [("id", PInt 1); ("data", PStr (repeat_str "x" 1024))] "id"
     = Some (PInt (Z.of_nat 1)).
Proof.
  split.
  - apply (proj1 (proj2 (X3_generate_large_payload_items (-3)))). lia.
  - apply (proj2 (proj2 (X3_generate_large_payload_items 2)) 1%nat
             [("id", PInt 1); ("data", PStr (repeat_str "x" 1024))]).
    reflexivity.
Defined.

(** ** models.py *)

Lemma list_getitem_in_range {A} (l : list A) (i : nat) (x : A) :
  l !! i = Some x ->
  builtins.list_getitem l (Z.of_nat i) = Ok x
  /\ builtins.list_getitem l (Z.of_nat i - Z.of_nat (length l)) = Ok x.
Proof.
  intros Hx. pose proof (lookup_lt_Some _ _ _ Hx) as Hlt.
  unfold builtins.list_getitem. split.
  - destruct (Z.ltb_spec (Z.of_nat i) 0); [lia |].
    destruct (Z.leb_spec 0 (Z.of_nat i)); [| lia].
    destruct (Z.ltb_spec (Z.of_nat i) (Z.of_nat (length l))); [| lia].
    cbn [andb]. now rewrite Nat2Z.id, Hx.
  - destruct (Z.ltb_spec (Z.of_nat i - Z.of_nat (length l)) 0); [| lia].
    replace (Z.of_nat i - Z.of_nat (length l) + Z.of_nat (length l))
      with (Z.of_nat i) by lia.
    destruct (Z.leb_spec 0 (Z.of_nat i)); [| lia].
    destruct (Z.ltb_spec (Z.of_nat i) (Z.of_nat (length l))); [| lia].
    cbn [andb]. now rewrite Nat2Z.id, Hx.
Qed.

Lemma list_getitem_out_of_range {A} (l : list A) (i : Z) :
  i < - Z.of_nat (length l) \/ Z.of_nat (length l) <= i ->
  builtins.list_getitem l i = raise IndexError "list index out of range".
Proof.
  intros H. unfold builtins.list_getitem.
  destruct (Z.ltb_spec i 0).
  - destruct (Z.leb_spec 0 (i + Z.of_nat (length l))); [lia | reflexivity].
  - destruct (Z.leb_spec 0 i); [| lia].
    destruct (Z.ltb_spec i (Z.of_nat (length l))); [lia | reflexivity].
Qed.

Lemma list_getitem_returns {A} (l : list A) (i : Z) :
  returns (builtins.list_getitem l i)
  <-> - Z.of_nat (length l) <= i < Z.of_nat (length l).
Proof.
  split.
  - intros [x Hx].
    destruct (Z_lt_ge_dec i (- Z.of_nat (length l))) as [Hlo | Hlo];
      [rewrite list_getitem_out_of_range in Hx by lia; discriminate |].
    destruct (Z_lt_ge_dec i (Z.of_nat (length l))) as [Hhi | Hhi]; [lia |].
    rewrite list_getitem_out_of_range in Hx by lia. discriminate.
  - intros [Hlo Hhi].
    destruct (Z_lt_ge_dec i 0) as [Hneg | Hpos].
    + destruct (lookup_lt_is_Some_2 l (Z.to_nat (i + Z.of_nat (length l))))
        as [x Hx]; [lia |].
      exists x. destruct (list_getitem_in_range l _ x Hx) as [_ H2].
      rewrite <- H2. f_equal. lia.
    + destruct (lookup_lt_is_Some_2 l (Z.to_nat i)) as [x Hx]; [lia |].
      exists x. destruct (list_getitem_in_range l _ x Hx) as [H1 _].
      rewrite <- H1. f_equal. lia.
Qed.

(** X4. [models.Task.get_tag] follows list indexing: it returns exactly for an
    index from minus the number of tags up to that number excluded, the
    tag at position [i] is also the one at [i] minus the number of
    tags, and any other index raises IndexError. *)
Theorem X4_get_tag_indexing :
  forall (self : models.Task.t) (index : Z),
    let n := Z.of_nat (length (models.Task.tags self)) in
    (returns (models.Task.get_tag self index) <-> - n <= index < n)
    /\ (forall (i : nat) (tag : string),
           models.Task.tags self !! i = Some tag ->
           models.Task.get_tag self (Z.of_nat i) = Ok tag
           /\ models.Task.get_tag self (Z.of_nat i - n) = Ok tag)
    /\ (index < - n \/ n <= index ->
        raises (models.Task.get_tag self index) IndexError).
Proof.
  intros self index n. unfold models.Task.get_tag. split; [| split].
  - apply list_getitem_returns.
  - intros i tag Hi. now apply list_getitem_in_range.
  - intros H. rewrite list_getitem_out_of_range by exact H.
    apply raises_intro.
Qed.

Lemma X4_get_tag_indexing_witness :
  let task := models.Task.__init__ "T" "t" "d" None (Some ["a"; "b"; "c"]) 1 in
  models.Task.get_tag task (-1) = Ok "c"
  /\ raises (models.Task.get_tag task 3) IndexError
  /\ returns (models.Task.get_tag task (-3)).
Proof.
  cbv zeta. split; [| split].
  - apply (proj1 (proj2 (X4_get_tag_indexing
             (models.Task.__init__ "T" "t" "d" None (Some ["a"; "b"; "c"]) 1)
             0)) 2%nat "c"). reflexivity.
  - apply (proj2 (proj2 (X4_get_tag_indexing
             (models.Task.__init__ "T" "t" "d" None (Some ["a"; "b"; "c"]) 1)
             3))). cbn. lia.
  - apply (proj1 (X4_get_tag_indexing
             (models.Task.__init__ "T" "t" "d" None (Some ["a"; "b"; "c"]) 1)
             (-3))). cbn. lia.
Defined.

(** X5. [models.Task.get_latest_comment] returns the last comment when there
    is one and raises IndexError on a task without comments; a task
    fresh from the constructor has none, whatever its arguments. *)
Theorem X5_get_latest_comment_last :
  (forall (self : models.Task.t) (earlier : list pyval) (latest : pyval),
      models.Task.comments self = (earlier ++ [latest])%list ->
      models.Task.get_latest_comment self = Ok latest)
  /\ (forall self : models.Task.t,
         models.Task.comments self = [] ->
         raises (models.Task.get_latest_comment self) IndexError)
  /\ (forall task_id title description assignee tags priority,
         raises (models.Task.get_latest_comment
                   (models.Task.__init__ task_id title description assignee
                                         tags priority)) IndexError).
Proof.
  split; [| split].
  - intros self earlier latest Hc. unfold models.Task.get_latest_comment.
    rewrite Hc.
    destruct (list_getitem_in_range (earlier ++ [latest]) (length earlier) latest)
      as [_ H]; [now apply list_lookup_middle |].
    rewrite <- H. f_equal. rewrite length_app. cbn. lia.
  - intros self Hc. unfold models.Task.get_latest_comment. rewrite Hc.
    apply raises_intro.
  - intros. apply raises_intro.
Qed.

Lemma X5_get_latest_comment_last_witness :
  models.Task.get_latest_comment
    (models.Task.mk "T" "t" "d" None [] 1 [PStr "first"; PStr "second"] [])
  = Ok (PStr "second")
  /\ raises (models.Task.get_latest_comment
               (models.Task.mk "T" "t" "d" None [] 1 [] [])) IndexError.
Proof.
  split.
  - apply (proj1 X5_get_latest_comment_last _ [PStr "first"]). reflexivity.
  - apply (proj1 (proj2 X5_get_latest_comment_last)). reflexivity.
Defined.

(** X6. [models.Project.get_task_by_id] answers the first task of the project
    whose id is the one asked, and None exactly when no task has it. *)
Theorem X6_get_task_by_id_first :
  forall (self : models.Project.t) (task_id : string),
    match models.Project.get_task_by_id self task_id with
    | Some task =>
        exists before after,
          models.Project.tasks self = (before ++ task :: after)%list
          /\ models.Task.task_id task = task_id
          /\ Forall (fun t => models.Task.task_id t <> task_id) before
    | None =>
        Forall (fun t => models.Task.task_id t <> task_id)
               (models.Project.tasks self)
    end.
Proof.
  intros self task_id. unfold models.Project.get_task_by_id.
  induction (models.Project.tasks self) as [| t ts IH]; cbn [find].
  - constructor.
  - destruct (String.eqb_spec (models.Task.task_id t) task_id) as [He | Hne].
    + exists [], ts. repeat split; [exact He | constructor].
    + destruct (find _ ts) as [found |].
      * destruct IH as (before & after & -> & Hid & Hb).
        exists (t :: before), after. repeat split; [exact Hid |].
        now constructor.
      * now constructor.
Qed.

(** X7. [models.Project.calculate_completion_rate] divides by the number of
    tasks: it raises ZeroDivisionError exactly on a project without
    tasks, and returns a float on any other. *)
Theorem X7_completion_rate_empty_project :
  forall (float_mul : pyfloat -> Z -> pyfloat) (self : models.Project.t),
    (raises (models.Project.calculate_completion_rate float_mul self)
            ZeroDivisionError
     <-> models.Project.tasks self = [])
    /\ (models.Project.tasks self <> [] ->
        exists f, models.Project.calculate_completion_rate float_mul self
                  = Ok (PFloat f)).
Proof.
  intros float_mul self. unfold models.Project.calculate_completion_rate.
  destruct (models.Project.tasks self) as [| t ts] eqn:Ht.
  - split; [split; [reflexivity | intros _; apply raises_intro] | congruence].
  - assert (Hdiv : forall c : Z,
               0 <= c <= Z.of_nat (length (t :: ts)) ->
               exists f, builtins.truediv c (PInt (Z.of_nat (length (t :: ts))))
                         = Ok (PFloat f)).
    { intros c Hc. rewrite truediv_int by (cbn [length]; lia).
      pose proof float_overflow_bound_big as Hbig.
      destruct (Z.leb_spec (float_overflow_bound
                            * Z.abs (Z.of_nat (length (t :: ts)))) (Z.abs c))
        as [Hover | _]; [cbn [length] in *; nia |].
      eexists. reflexivity. }
    match goal with
    | |- context [builtins.truediv ?c _] => destruct (Hdiv c) as [f ->]
    end.
    { split; [lia |]. apply inj_le. rewrite <- Ht. apply length_filter. }
    cbn [res_bind]. split; [split |].
    + intros [msg Hm]. discriminate.
    + discriminate.
    + intros _. eexists. reflexivity.
Qed.

Lemma X7_completion_rate_empty_project_witness :
  raises (models.Project.calculate_completion_rate
            (fun f _ => f)
            (models.Project.__init__ "p" "P"
               (models.User.__init__ 1 "A" "a@example.com" "member")))
         ZeroDivisionError.
Proof.
  apply (proj1 (X7_completion_rate_empty_project _ _)). reflexivity.
Defined.

(** X8. [APIResponse.json] decodes the raw body only while nothing is
    cached.  A response whose [_parsed] is not None answers it without
    decoding, whatever the raw body holds, and stays as it is.  When
    nothing is cached and [json.loads] returns a value, the call
    returns it and stores it in [_parsed], leaving the raw body and the
    status code alone, and a second call returns the same value and
    changes nothing more.  When [json.loads] raises, the call raises
    the same exception. *)
Theorem X8_json_cached :
  forall self : models.APIResponse.t,
    (models.APIResponse._parsed self <> PNone ->
     models.APIResponse.json self
     = Ok (models.APIResponse._parsed self, self))
    /\ (models.APIResponse._parsed self = PNone ->
        forall v : pyval,
          json.loads (models.APIResponse.raw_body self) = Ok v ->
          let self' :=
            models.APIResponse.mk (models.APIResponse.raw_body self)
                                  (models.APIResponse.status_code self) v in
          models.APIResponse.json self = Ok (v, self')
          /\ models.APIResponse.json self' = Ok (v, self'))
    /\ (models.APIResponse._parsed self = PNone ->
        forall x : exn,
          json.loads (models.APIResponse.raw_body self) = Raise x ->
          models.APIResponse.json self = Raise x).
Proof.
  intros [raw code parsed]. unfold models.APIResponse.json.
  cbn [models.APIResponse._parsed models.APIResponse.raw_body
       models.APIResponse.status_code].
  split; [| split].
  - intros Hp. destruct parsed; [congruence | reflexivity ..].
  - intros -> v Hv. cbv zeta. rewrite Hv. cbn [res_bind].
    split; [reflexivity |].
    cbn [models.APIResponse._parsed models.APIResponse.raw_body
         models.APIResponse.status_code].
    destruct v; first [reflexivity | now rewrite Hv].
  - intros -> x Hx. now rewrite Hx.
Qed.

Lemma X8_json_cached_witness :
  models.APIResponse.json (models.APIResponse.mk "not json" 200 (PInt 5))
  = Ok (PInt 5, models.APIResponse.mk "not json" 200 (PInt 5))
  /\ models.APIResponse.json (models.APIResponse.__init__ "[1, 2]")
     = Ok (PList [PInt 1; PInt 2],
           models.APIResponse.mk "[1, 2]" 200 (PList [PInt 1; PInt 2]))
  /\ raises (models.APIResponse.json (models.APIResponse.__init__ "[1, 2"))
            JSONDecodeError.
Proof.
  split; [| split].
  - apply (proj1 (X8_json_cached
                    (models.APIResponse.mk "not json" 200 (PInt 5)))).
    discriminate.
  - apply (proj1 (proj2 (X8_json_cached (models.APIResponse.__init__ "[1, 2]")))
                 eq_refl (PList [PInt 1; PInt 2])).
    vm_compute. reflexivity.
  - eexists.
    apply (proj2 (proj2 (X8_json_cached (models.APIResponse.__init__ "[1, 2")))
                 eq_refl).
    vm_compute. reflexivity.
Defined.

(** ** Category trees *)

Lemma init_lookup (name : string) (parent : option nat)
    (h : models.CategoryTree.store) (i : nat) (node : models.CategoryTree.t) :
  snd (models.CategoryTree.__init__ name parent h) !! i = Some node ->
  h !! i = Some node
  \/ (i = length h /\ node = models.CategoryTree.mk name parent []).
Proof.
  cbn [models.CategoryTree.__init__ snd]. intros H.
  apply lookup_app_Some in H as [H | [Hle H]]; [now left |].
  right. destruct (i - length h)%nat as [| k] eqn:Hk; [| destruct k; discriminate].
  injection H as <-. split; [lia | reflexivity].
Qed.

Lemma children_append_lookup (self x : nat) (h : models.CategoryTree.store)
    (i : nat) (node : models.CategoryTree.t) :
  models.CategoryTree.children_append self x h !! i = Some node ->
  exists old,
    h !! i = Some old
    /\ models.CategoryTree.name node = models.CategoryTree.name old
    /\ models.CategoryTree.parent node = models.CategoryTree.parent old
    /\ (models.CategoryTree.children node = models.CategoryTree.children old
        \/ (i = self
            /\ models.CategoryTree.children node
               = (models.CategoryTree.children old ++ [x])%list)).
Proof.
  unfold models.CategoryTree.children_append, models.CategoryTree.store in *.
  destruct (h !! self) as [sn |] eqn:Hs.
  - destruct (decide (i = self)) as [-> | Hne].
    + rewrite list_lookup_insert_eq by (now apply lookup_lt_Some in Hs).
      intros [= <-]. exists sn. repeat split; [exact Hs |]. right. now split.
    + rewrite list_lookup_insert_ne by congruence.
      intros H. exists node. repeat split; [exact H |]. now left.
  - intros H. exists node. repeat split; [exact H |]. now left.
Qed.

Lemma children_append_length (self x : nat) (h : models.CategoryTree.store) :
  length (models.CategoryTree.children_append self x h) = length h.
Proof.
  unfold models.CategoryTree.children_append, models.CategoryTree.store in *.
  destruct (h !! self); [apply length_insert | reflexivity].
Qed.

Lemma children_append_parents (self x : nat) (h : models.CategoryTree.store) :
  parents_backward h -> parents_backward (models.CategoryTree.children_append self x h).
Proof.
  intros Hp i node p Hi Hpar.
  apply children_append_lookup in Hi as (old & Ho & _ & Hpo & _).
  rewrite Hpo in Hpar. exact (Hp i old p Ho Hpar).
Qed.

Lemma built_shape (h : models.CategoryTree.store) :
  built h -> children_forward h /\ parents_backward h.
Proof.
  induction 1 as [| name h Hb [IHc IHp] | self name h Hb [IHc IHp] Hself].
  - split; intros i node; intros; discriminate.
  - split.
    + intros i node Hi. apply init_lookup in Hi as [Hi | [-> ->]].
      * eapply Forall_impl; [exact (IHc i node Hi) |].
        cbn. intros c Hc. rewrite length_app. cbn. lia.
      * constructor.
    + intros i node p Hi Hpar. apply init_lookup in Hi as [Hi | [-> ->]].
      * exact (IHp i node p Hi Hpar).
      * discriminate.
  - cbn [models.CategoryTree.add_child models.CategoryTree.__init__ snd].
    split.
    + intros i node Hi. rewrite children_append_length, length_app.
      cbn [length].
      apply children_append_lookup in Hi as (old & Ho & _ & _ & Hch).
      assert (Hold : Forall (fun c => (i < c < length h + 1)%nat)
                            (models.CategoryTree.children old)).
      { apply lookup_app_Some in Ho as [Ho | [Hle Ho]].
        - eapply Forall_impl; [exact (IHc i old Ho) |]. cbn. intros c Hc. lia.
        - destruct (i - length h)%nat as [| k]; [| destruct k; discriminate].
          injection Ho as <-. constructor. }
      destruct Hch as [-> | [-> ->]]; [exact Hold |].
      apply Forall_app. split; [exact Hold |].
      constructor; [lia | constructor].
    + apply children_append_parents.
      intros i node p Hi Hpar.
      apply (init_lookup name (Some self) h) in Hi as [Hi | [-> ->]].
      * exact (IHp i node p Hi Hpar).
      * cbn in Hpar. injection Hpar as <-. exact Hself.
Qed.

Lemma flatten_fold_returns (frames : nat) (h : models.CategoryTree.store)
    (cs : list nat) (acc : list string) :
  Forall (fun c => returns (models.CategoryTree.flatten frames h c)) cs ->
  exists l,
    fold_left (fun result child =>
                 r <~ result ;;
                 sub <~ models.CategoryTree.flatten frames h child ;;
                 Ok (r ++ sub)%list) cs (Ok acc)
    = Ok (acc ++ l)%list.
Proof.
  revert acc. induction cs as [| c cs IH]; intros acc Hall.
  - exists []. cbn. now rewrite app_nil_r.
  - inversion Hall as [| ? ? [sub Hsub] Hrest]; subst.
    cbn [fold_left res_bind]. rewrite Hsub. cbn [res_bind].
    destruct (IH (acc ++ sub)%list Hrest) as [l Hl].
    exists (sub ++ l)%list. rewrite Hl. now rewrite app_assoc.
Qed.

Lemma flatten_returns (h : models.CategoryTree.store) :
  children_forward h ->
  forall frames self node,
    h !! self = Some node ->
    (length h - self <= frames)%nat ->
    exists below,
      models.CategoryTree.flatten frames h self
      = Ok (models.CategoryTree.name node :: below).
Proof.
  intros Hf. induction frames as [| frames IH]; intros self node Hn Hfr.
  - apply lookup_lt_Some in Hn. lia.
  - cbn [models.CategoryTree.flatten]. rewrite Hn.
    apply (flatten_fold_returns frames h _ [models.CategoryTree.name node]).
    eapply Forall_impl; [exact (Hf self node Hn) |].
    cbn. intros c Hc.
    destruct (lookup_lt_is_Some_2 h c) as [cn Hcn]; [lia |].
    destruct (IH c cn Hcn) as [below Hb]; [lia |].
    eexists. exact Hb.
Qed.

Lemma get_full_path_returns (h : models.CategoryTree.store) :
  parents_backward h ->
  forall frames self node,
    h !! self = Some node ->
    (self < frames)%nat ->
    returns (models.CategoryTree.get_full_path frames h self).
Proof.
  intros Hp. induction frames as [| frames IH]; intros self node Hn Hfr; [lia |].
  cbn [models.CategoryTree.get_full_path]. rewrite Hn.
  destruct (models.CategoryTree.parent node) as [p |] eqn:Hpar; [| eexists; reflexivity].
  pose proof (Hp self node p Hn Hpar) as Hlt.
  destruct (lookup_lt_is_Some_2 h p) as [pn Hpn];
    [apply lookup_lt_Some in Hn; lia |].
  destruct (IH p pn Hpn) as [above Ha]; [lia |].
  rewrite Ha. eexists. reflexivity.
Qed.

Lemma find_category_returns (h : models.CategoryTree.store) (wanted : string) :
  children_forward h ->
  forall frames self node,
    h !! self = Some node ->
    (length h - self <= frames)%nat ->
    returns (models.CategoryTree.find_category frames h self wanted).
Proof.
  intros Hf. induction frames as [| frames IH]; intros self node Hn Hfr.
  - apply lookup_lt_Some in Hn. lia.
  - cbn [models.CategoryTree.find_category]. rewrite Hn.
    destruct (String.eqb (models.CategoryTree.name node) wanted);
      [eexists; reflexivity |].
    pose proof (Hf self node Hn) as Hcs.
    induction (models.CategoryTree.children node) as [| c cs IHcs];
      [eexists; reflexivity |].
    inversion Hcs as [| ? ? Hc Hrest]; subst.
    destruct (lookup_lt_is_Some_2 h c) as [cn Hcn]; [lia |].
    destruct (IH c cn Hcn) as [[found |] Hr]; [lia | |];
      rewrite Hr; cbn [res_bind]; [eexists; reflexivity |].
    exact (IHcs Hrest).
Qed.

(** X9. On a tree made with the constructor and [add_child] alone,
    [flatten], [get_full_path] and [find_category] return from every
    node, as soon as the interpreter allows as many nested calls as the
    tree has nodes; [flatten] starts with the name of the node. *)
Theorem X9_built_trees_traverse :
  forall (h : models.CategoryTree.store) (self : nat) (node : models.CategoryTree.t)
         (frames : nat),
    built h ->
    h !! self = Some node ->
    (length h <= frames)%nat ->
    (exists below, models.CategoryTree.flatten frames h self
                   = Ok (models.CategoryTree.name node :: below))
    /\ returns (models.CategoryTree.get_full_path frames h self)
    /\ (forall wanted,
           returns (models.CategoryTree.find_category frames h self wanted)).
Proof.
  intros h self node frames Hb Hn Hfr.
  destruct (built_shape h Hb) as [Hc Hp].
  pose proof (lookup_lt_Some _ _ _ Hn) as Hlt.
  split; [| split].
  - apply (flatten_returns h Hc frames self node Hn). lia.
  - apply (get_full_path_returns h Hp frames self node Hn). lia.
  - intros wanted.
    apply (find_category_returns h wanted Hc frames self node Hn). lia.
Qed.

Lemma build_category_tree_built : built (snd services.build_category_tree).
Proof.
  unfold services.build_category_tree.
  pose proof (built_root "All Tasks" [] built_nothing) as H0.
  assert (H1 := built_child 0 "Engineering" _ H0 ltac:(cbn; lia)).
  assert (H2 := built_child 1 "Backend" _ H1 ltac:(cbn; lia)).
  assert (H3 := built_child 1 "Frontend" _ H2 ltac:(cbn; lia)).
  assert (H4 := built_child 0 "Design" _ H3 ltac:(cbn; lia)).
  assert (H5 := built_child 4 "UI" _ H4 ltac:(cbn; lia)).
  assert (H6 := built_child 4 "UX" _ H5 ltac:(cbn; lia)).
  exact H6.
Qed.

Lemma X9_built_trees_traverse_witness :
  returns (models.CategoryTree.get_full_path 7 (snd services.build_category_tree) 2).
Proof.
  apply (X9_built_trees_traverse (snd services.build_category_tree) 2
           (models.CategoryTree.mk "Backend" (Some 1%nat) []) 7).
  - exact build_category_tree_built.
  - reflexivity.
  - cbn. lia.
Defined.

(** X10. When [find_category] answers a node, that node carries the name
    asked for; a node that carries it is its own answer, whatever lies
    below it. *)
Theorem X10_find_category_sound :
  forall (frames : nat) (h : models.CategoryTree.store) (self : nat)
         (wanted : string),
    (forall found,
        models.CategoryTree.find_category frames h self wanted = Ok (Some found) ->
        models.CategoryTree.name <$> h !! found = Some wanted)
    /\ (forall node,
           h !! self = Some node -> models.CategoryTree.name node = wanted ->
           models.CategoryTree.find_category (S frames) h self wanted
           = Ok (Some self)).
Proof.
  intros frames h self wanted. split.
  - revert self. induction frames as [| frames IH]; intros self found;
      [discriminate |].
    cbn [models.CategoryTree.find_category].
    destruct (h !! self) as [node |] eqn:Hn; [| discriminate].
    destruct (String.eqb_spec (models.CategoryTree.name node) wanted) as [He | _].
    + intros [= <-]. now rewrite Hn, <- He.
    + induction (models.CategoryTree.children node) as [| c cs IHcs]; [discriminate |].
      destruct (models.CategoryTree.find_category frames h c wanted)
        as [[hit |] | x] eqn:Hc; cbn [res_bind].
      * intros [= <-]. exact (IH c hit Hc).
      * exact IHcs.
      * discriminate.
  - intros node Hn He. cbn [models.CategoryTree.find_category].
    rewrite Hn, He, String.eqb_refl. reflexivity.
Qed.

Lemma X10_find_category_sound_witness :
  models.CategoryTree.find_category 1 (snd services.build_category_tree) 4 "Design"
  = Ok (Some 4%nat).
Proof.
  apply (proj2 (X10_find_category_sound 0 (snd services.build_category_tree)
                                        4 "Design")
               (models.CategoryTree.mk "Design" (Some 0%nat) [5; 6]%nat));
    reflexivity.
Defined.

(** X11. On the tree of [build_recursive_categories] the parent links
    are untouched by the append, so [get_full_path] returns from both
    nodes; [find_category] returns the node named Root or Child, and for
    any other name uses up whatever number of nested calls it is
    given. *)
Theorem X11_recursive_categories_other_traversals :
  let '(root, child, h) := services.recursive_categories in
  (forall frames, models.CategoryTree.get_full_path (S frames) h root = Ok "Root")
  /\ (forall frames,
         models.CategoryTree.get_full_path (S (S frames)) h child = Ok "Root > Child")
  /\ (forall frames,
         models.CategoryTree.find_category (S frames) h root "Root" = Ok (Some root))
  /\ (forall frames,
         models.CategoryTree.find_category (S (S frames)) h root "Child"
         = Ok (Some child))
  /\ (forall wanted frames,
         wanted <> "Root" -> wanted <> "Child" ->
         raises (models.CategoryTree.find_category frames h root wanted)
                RecursionError).
Proof.
  rewrite recursive_categories_eq.
  split; [reflexivity |]. split; [reflexivity |].
  split; [reflexivity |]. split; [reflexivity |].
  intros wanted frames Hr Hc.
  destruct (find_category_cycle wanted frames Hr Hc) as [H0 _].
  cbv zeta in H0. rewrite H0. apply raises_intro.
Qed.

Lemma X11_recursive_categories_other_traversals_witness :
  raises (models.CategoryTree.find_category 40
            [models.CategoryTree.mk "Root" None [1%nat];
             models.CategoryTree.mk "Child" (Some 0%nat) [0%nat]] 0 "Backend")
         RecursionError.
Proof.
  pose proof X11_recursive_categories_other_traversals as H.
  rewrite recursive_categories_eq in H.
  apply (proj2 (proj2 (proj2 (proj2 H))) "Backend" 40%nat); discriminate.
Defined.

(** ** The sample data *)

Lemma users_lookup (user_id : Z) :
  services.get_user user_id
  = if decide (user_id = 1) then services.get_user 1
    else if decide (user_id = 2) then services.get_user 2
    else if decide (user_id = 3) then services.get_user 3
    else None.
Proof.
  repeat case_decide; subst; try reflexivity.
  unfold services.get_user, services._users, services.seeded,
    services._seed_data.
  set (users1 := alter _ 1 (services.users services.unseeded)).
  assert (Hu : users1 !! user_id = None).
  { subst users1. rewrite lookup_alter_ne by congruence.
    unfold services.unseeded. cbn [services.users].
    rewrite !lookup_insert_ne by congruence. apply lookup_empty. }
  destruct (users1 !! 1); cbn [services.users]; [exact Hu |].
  unfold services.unseeded. cbn [services.users].
  rewrite !lookup_insert_ne by congruence. apply lookup_empty.
Qed.

Lemma projects_lookup (project_id : string) :
  project_id <> "proj-1" -> services._projects !! project_id = None.
Proof.
  intros Hne.
  unfold services._projects, services.seeded, services._seed_data.
  destruct (alter _ 1 (services.users services.unseeded) !! 1);
    cbn [services.projects services.unseeded].
  - rewrite lookup_insert_ne by congruence. apply lookup_empty.
  - apply lookup_empty.
Qed.

Lemma tasks_by_project_lookup (project_id : string) :
  project_id <> "proj-1" -> services._tasks_by_project !! project_id = None.
Proof.
  intros Hne.
  unfold services._tasks_by_project, services.seeded, services._seed_data.
  destruct (alter _ 1 (services.users services.unseeded) !! 1);
    cbn [services.tasks_by_project services.unseeded].
  - rewrite lookup_insert_ne by congruence. apply lookup_empty.
  - apply lookup_empty.
Qed.

(** The ids of the tasks of proj-1. *)
Lemma task_detail_known (task_id : string) :
  services.get_task_detail "proj-1" task_id
  = if String.eqb "TASK-101" task_id then services.get_task_detail "proj-1" "TASK-101"
    else if String.eqb "TASK-102" task_id then services.get_task_detail "proj-1" "TASK-102"
    else if String.eqb "TASK-103" task_id then services.get_task_detail "proj-1" "TASK-103"
    else None.
Proof.
  unfold services.get_task_detail.
  destruct (services._projects !! "proj-1") as [p |] eqn:Hp;
    [| vm_compute in Hp; discriminate].
  assert (Hids : models.Task.task_id <$> models.Project.tasks p
                 = ["TASK-101"; "TASK-102"; "TASK-103"]).
  { assert (H : (fun q => models.Task.task_id <$> models.Project.tasks q)
                  <$> services._projects !! "proj-1"
                = Some ["TASK-101"; "TASK-102"; "TASK-103"])
      by (vm_compute; reflexivity).
    rewrite Hp in H. now injection H. }
  unfold models.Project.get_task_by_id.
  destruct (models.Project.tasks p) as [| t1 [| t2 [| t3 [| t4 ts]]]]; try discriminate.
  injection Hids as H1 H2 H3. cbn [find]. rewrite H1, H2, H3.
  destruct (String.eqb_spec "TASK-101" task_id) as [<- | _].
  { reflexivity. }
  destruct (String.eqb_spec "TASK-102" task_id) as [<- | _].
  { reflexivity. }
  destruct (String.eqb_spec "TASK-103" task_id) as [<- | _].
  { reflexivity. }
  reflexivity.
Qed.

Lemma task_detail_unknown_project (project_id task_id : string) :
  project_id <> "proj-1" -> services.get_task_detail project_id task_id = None.
Proof.
  intros H. unfold services.get_task_detail. now rewrite projects_lookup.
Qed.

(** X12. [get_user_display_name] never returns: for the three users of
    the sample data it raises TypeError, for any other id
    AttributeError; so the type-error route answers 500 whatever the
    query, naming one of these two. *)
Theorem X12_display_name_never_returns :
  forall user_id : Z,
    (user_id = 1 \/ user_id = 2 \/ user_id = 3 ->
     raises (services.get_user_display_name user_id) TypeError)
    /\ (user_id <> 1 -> user_id <> 2 -> user_id <> 3 ->
        raises (services.get_user_display_name user_id) AttributeError)
    /\ ~ returns (services.get_user_display_name user_id).
Proof.
  intros user_id.
  assert (Hknown : user_id = 1 \/ user_id = 2 \/ user_id = 3 ->
                   raises (services.get_user_display_name user_id) TypeError).
  { intros [-> | [-> | ->]]; vm_compute; eexists; reflexivity. }
  assert (Hother : user_id <> 1 -> user_id <> 2 -> user_id <> 3 ->
                   raises (services.get_user_display_name user_id)
                          AttributeError).
  { intros H1 H2 H3. unfold services.get_user_display_name.
    rewrite users_lookup. repeat case_decide; try congruence.
    apply raises_intro. }
  split; [exact Hknown |]. split; [exact Hother |].
  intros [v Hv].
  destruct (decide (user_id = 1)) as [H1 | H1];
    [destruct (Hknown (or_introl H1)) as [m Hm]; congruence |].
  destruct (decide (user_id = 2)) as [H2 | H2];
    [destruct (Hknown (or_intror (or_introl H2))) as [m Hm]; congruence |].
  destruct (decide (user_id = 3)) as [H3 | H3];
    [destruct (Hknown (or_intror (or_intror H3))) as [m Hm]; congruence |].
  destruct (Hother H1 H2 H3) as [m Hm]. congruence.
Qed.

Lemma X12_display_name_never_returns_witness :
  raises (services.get_user_display_name 3) TypeError
  /\ raises (services.get_user_display_name 99) AttributeError.
Proof.
  split.
  - apply (proj1 (X12_display_name_never_returns 3)). lia.
  - apply (proj1 (proj2 (X12_display_name_never_returns 99))); lia.
Defined.

(** X13. [get_user_notifications] never returns either: user 1 has
    preferences without the notifications key (KeyError), users 2 and 3
    have no preferences at all (TypeError), and an unknown id has no
    user (AttributeError). *)
Theorem X13_notifications_by_user :
  forall user_id : Z,
    (user_id = 1 -> raises (services.get_user_notifications user_id) KeyError)
    /\ (user_id = 2 \/ user_id = 3 ->
        raises (services.get_user_notifications user_id) TypeError)
    /\ (user_id <> 1 -> user_id <> 2 -> user_id <> 3 ->
        raises (services.get_user_notifications user_id) AttributeError).
Proof.
  intros user_id. split; [| split].
  - intros ->. vm_compute. eexists. reflexivity.
  - intros [-> | ->]; vm_compute; eexists; reflexivity.
  - intros H1 H2 H3. unfold services.get_user_notifications.
    rewrite users_lookup. repeat case_decide; try congruence.
    apply raises_intro.
Qed.

Lemma X13_notifications_by_user_witness :
  raises (services.get_user_notifications 1) KeyError
  /\ raises (services.get_user_notifications 2) TypeError
  /\ raises (services.get_user_notifications 0) AttributeError.
Proof.
  split; [apply (proj1 (X13_notifications_by_user 1)); reflexivity |].
  split; [apply (proj1 (proj2 (X13_notifications_by_user 2))); lia |].
  apply (proj2 (proj2 (X13_notifications_by_user 0))); lia.
Defined.

(** X14. [get_task_assignee_email] returns only for the two assigned
    tasks of proj-1, with the email of the assignee; for the unassigned
    TASK-103, for any other task id and for any other project it raises
    AttributeError. *)
Theorem X14_assignee_email_by_task :
  services.get_task_assignee_email "proj-1" "TASK-101" = Ok "bob@example.com"
  /\ services.get_task_assignee_email "proj-1" "TASK-102"
     = Ok "charlie@example.com"
  /\ (forall project_id task_id,
         ~ (project_id = "proj-1"
            /\ (task_id = "TASK-101" \/ task_id = "TASK-102")) ->
         raises (services.get_task_assignee_email project_id task_id)
                AttributeError).
Proof.
  split; [vm_compute; reflexivity |]. split; [vm_compute; reflexivity |].
  intros project_id task_id Hno.
  unfold services.get_task_assignee_email.
  destruct (string_dec project_id "proj-1") as [-> | Hp].
  - rewrite task_detail_known.
    destruct (String.eqb_spec "TASK-101" task_id) as [<- | _]; [tauto |].
    destruct (String.eqb_spec "TASK-102" task_id) as [<- | _]; [tauto |].
    destruct (String.eqb_spec "TASK-103" task_id) as [<- | _].
    + vm_compute. eexists. reflexivity.
    + apply raises_intro.
  - rewrite task_detail_unknown_project by exact Hp. apply raises_intro.
Qed.

Lemma X14_assignee_email_by_task_witness :
  raises (services.get_task_assignee_email "proj-2" "TASK-101") AttributeError.
Proof.
  apply (proj2 (proj2 X14_assignee_email_by_task)).
  intros [H _]. discriminate H.
Defined.

(** X15. [services.get_latest_comment] never returns: every task of the
    sample data is without comments (IndexError), and a task or project
    that does not exist gives None to call the method on
    (AttributeError). *)
Theorem X15_latest_comment_never_returns :
  forall project_id task_id : string,
    (project_id = "proj-1" ->
     task_id = "TASK-101" \/ task_id = "TASK-102" \/ task_id = "TASK-103" ->
     raises (services.get_latest_comment project_id task_id) IndexError)
    /\ (~ (project_id = "proj-1"
           /\ (task_id = "TASK-101" \/ task_id = "TASK-102"
               \/ task_id = "TASK-103")) ->
        raises (services.get_latest_comment project_id task_id)
               AttributeError).
Proof.
  intros project_id task_id. split.
  - intros -> [-> | [-> | ->]]; vm_compute; eexists; reflexivity.
  - intros Hno. unfold services.get_latest_comment.
    destruct (string_dec project_id "proj-1") as [-> | Hp].
    + rewrite task_detail_known.
      destruct (String.eqb_spec "TASK-101" task_id) as [<- | _]; [tauto |].
      destruct (String.eqb_spec "TASK-102" task_id) as [<- | _]; [tauto |].
      destruct (String.eqb_spec "TASK-103" task_id) as [<- | _]; [tauto |].
      apply raises_intro.
    + rewrite task_detail_unknown_project by exact Hp. apply raises_intro.
Qed.

Lemma X15_latest_comment_never_returns_witness :
  raises (services.get_latest_comment "proj-1" "TASK-102") IndexError
  /\ raises (services.get_latest_comment "proj-1" "TASK-999") AttributeError.
Proof.
  split.
  - apply (proj1 (X15_latest_comment_never_returns "proj-1" "TASK-102"));
      [reflexivity | right; left; reflexivity].
  - apply (proj2 (X15_latest_comment_never_returns "proj-1" "TASK-999")).
    intros [_ [H | [H | H]]]; discriminate H.
Defined.

(** X16. An unknown project id raises nothing in the lookups that guard
    against it: [get_project_tasks] gives the empty list,
    [get_task_detail] and [generate_velocity_report] give None, and
    [calculate_project_stats] gives the error dict; for proj-1 the stats
    count three tasks and never raise. *)
Theorem X16_unknown_project_defaults :
  (forall project_id : string,
      project_id <> "proj-1" ->
      services.get_project_tasks project_id = []
      /\ (forall task_id, services.get_task_detail project_id task_id = None)
      /\ (forall points,
             services.generate_velocity_report project_id points = Ok PNone)
      /\ (forall float_mul,
             services.calculate_project_stats float_mul project_id
             = Ok (PDict [("error", PStr "Project not found")])))
  /\ length (services.get_project_tasks "proj-1") = 3%nat
  /\ (forall float_mul,
         services.calculate_project_stats float_mul "proj-1"
         = Ok (PDict [("total_tasks", PInt 3);
                      ("completion_rate",
                       PFloat (float_mul (FNum (Qmake 0 3)) 100))])).
Proof.
  split; [| split].
  - intros project_id Hne. repeat split.
    + unfold services.get_project_tasks.
      now rewrite tasks_by_project_lookup.
    + intros task_id. now apply task_detail_unknown_project.
    + intros points. unfold services.generate_velocity_report.
      now rewrite projects_lookup.
    + intros float_mul. unfold services.calculate_project_stats.
      now rewrite projects_lookup.
  - vm_compute. reflexivity.
  - intros float_mul. unfold services.calculate_project_stats.
    destruct (services._projects !! "proj-1") as [p |] eqn:Hp;
      [| vm_compute in Hp; discriminate].
    vm_compute in Hp. injection Hp as <-. reflexivity.
Qed.

Lemma X16_unknown_project_defaults_witness :
  services.get_project_tasks "proj-9" = [].
Proof.
  apply (proj1 (proj1 X16_unknown_project_defaults "proj-9"
                 ltac:(discriminate))).
Defined.

(** ** Notifications *)

Lemma process_fold_raise (handler : list (string * pyval) -> res unit)
    (l : list (list (string * pyval))) (x : exn) :
  fold_left (fun done notification => _ <~ done ;; handler notification)
            l (Raise x)
  = Raise x.
Proof. induction l as [| n l IH]; [reflexivity | exact IH]. Qed.

(** X17. The worker of a [NotificationQueue] takes the notifications in
    the order they were enqueued and stops at the first one its handler
    fails on: it ends well exactly when the handler succeeds on all of
    them, else with the exception of that first failure; and
    [process_in_background] starts one daemon thread that dies with that
    exception. *)
Theorem X17_process_queue_first_failure :
  forall (self : models.NotificationQueue.t)
         (handler : list (string * pyval) -> res unit),
    match models.NotificationQueue._process_queue self handler with
    | Ok _ => Forall (fun n => handler n = Ok tt) (models.NotificationQueue.queue self)
    | Raise x =>
        exists before n after,
          models.NotificationQueue.queue self = (before ++ n :: after)%list
          /\ Forall (fun m => handler m = Ok tt) before
          /\ handler n = Raise x
    end
    /\ (forall n, models.NotificationQueue.queue (models.NotificationQueue.enqueue self n)
                  = (models.NotificationQueue.queue self ++ [n])%list)
    /\ (forall w,
           models.NotificationQueue.process_in_background self handler w
           = (Ok (length (threads w)),
              set_threads
                (threads w
                 ++ [Thread true 100
                            (match models.NotificationQueue._process_queue self handler with
                             | Ok _ => None
                             | Raise x => Some x
                             end) true]) w)).
Proof.
  intros [queue] handler. split; [| split; reflexivity].
  unfold models.NotificationQueue._process_queue. cbn [models.NotificationQueue.queue].
  induction queue as [| n queue IH]; [constructor |].
  cbn [fold_left res_bind].
  destruct (handler n) as [[] | x] eqn:Hn.
  - destruct (fold_left _ queue (Ok ())) as [u | y].
    + now constructor.
    + destruct IH as (before & m & after & -> & Hb & Hm).
      exists (n :: before), m, after. repeat split; [| exact Hm].
      now constructor.
  - rewrite process_fold_raise.
    exists [], n, queue. repeat split; [constructor | exact Hn].
Qed.

Lemma handler_outcome (e : env) (user_id : Z) (event_type : string) :
  let notification :=
    [("user_id", PInt user_id); ("type", PStr event_type);
     ("ts", PFloat (FNum (now e)))] in
  (uid <~ dict_getitem notification "user_id" ;;
   let recipient := match uid with
                    | PInt u => services.get_user u
                    | _ => None
                    end in
   ty <~ dict_getitem notification "type" ;;
   template <~ match ty with
               | PStr s => services._load_notification_template s
               | other => raise KeyError (str_of e other)
               end ;;
   _ <~ services._send_notification e recipient template notification ;;
   Ok tt)
  = raise KeyError
      (if String.eqb "task_assigned" event_type
          || String.eqb "comment_added" event_type
       then quoted "task" else repr_str event_type).
Proof.
  cbv zeta.
  set (notification := [("user_id", PInt user_id); ("type", PStr event_type);
                        ("ts", PFloat (FNum (now e)))]).
  assert (H1 : dict_getitem notification "user_id" = Ok (PInt user_id))
    by reflexivity.
  assert (H2 : dict_getitem notification "type" = Ok (PStr event_type))
    by reflexivity.
  assert (H3 : forall user,
             services._send_notification e user
               "You have been assigned to {task}." notification
             = raise KeyError (quoted "task")) by reflexivity.
  assert (H4 : forall user,
             services._send_notification e user
               "New comment on {task}: {comment}" notification
             = raise KeyError (quoted "task")) by reflexivity.
  rewrite H1. cbn [res_bind]. rewrite H2. cbn [res_bind].
  unfold services._load_notification_template, dict_getitem.
  cbn [dict_get].
  destruct (String.eqb "task_assigned" event_type); cbn [res_bind orb].
  { now rewrite H3. }
  destruct (String.eqb "comment_added" event_type); cbn [res_bind].
  { now rewrite H4. }
  reflexivity.
Qed.

(** X18. The background handler of [process_notifications_async] never
    succeeds: for every user id and event type the worker is one daemon
    thread that dies with KeyError.  For the two known event types the
    key is the task field, which no notification carries; for any other
    event type in ASCII it is the event type itself, shown as [repr]
    shows it. *)
Theorem X18_notification_worker_dies :
  forall (e : env) (user_id : Z) (event_type : string) (w : world),
    exists x : exn,
      services.process_notifications_async e user_id event_type w
      = (Ok (length (threads w)),
         set_threads (threads w ++ [Thread true 100 (Some x) true]) w)
      /\ exn_class x = KeyError
      /\ (event_type = "task_assigned" \/ event_type = "comment_added" ->
          exn_str x = "'task'")
      /\ (event_type <> "task_assigned" -> event_type <> "comment_added" ->
          all_ascii event_type ->
          exn_str x = repr_str event_type).
Proof.
  intros e user_id event_type w.
  exists (mk_exn KeyError
            (if String.eqb "task_assigned" event_type
                || String.eqb "comment_added" event_type
             then quoted "task" else repr_str event_type)).
  split; [| split; [reflexivity | split]].
  - unfold services.process_notifications_async,
      models.NotificationQueue.process_in_background,
      models.NotificationQueue._process_queue,
      models.NotificationQueue.enqueue, models.NotificationQueue.__init__.
    cbn [models.NotificationQueue.queue app fold_left].
    change (_ <~ Ok () ;; ?k) with k.
    pose proof (handler_outcome e user_id event_type) as H. cbv zeta in H.
    rewrite H. reflexivity.
  - intros [-> | ->]; reflexivity.
  - intros H1 H2 _. cbn [exn_str].
    destruct (String.eqb_spec "task_assigned" event_type) as [<- | _];
      [congruence |].
    destruct (String.eqb_spec "comment_added" event_type) as [<- | _];
      [congruence |].
    reflexivity.
Qed.

Lemma X18_notification_worker_dies_witness :
  exists x : exn,
    services.process_notifications_async sample.quiet_env 1 "it's"
                                         sample.fresh_world
    = (Ok 0%nat,
       set_threads [Thread true 100 (Some x) true] sample.fresh_world)
    /\ exn_str x = String "034" ("it's" +:+ String "034" EmptyString).
Proof.
  destruct (X18_notification_worker_dies sample.quiet_env 1 "it's"
              sample.fresh_world) as (x & Hrun & _ & _ & Htext).
  exists x. split; [exact Hrun |].
  apply Htext; [discriminate | discriminate | repeat constructor].
Defined.

(** ** Dictionaries *)

Lemma dict_get_set_eq {V} (d : list (string * V)) (k : string) (v : V) :
  dict_get (dict_set d k v) k = Some v.
Proof.
  induction d as [| [k' v'] d IH]; cbn [dict_set dict_get].
  - now rewrite String.eqb_refl.
  - destruct (String.eqb k' k) eqn:He; cbn [dict_get].
    + now rewrite String.eqb_refl.
    + now rewrite He.
Qed.

Lemma dict_get_set_ne {V} (d : list (string * V)) (k j : string) (v : V) :
  k <> j -> dict_get (dict_set d k v) j = dict_get d j.
Proof.
  intros Hne. induction d as [| [k' v'] d IH]; cbn [dict_set dict_get].
  - destruct (String.eqb_spec k j); [congruence | reflexivity].
  - destruct (String.eqb_spec k' k) as [-> | Hk']; cbn [dict_get].
    + destruct (String.eqb_spec k j); [congruence | reflexivity].
    + destruct (String.eqb k' j); [reflexivity | exact IH].
Qed.

Lemma dict_of_pairs_absent {V} (pairs : list (string * V)) (k : string) :
  k ∉ pairs.*1 -> dict_get (dict_of_pairs pairs) k = None.
Proof.
  unfold dict_of_pairs.
  assert (H : forall d, dict_get d k = None -> k ∉ pairs.*1 ->
                        dict_get (fold_left (fun d kv => dict_set d kv.1 kv.2)
                                            pairs d) k = None).
  { induction pairs as [| [j v] pairs IH]; intros d Hd Hk; [exact Hd |].
    cbn [fold_left fst snd]. cbn in Hk.
    apply not_elem_of_cons in Hk as [Hj Hk].
    apply IH; [| exact Hk]. now rewrite dict_get_set_ne by congruence. }
  now apply H.
Qed.

Lemma zip_keys_subset {V} (headers : list string) (values : list V) (k : string) :
  k ∉ headers -> k ∉ (zip headers values).*1.
Proof.
  revert values. induction headers as [| h hs IH]; intros values Hk.
  - cbn. apply not_elem_of_nil.
  - destruct values as [| v vs]; [cbn; apply not_elem_of_nil |].
    cbn. apply not_elem_of_cons in Hk as [Hh Hk].
    apply not_elem_of_cons. split; [exact Hh | now apply IH].
Qed.

Lemma import_fold_raise (headers : list string) (lines : list string) (x : exn) :
  fold_left (import_row headers) lines (Raise x) = Raise x.
Proof. induction lines as [| l ls IH]; [reflexivity | exact IH]. Qed.

Lemma import_fold_ok (headers : list string) (lines : list string) :
  forall acc out,
    Forall int_priority acc ->
    fold_left (import_row headers) lines (Ok acc) = Ok out ->
    length out = (length acc + length lines)%nat /\ Forall int_priority out.
Proof.
  induction lines as [| l ls IH]; intros acc out Hacc Hout.
  - injection Hout as <-. split; [cbn; lia | exact Hacc].
  - cbn [fold_left] in Hout. unfold import_row at 2 in Hout.
    cbn [res_bind] in Hout. cbv zeta in Hout.
    destruct (dict_getitem _ "priority") as [p | x]; cbn [res_bind] in Hout;
      [| now rewrite import_fold_raise in Hout].
    destruct (match p with PStr s => int_of_str s | _ => _ end) as [n | x];
      cbn [res_bind] in Hout; [| now rewrite import_fold_raise in Hout].
    apply IH in Hout as [Hlen Hall].
    + split; [| exact Hall]. rewrite Hlen, length_app. cbn. lia.
    + apply Forall_app. split; [exact Hacc |]. constructor; [| constructor].
      exists n. apply dict_get_set_eq.
Qed.

Lemma import_unfold (csv_text : string) :
  services.import_tasks_from_csv csv_text
  = match split "010" (strip csv_text) with
    | [] => raise IndexError "list index out of range"
    | first :: rest =>
        fold_left (import_row (split "," first)) rest (Ok [])
    end.
Proof. reflexivity. Qed.

Lemma split_not_nil (sep : ascii) (s : string) : split sep s <> [].
Proof.
  destruct s as [| c s]; [discriminate |]. cbn [split].
  destruct (ascii_eqb c sep); [discriminate |].
  destruct (split sep s); discriminate.
Qed.

(** The blanks that [strip] removes are those of [str.isspace], the
    wide ones included: a no-break space before the header goes. *)
Example import_strips_wide_blanks :
  services.import_tasks_from_csv
    (json.byte_str 194 +:+ json.byte_str 160 +:+ "priority" +:+ nl +:+ "3")
  = Ok [[("priority", PInt 3)]].
Proof. vm_compute. reflexivity. Qed.

(** X19. When [import_tasks_from_csv] returns, it has one task for each
    line after the header, each with an int under priority; text of a
    single line gives no task; and when the header has no priority
    column, the first line after it raises KeyError. *)
Theorem X19_import_tasks_rows :
  forall csv_text : string,
    let lines := split "010" (strip csv_text) in
    (forall tasks,
        services.import_tasks_from_csv csv_text = Ok tasks ->
        length tasks = (length lines - 1)%nat
        /\ Forall int_priority tasks)
    /\ (length lines = 1%nat -> services.import_tasks_from_csv csv_text = Ok [])
    /\ (forall header line rest,
           lines = header :: line :: rest ->
           "priority" ∉ split "," header ->
           raises (services.import_tasks_from_csv csv_text) KeyError).
Proof.
  intros csv_text lines. rewrite import_unfold. fold lines.
  pose proof (split_not_nil "010" (strip csv_text)) as Hne. fold lines in Hne.
  destruct lines as [| first rest]; [congruence |].
  split; [| split].
  - intros tasks Ht. apply import_fold_ok in Ht as [Hlen Hall]; [| constructor].
    split; [cbn in *; lia | exact Hall].
  - intros Hlen. destruct rest; [reflexivity | discriminate].
  - intros header line rest' [= -> ->] Hno. cbn [fold_left].
    unfold import_row at 2. cbn [res_bind]. cbv zeta.
    unfold dict_getitem at 1.
    rewrite dict_of_pairs_absent by (now apply zip_keys_subset).
    cbn [res_bind raise]. rewrite import_fold_raise. apply raises_intro.
Qed.

Lemma X19_import_tasks_rows_witness :
  services.import_tasks_from_csv "title,priority" = Ok []
  /\ raises (services.import_tasks_from_csv
               ("title,points" +:+ nl +:+ "Fix login,3")) KeyError
  /\ Forall int_priority [[("title", PStr "Fix login"); ("priority", PInt 3)]].
Proof.
  split; [| split].
  - apply (proj1 (proj2 (X19_import_tasks_rows "title,priority"))).
    reflexivity.
  - apply (proj2 (proj2 (X19_import_tasks_rows
                           ("title,points" +:+ nl +:+ "Fix login,3")))
                 "title,points" "Fix login,3" []).
    + reflexivity.
    + intros H. apply list_elem_of_In in H. vm_compute in H.
      intuition discriminate.
  - apply (proj1 (X19_import_tasks_rows
                    ("title,priority" +:+ nl +:+ "Fix login,3"))
                 [[("title", PStr "Fix login"); ("priority", PInt 3)]]).
    reflexivity.
Defined.

(** ** The bulk import *)

Lemma index_set_fresh (index : list (services.index_key * services.entry))
    (k : services.index_key) (v : services.entry) :
  Forall (fun kv => services.key_eqb (fst kv) k = false) index ->
  services.index_set index k v = (index ++ [(k, v)])%list.
Proof.
  induction 1 as [| [k' v'] index Hk _ IH]; [reflexivity |].
  cbn [services.index_set]. cbn [fst] in Hk. rewrite Hk. now rewrite IH.
Qed.

Lemma ref_key_inj (i j : Z) : "ref-" +:+ pretty i = "ref-" +:+ pretty j -> i = j.
Proof. intros H. injection H as H. now apply (inj pretty). Qed.

Lemma generate_eq (n : nat) :
  utils.generate_large_payload (Z.of_nat n) = payload_item <$> seq 0 n.
Proof. unfold utils.generate_large_payload. now rewrite Nat2Z.id. Qed.

Lemma bulk_index_spec (e : env) (m : nat) :
  forall (k : nat) (index : list (services.index_key * services.entry)),
    length index = (2 * k)%nat ->
    Forall (fun kv => key_below k (fst kv)) index ->
    (N.of_nat (k * k) <= heap_cells e)%N ->
    match services.bulk_index e k (payload_item <$> seq k m) index
                              (N.of_nat (k * k)) with
    | Ok out =>
        (N.of_nat ((k + m) * (k + m)) <= heap_cells e)%N
        /\ length out = (2 * (k + m))%nat
    | Raise x =>
        (heap_cells e < N.of_nat ((k + m) * (k + m)))%N
        /\ x = mk_exn MemoryError ""
    end.
Proof.
  induction m as [| m IH]; intros k index Hlen Hkeys Hheap.
  - cbn [seq fmap list_fmap services.bulk_index].
    rewrite Nat.add_0_r. split; [exact Hheap | exact Hlen].
  - cbn [seq fmap list_fmap services.bulk_index]. cbv zeta.
    assert (Hkey : services.item_key e k (payload_item k)
                   = services.IntKey (Z.of_nat k)) by reflexivity.
    rewrite Hkey.
    rewrite (index_set_fresh index (services.IntKey (Z.of_nat k))).
    2:{ eapply Forall_impl; [exact Hkeys |].
        intros [[z | s] v] Hb; cbn in *; [| reflexivity].
        apply Z.eqb_neq. lia. }
    rewrite length_app, Hlen. cbn [length].
    replace (N.of_nat (k * k) + N.of_nat (2 * k + 1))%N
      with (N.of_nat (S k * S k)) by lia.
    destruct (N.ltb_spec (heap_cells e) (N.of_nat (S k * S k))) as [Hfull | Hfit].
    + split; [| reflexivity].
      assert (S k * S k <= (k + S m) * (k + S m))%nat by nia. lia.
    + rewrite (index_set_fresh _ (services.StrKey _)).
      2:{ apply Forall_app. split.
          - eapply Forall_impl; [exact Hkeys |].
            intros [[z | s] v] Hb; cbn in *; [reflexivity |].
            destruct Hb as (i & Hi & ->).
            apply String.eqb_neq. intros Heq. apply ref_key_inj in Heq. lia.
          - constructor; [reflexivity | constructor]. }
      specialize (IH (S k) ((index ++ [(services.IntKey (Z.of_nat k),
                                       services.Item (payload_item k))])
                            ++ [(services.StrKey
                                   ("ref-" +:+ services.key_str
                                      (services.IntKey (Z.of_nat k))),
                                 services.CrossRef (payload_item k) (2 * k + 1))])%list).
      replace (k + S m)%nat with (S k + m)%nat by lia.
      apply IH.
      * rewrite !length_app, Hlen. cbn. lia.
      * apply Forall_app. split; [apply Forall_app; split |].
        -- eapply Forall_impl; [exact Hkeys |].
           intros [[z | s] v] Hb; cbn in *; [lia |].
           destruct Hb as (i & Hi & ->). exists i. split; [lia | reflexivity].
        -- constructor; [cbn; lia | constructor].
        -- constructor; [| constructor]. cbn. exists (Z.of_nat k).
           split; [lia | reflexivity].
      * exact Hfit.
Qed.

(** X20. On the payload of [generate_large_payload n],
    [process_bulk_import] copies the growing index once for each item,
    n * n list cells in all: it raises MemoryError exactly when the
    host has fewer cells than that, and otherwise counts two index
    entries for each item. *)
Theorem X20_bulk_import_quadratic :
  forall (e : env) (n : nat),
    services.process_bulk_import e (utils.generate_large_payload (Z.of_nat n))
    = if (heap_cells e <? N.of_nat (n * n))%N then raise MemoryError ""
      else Ok (PDict [("indexed", PInt (Z.of_nat (2 * n)))]).
Proof.
  intros e n. unfold services.process_bulk_import. rewrite generate_eq.
  pose proof (bulk_index_spec e n 0 [] eq_refl (List.Forall_nil _)) as H.
  change (N.of_nat (0 * 0)) with 0%N in H. change (0 + n)%nat with n in H.
  specialize (H ltac:(lia)).
  destruct (services.bulk_index e 0 (payload_item <$> seq 0 n) [] 0%N)
    as [out | x]; cbn [res_bind].
  - destruct H as [Hfit Hlen].
    destruct (N.ltb_spec (heap_cells e) (N.of_nat (n * n))); [lia |].
    now rewrite Hlen.
  - destruct H as [Hfull ->].
    destruct (N.ltb_spec (heap_cells e) (N.of_nat (n * n))); [reflexivity | lia].
Qed.

(** ** What every request keeps *)

Section Keeps.
Context {B : Type} (part : world -> B).

Lemma keeps_ret {A} (a : A) : keeps part (ret a).
Proof. intros w. reflexivity. Qed.

Lemma keeps_throw {A} (x : exn) : keeps part (throw (A := A) x).
Proof. intros w. reflexivity. Qed.

Lemma keeps_lift {A} (r : res A) : keeps part (lift r).
Proof. intros w. reflexivity. Qed.

Lemma keeps_gets {A} (f : world -> A) : keeps part (gets f).
Proof. intros w. reflexivity. Qed.

Lemma keeps_modify (f : world -> world) :
  (forall w, part (f w) = part w) -> keeps part (modify f).
Proof. intros H w. apply H. Qed.

Lemma keeps_bind {A C} (m : M A) (k : A -> M C) :
  keeps part m -> (forall a, keeps part (k a)) -> keeps part (bind m k).
Proof.
  intros Hm Hk w. unfold bind. specialize (Hm w).
  destruct (m w) as [[a | x] w1]; cbn [snd] in *.
  - now rewrite Hk.
  - exact Hm.
Qed.

Lemma keeps_try_finally {A} (body : M A) (cleanup : M unit) :
  keeps part body -> keeps part cleanup ->
  keeps part (try_finally body cleanup).
Proof.
  intros Hb Hc w. unfold try_finally. specialize (Hb w).
  destruct (body w) as [r w1]. specialize (Hc w1).
  destruct (cleanup w1) as [[u | x] w2]; cbn [snd] in *; congruence.
Qed.

Lemma keeps_dump (p : string) (v : pyval) :
  (forall f w, part (set_fs f w) = part w) -> keeps part (os.dump p v).
Proof.
  intros H w. unfold os.dump, modify. cbn [snd].
  destruct (files (fs w) !! p); [apply H | reflexivity].
Qed.

Lemma keeps_original_excepthook (e : env) (x : exn) :
  (forall s w, part (log_line s w) = part w) ->
  keeps part (threading._original_excepthook e x).
Proof.
  intros H. unfold threading._original_excepthook.
  destruct (String.eqb (cls_name (exn_class x)) "SystemExit").
  - apply keeps_ret.
  - apply keeps_modify. intros w. apply H.
Qed.
End Keeps.

Ltac keeps_tac :=
  repeat first
    [ apply keeps_ret
    | apply keeps_throw
    | apply keeps_lift
    | apply keeps_gets
    | apply keeps_modify; intros []; reflexivity
    | apply keeps_dump; intros ? []; reflexivity
    | apply keeps_original_excepthook; intros ? []; reflexivity
    | apply keeps_try_finally
    | apply keeps_bind; [| intros ?]
    | match goal with
      | |- keeps _ (match ?x with _ => _ end) => destruct x
      end ].

Lemma keeps_captured_view (ep : app.endpoint) (e : env) (req : app.request) :
  keeps captured (app.view ep e req).
Proof.
  destruct ep; cbn [app.view];
    unfold app.trigger_permission_error, services.write_export_file;
    keeps_tac.
Qed.

Lemma answers_200_ret (v : pyval) : answers_200 (ret (app.jsonify v)).
Proof. intros w r w' [= <- _]. reflexivity. Qed.

Lemma answers_200_html (s : string) :
  answers_200 (ret (app.Response 200 (app.Html s))).
Proof. intros w r w' [= <- _]. reflexivity. Qed.

Lemma answers_200_throw (x : exn) : answers_200 (throw x).
Proof. intros w r w' H. discriminate H. Qed.

Lemma answers_200_lift_raise (x : exn) : answers_200 (lift (Raise x)).
Proof. intros w r w' H. discriminate H. Qed.

Lemma answers_200_bind {A} (m : M A) (k : A -> M app.response) :
  (forall a, answers_200 (k a)) -> answers_200 (bind m k).
Proof.
  intros Hk w r w' H. unfold bind in H.
  destruct (m w) as [[a | x] w1]; [exact (Hk a w1 r w' H) | discriminate H].
Qed.

Lemma answers_200_try_finally (body : M app.response) (cleanup : M unit) :
  answers_200 body -> answers_200 (try_finally body cleanup).
Proof.
  intros Hb w r w' H. unfold try_finally in H.
  destruct (body w) as [rb w1] eqn:Hbody.
  destruct (cleanup w1) as [[u | x] w2]; [| discriminate H].
  injection H as -> <-. exact (Hb w r w1 Hbody).
Qed.

Ltac answers_tac :=
  repeat first
    [ apply answers_200_ret
    | apply answers_200_html
    | apply answers_200_throw
    | apply answers_200_lift_raise
    | apply answers_200_try_finally
    | apply answers_200_bind; intros ?
    | match goal with
      | |- answers_200 (match ?x with _ => _ end) => destruct x
      end ].

Lemma answers_200_view (ep : app.endpoint) (e : env) (req : app.request) :
  answers_200 (app.view ep e req).
Proof.
  destruct ep; cbn [app.view];
    unfold app.dashboard, app.list_bugs, app.trigger_type_error,
      app.trigger_key_error, app.trigger_attribute_error,
      app.trigger_zero_division, app.trigger_index_error,
      app.trigger_file_not_found, app.trigger_json_decode_error,
      app.trigger_unicode_decode_error, app.trigger_recursion_error,
      app.trigger_connection_error, app.trigger_value_error,
      app.trigger_permission_error, app.trigger_timeout_error,
      app.trigger_thread_error, app.trigger_memory_error, app.health,
      builtins.none_has_no, raise;
    answers_tac.
Qed.

(** X21. Every answer of the service has status 200 or 500: 200 when
    the view returned, and then nothing was reported to the monitoring
    collaborator; 500 when the view raised an instance of Exception,
    and then exactly that exception was reported, once. *)
Theorem X21_status_and_capture :
  forall (ep : app.endpoint) (e : env) (req : app.request) (w : world),
    match app.view ep e req w with
    | (Ok r, w1) =>
        app.serve ep e req w = (Ok r, w1)
        /\ app.status r = 200
        /\ captured w1 = captured w
    | (Raise x, w1) =>
        derives_Exception (exn_class x) = true ->
        exists body w2,
          app.serve ep e req w = (Ok (app.Response 500 body), w2)
          /\ captured w2 = (captured w ++ [x])%list
    end.
Proof.
  intros ep e req w.
  pose proof (keeps_captured_view ep e req w) as Hc.
  pose proof (answers_200_view ep e req w) as Hs.
  unfold app.serve.
  destruct (app.view ep e req w) as [[r | x] w1]; cbn [snd] in Hc.
  - split; [reflexivity |]. split; [exact (Hs r w1 eq_refl) | exact Hc].
  - intros ->. rewrite handle_exception_eq. do 2 eexists.
    split; [reflexivity |]. cbn. now rewrite Hc.
Qed.

Lemma X21_status_and_capture_witness :
  exists body w2,
    app.serve app.TriggerAttributeError sample.quiet_env app.no_input
              sample.fresh_world
    = (Ok (app.Response 500 body), w2)
    /\ captured w2
       = [mk_exn AttributeError "'NoneType' object has no attribute 'email'"].
Proof.
  pose proof (X21_status_and_capture app.TriggerAttributeError
                sample.quiet_env app.no_input sample.fresh_world) as H.
  assert (Hv : app.view app.TriggerAttributeError sample.quiet_env
                        app.no_input sample.fresh_world
               = (Raise (mk_exn AttributeError
                           "'NoneType' object has no attribute 'email'"),
                  sample.fresh_world)) by (vm_compute; reflexivity).
  rewrite Hv in H. exact (H eq_refl).
Defined.

Lemma keeps_threads_view (ep : app.endpoint) (e : env) (req : app.request) :
  ep <> app.TriggerTimeoutError -> ep <> app.TriggerThreadError ->
  keeps threads (app.view ep e req).
Proof.
  intros H1 H2. destruct ep; try congruence; cbn [app.view];
    unfold app.trigger_permission_error, services.write_export_file;
    keeps_tac.
Qed.

Lemma keeps_limit_view (ep : app.endpoint) (e : env) (req : app.request) :
  ep <> app.TriggerRecursionError ->
  keeps recursion_limit (app.view ep e req).
Proof.
  intros H1. destruct ep; try congruence; cbn [app.view];
    unfold app.trigger_permission_error, services.write_export_file;
    keeps_tac.
Qed.

Lemma keeps_handle_exception {B} (part : world -> B) (e : env) (x : exn) :
  (forall y w, part (capture y w) = part w) ->
  (forall s w, part (log_line s w) = part w) ->
  keeps part (app.handle_exception e x).
Proof.
  intros Hc Hl w. unfold app.handle_exception, bind, modify, ret. cbn [snd].
  now rewrite Hl, Hc.
Qed.

Lemma keeps_serve {B} (part : world -> B) (ep : app.endpoint) (e : env)
    (req : app.request) :
  (forall y w, part (capture y w) = part w) ->
  (forall s w, part (log_line s w) = part w) ->
  forall w, part (snd (app.serve ep e req w))
            = part (snd (app.view ep e req w)).
Proof.
  intros Hc Hl w. unfold app.serve.
  destruct (app.view ep e req w) as [[r | x] w1]; [reflexivity |].
  destruct (derives_Exception (exn_class x)); [| reflexivity].
  cbn [snd]. apply (keeps_handle_exception part e x Hc Hl).
Qed.

Lemma route_worker_eq (e : env) (w : world) :
  services.process_notifications_async e 1 "task_assigned" w
  = (Ok (length (threads w)),
     set_threads
       (threads w
        ++ [Thread true 100 (Some (mk_exn KeyError (quoted "task"))) true]) w).
Proof.
  unfold services.process_notifications_async,
    models.NotificationQueue.process_in_background,
    models.NotificationQueue._process_queue, models.NotificationQueue.enqueue,
    models.NotificationQueue.__init__.
  cbn [models.NotificationQueue.queue app fold_left].
  change (_ <~ Ok () ;; ?k) with k.
  pose proof (handler_outcome e 1 "task_assigned") as H. cbv zeta in H.
  rewrite H. reflexivity.
Qed.

Lemma thread_route_eq (e : env) (w : world) :
  exists w1,
    app.trigger_thread_error e w
    = (Raise (mk_exn KeyError (quoted "task")), w1)
    /\ threads w1
       = (threads w ++ [Thread true 0 (Some (mk_exn KeyError (quoted "task")))
                               false])%list
    /\ last_error w1 = Some (mk_exn KeyError (quoted "task"))
    /\ recursion_limit w1 = recursion_limit w.
Proof.
  unfold app.trigger_thread_error.
  rewrite (bind_ok _ _ w tt (set_last None None w) eq_refl).
  set (w0 := set_last None None w).
  rewrite (bind_ok _ _ _ _ _ (route_worker_eq e w0)).
  set (x := mk_exn KeyError (quoted "task")).
  pose proof (join_new e (threads w0) (Thread true 100 (Some x) true) 5000 w0
                       eq_refl) as Hjoin.
  cbn [work_ms daemon dies_with] in Hjoin.
  change (100 <=? 5000)%N with true in Hjoin. cbv iota in Hjoin.
  assert (Hlim : keeps recursion_limit (threading._thread_excepthook e x))
    by (unfold threading._thread_excepthook; keeps_tac).
  specialize (Hlim (set_threads (threads w0 ++ [Thread true 0 (Some x) false]) w0)).
  destruct (excepthook_spec e x
              (set_threads (threads w0 ++ [Thread true 0 (Some x) false]) w0))
    as (w2 & Hhook & Hts & Hlast & _).
  rewrite Hhook in Hjoin, Hlim. cbn [snd] in Hlim.
  rewrite (bind_ok _ _ _ _ _ Hjoin).
  unfold bind, gets. rewrite Hlast.
  exists w2. split; [reflexivity |]. split; [| split; [exact Hlast |]].
  - rewrite Hts. destruct w; reflexivity.
  - rewrite Hlim. destruct w; reflexivity.
Qed.

(** X22. No request changes the recursion limit, and a request starts
    at most one thread: the timeout and thread-error routes start
    exactly one and leave the threads that were there alone; every
    other route leaves the threads as they were. *)
Theorem X22_threads_and_limit :
  forall (ep : app.endpoint) (e : env) (req : app.request) (w : world),
    let w' := snd (app.serve ep e req w) in
    recursion_limit w' = recursion_limit w
    /\ (ep <> app.TriggerTimeoutError -> ep <> app.TriggerThreadError ->
        threads w' = threads w)
    /\ (ep = app.TriggerTimeoutError \/ ep = app.TriggerThreadError ->
        exists t, threads w' = (threads w ++ [t])%list).
Proof.
  intros ep e req w. cbv zeta. split; [| split].
  - rewrite (keeps_serve recursion_limit ep e req)
      by (intros ? []; reflexivity).
    destruct ep; try (apply keeps_limit_view; discriminate).
    cbn [app.view]. now rewrite trigger_recursion_error_eq.
  - intros H1 H2.
    rewrite (keeps_serve threads ep e req) by (intros ? []; reflexivity).
    now apply keeps_threads_view.
  - intros Hep.
    rewrite (keeps_serve threads ep e req) by (intros ? []; reflexivity).
    destruct Hep as [-> | ->]; cbn [app.view].
    + unfold app.trigger_timeout_error, bind.
      rewrite run_with_timeout_eq.
      change (threading.takes_ms services.slow_aggregation_query <=? 1000 * 2)%N
        with false.
      cbv iota. cbn [snd]. eexists. destruct w; reflexivity.
    + destruct (thread_route_eq e w) as (w1 & -> & Hts & _).
      cbn [snd]. eexists. exact Hts.
Qed.

Lemma X22_threads_and_limit_witness :
  threads (snd (app.serve app.Health sample.quiet_env app.no_input
                          sample.fresh_world))
  = threads sample.fresh_world
  /\ exists t,
       threads (snd (app.serve app.TriggerTimeoutError sample.quiet_env
                               app.no_input sample.fresh_world))
       = (threads sample.fresh_world ++ [t])%list.
Proof.
  split.
  - apply (proj1 (proj2 (X22_threads_and_limit app.Health sample.quiet_env
                           app.no_input sample.fresh_world))); discriminate.
  - apply (proj2 (proj2 (X22_threads_and_limit app.TriggerTimeoutError
                           sample.quiet_env app.no_input sample.fresh_world))).
    left. reflexivity.
Defined.

(** X23. The thread-error route forgets whatever thread error was kept
    from before, and always answers 500 with the KeyError of its own
    worker, which it leaves in the kept slot. *)
Theorem X23_thread_route_raises :
  forall (e : env) (req : app.request) (w : world),
    exists tb w',
      app.serve app.TriggerThreadError e req w
      = (Ok (app.Response 500 (error_body KeyError (quoted "task") tb)), w')
      /\ last_error w' = Some (mk_exn KeyError (quoted "task")).
Proof.
  intros e req w. destruct (thread_route_eq e w) as (w1 & Hv & _ & Hlast & _).
  do 2 eexists. split.
  - erewrite serve_raise; [| cbn [app.view]; exact Hv | reflexivity].
    rewrite handle_exception_eq. reflexivity.
  - cbn. destruct w1; exact Hlast.
Qed.

(** ** More on the export and on decoding *)

(** X24. A second request to the permission-error route leaves the
    disk exactly as the first one did: the export directory and the
    read-only export are already there, and what the file holds does
    not change. *)
Theorem X24_export_idempotent :
  forall (e : env) (req req' : app.request) (w : world),
    os.is_file (fs w) (export_dir e) = false ->
    os.is_dir (fs w) (export_path e "proj-1") = false ->
    let once := snd (app.serve app.TriggerPermissionError e req w) in
    fs (snd (app.serve app.TriggerPermissionError e req' once)) = fs once.
Proof.
  intros e req req' w Hfile Hdir. cbv zeta.
  pose proof (permission_route_fs e req w Hfile Hdir) as H1.
  set (w1 := snd (app.serve app.TriggerPermissionError e req w)) in *.
  pose proof (export_path_not_dir e) as Hne.
  assert (Hfile1 : os.is_file (fs w1) (export_dir e) = false).
  { rewrite H1. unfold os.is_file in *. cbn [files].
    rewrite lookup_insert_ne by exact Hne. exact Hfile. }
  assert (Hdir1 : os.is_dir (fs w1) (export_path e "proj-1") = false).
  { rewrite H1. unfold os.is_dir in *. cbn [dirs].
    apply bool_decide_eq_false. apply bool_decide_eq_false in Hdir.
    rewrite elem_of_union, elem_of_singleton. tauto. }
  rewrite (permission_route_fs e req' w1 Hfile1 Hdir1).
  assert (Hc : export_content e w1 task_data = export_content e w task_data).
  { unfold export_content at 1. rewrite H1. cbn [files].
    rewrite lookup_insert_eq. cbn [content].
    unfold export_content. destruct (privileged e); reflexivity. }
  rewrite Hc, H1. cbn [dirs files].
  rewrite insert_insert_eq. f_equal.
  rewrite (assoc_L (∪)). now rewrite (idemp_L (∪)).
Qed.

Lemma X24_export_idempotent_witness :
  let once := snd (app.serve app.TriggerPermissionError sample.quiet_env
                             app.no_input sample.fresh_world) in
  fs (snd (app.serve app.TriggerPermissionError sample.quiet_env
                     app.no_input once)) = fs once.
Proof.
  apply (X24_export_idempotent sample.quiet_env app.no_input app.no_input
                               sample.fresh_world); reflexivity.
Defined.



(** X26. The json-decode-error route answers by the service asked for:
    500 with JSONDecodeError for webhook, which is also the default, and
    200 with the parsed canned body for any other name, the unknown
    body included; it changes nothing but what the error handler
    records. *)
Theorem X26_json_route_by_service :
  forall (e : env) (req : app.request) (w : world),
    let service := app.args_get req "service" "webhook" in
    (service = "webhook" ->
     exists msg tb w',
       app.serve app.TriggerJsonDecodeError e req w
       = (Ok (app.Response 500 (error_body JSONDecodeError msg tb)), w'))
    /\ (service <> "webhook" ->
        exists v,
          services.fetch_integration_data service = Ok v
          /\ app.serve app.TriggerJsonDecodeError e req w
             = (Ok (app.Response 200 (app.Json v)), w)).
Proof.
  intros e req w service. split.
  - intros Hs.
    assert (Hv : exists msg,
               app.view app.TriggerJsonDecodeError e req w
               = (raise JSONDecodeError msg, w)).
    { eexists. cbn [app.view]. unfold app.trigger_json_decode_error.
      fold service. rewrite Hs. unfold bind, lift.
      rewrite fetch_unfold, loads_webhook. reflexivity. }
    destruct Hv as [msg Hv]. exists msg. do 2 eexists.
    rewrite (serve_raise _ _ _ _ _ _ Hv eq_refl).
    rewrite handle_exception_eq. reflexivity.
  - intros Hs.
    assert (Hret : exists v, services.fetch_integration_data service = Ok v).
    { destruct (string_dec service "slack") as [-> | H1];
        [rewrite fetch_unfold, loads_slack; eexists; reflexivity |].
      destruct (string_dec service "jira") as [-> | H2];
        [rewrite fetch_unfold, loads_jira; eexists; reflexivity |].
      rewrite (fetch_other service H1 H2 Hs). eexists. reflexivity. }
    destruct Hret as [v Hv]. exists v. split; [exact Hv |].
    apply serve_ok. cbn [app.view]. unfold app.trigger_json_decode_error.
    fold service. unfold bind, lift. now rewrite Hv.
Qed.

Lemma X26_json_route_by_service_witness :
  (exists msg tb w',
      app.serve app.TriggerJsonDecodeError sample.quiet_env app.no_input
                sample.fresh_world
      = (Ok (app.Response 500 (error_body JSONDecodeError msg tb)), w'))
  /\ exists v,
       services.fetch_integration_data "slack" = Ok v
       /\ app.serve app.TriggerJsonDecodeError sample.quiet_env
                    (app.Request [("service", "slack")] "") sample.fresh_world
          = (Ok (app.Response 200 (app.Json v)), sample.fresh_world).
Proof.
  split.
  - apply (proj1 (X26_json_route_by_service sample.quiet_env app.no_input
                    sample.fresh_world)). reflexivity.
  - apply (proj2 (X26_json_route_by_service sample.quiet_env
                    (app.Request [("service", "slack")] "")
                    sample.fresh_world)). discriminate.
Defined.

Lemma utf8_check_class (fuel pos : nat) (s : string) (x : exn) :
  builtins.utf8_check fuel pos s = Some x -> exn_class x = UnicodeDecodeError.
Proof.
  revert pos s. induction fuel as [| fuel IH]; intros pos s; [discriminate |].
  cbn [builtins.utf8_check]. destruct s as [| c rest]; [discriminate |].
  destruct (code c <? 128); [apply IH |].
  destruct (builtins.lead c) as [[[k lo] hi] |]; [| now intros [= <-]].
  destruct (builtins.continuation k lo hi 0 rest);
    [apply IH | now intros [= <-] | now intros [= <-]].
Qed.

Lemma utf8_check_ascii (fuel pos : nat) (s : string) :
  all_ascii s -> builtins.utf8_check fuel pos s = None.
Proof.
  revert pos s. induction fuel as [| fuel IH]; intros pos s Hs; [reflexivity |].
  cbn [builtins.utf8_check]. destruct s as [| c rest]; [reflexivity |].
  inversion Hs as [| ? ? Hc Hrest]; subst.
  destruct (Z.ltb_spec (code c) 128); [| lia]. now apply IH.
Qed.

Lemma never_in_utf8_code (c : ascii) :
  never_in_utf8 c = true -> code c = 192 \/ code c = 193 \/ 245 <= code c.
Proof.
  unfold never_in_utf8. rewrite !orb_true_iff, !Z.eqb_eq, Z.leb_le. tauto.
Qed.

Lemma lead_range (c : ascii) (k : nat) (lo hi : Z) :
  builtins.lead c = Some (k, lo, hi) ->
  128 <= lo /\ hi <= 191 /\ 194 <= code c <= 244.
Proof.
  unfold builtins.lead.
  repeat match goal with
         | |- context [if ?b then _ else _] => destruct b eqn:?
         end;
    intros [= <- <- <-] || discriminate;
    repeat match goal with
           | H : (_ && _) = true |- _ => apply andb_true_iff in H as [? ?]
           | H : (_ <=? _) = true |- _ => apply Z.leb_le in H
           | H : (_ =? _) = true |- _ => apply Z.eqb_eq in H
           end; lia.
Qed.

(** The continuation bytes that were accepted hold no byte that UTF-8
    never uses, so such a byte is still to come. *)
Lemma continuation_keeps_bad (k : nat) :
  forall (lo hi : Z) (accepted : nat) (s rest : string) (bad : ascii),
    128 <= lo -> hi <= 191 ->
    builtins.continuation k lo hi accepted s = builtins.TailOk rest ->
    never_in_utf8 bad = true ->
    In bad (list_ascii_of_string s) ->
    In bad (list_ascii_of_string rest)
    /\ (String.length rest <= String.length s)%nat.
Proof.
  induction k as [| k IH]; intros lo hi accepted s rest bad Hlo Hhi Hc Hbad Hin.
  - cbn in Hc. injection Hc as <-. split; [exact Hin | lia].
  - cbn [builtins.continuation] in Hc. destruct s as [| c s']; [discriminate |].
    destruct (builtins.in_range lo hi c) eqn:Hr; [| discriminate].
    unfold builtins.in_range in Hr.
    apply andb_true_iff in Hr as [H1 H2].
    apply Z.leb_le in H1. apply Z.leb_le in H2.
    cbn [list_ascii_of_string In] in Hin.
    destruct Hin as [-> | Hin];
      [apply never_in_utf8_code in Hbad; lia |].
    destruct (IH 128 191 (S accepted) s' rest bad ltac:(lia) ltac:(lia) Hc
                Hbad Hin) as [Hin' Hlen].
    split; [exact Hin' | cbn [String.length]; lia].
Qed.

Lemma utf8_check_bad (fuel : nat) :
  forall (pos : nat) (s : string) (bad : ascii),
    (String.length s <= fuel)%nat ->
    never_in_utf8 bad = true ->
    In bad (list_ascii_of_string s) ->
    exists x, builtins.utf8_check fuel pos s = Some x.
Proof.
  induction fuel as [| fuel IH]; intros pos s bad Hlen Hbad Hin.
  - destruct s; [contradiction | cbn in Hlen; lia].
  - cbn [builtins.utf8_check]. destruct s as [| c rest]; [contradiction |].
    cbn [String.length] in Hlen. cbn [list_ascii_of_string In] in Hin.
    pose proof (never_in_utf8_code bad Hbad) as Hcode.
    destruct (Z.ltb_spec (code c) 128) as [Hlow | Hhigh].
    + destruct Hin as [-> | Hin]; [lia |].
      apply (IH _ rest bad); [lia | exact Hbad | exact Hin].
    + destruct (builtins.lead c) as [[[k lo] hi] |] eqn:Hlead;
        [| eexists; reflexivity].
      destruct (lead_range c k lo hi Hlead) as (Hlo & Hhi & Hc).
      destruct Hin as [-> | Hin]; [lia |].
      destruct (builtins.continuation k lo hi 0 rest) as [rest' | n | n] eqn:Hk;
        [| eexists; reflexivity ..].
      destruct (continuation_keeps_bad k lo hi 0 rest rest' bad Hlo Hhi Hk
                  Hbad Hin) as [Hin' Hlen'].
      apply (IH _ rest' bad); [lia | exact Hbad | exact Hin'].
Qed.

(** X27. [parse_incoming_webhook] decodes before it parses.  A payload
    that is not UTF-8 raises the UnicodeDecodeError of the decoding and
    the JSON decoder is not run; this is so whenever the payload holds
    one of the bytes that UTF-8 never uses (0xC0, 0xC1, 0xF5 to 0xFF),
    whatever else it holds.  A payload of ASCII bytes is never a
    decoding error: the outcome is that of [json.loads] on the same
    text. *)
Theorem X27_webhook_outcomes :
  forall payload_bytes : string,
    (forall x : exn,
        builtins.decode_utf8 payload_bytes = Raise x ->
        services.parse_incoming_webhook payload_bytes = Raise x
        /\ exn_class x = UnicodeDecodeError)
    /\ (forall bad : ascii,
           In bad (list_ascii_of_string payload_bytes) ->
           never_in_utf8 bad = true ->
           raises (services.parse_incoming_webhook payload_bytes)
                  UnicodeDecodeError)
    /\ (all_ascii payload_bytes ->
        builtins.decode_utf8 payload_bytes = Ok payload_bytes
        /\ services.parse_incoming_webhook payload_bytes
           = json.loads payload_bytes).
Proof.
  intros payload_bytes. unfold services.parse_incoming_webhook,
    builtins.decode_utf8.
  split; [| split].
  - intros x Hx.
    destruct (builtins.utf8_check _ 0 payload_bytes) as [y |] eqn:Hc;
      [| discriminate].
    injection Hx as ->. split; [reflexivity |].
    exact (utf8_check_class _ _ _ _ Hc).
  - intros bad Hin Hbad.
    destruct (utf8_check_bad (S (String.length payload_bytes)) 0
                payload_bytes bad ltac:(lia) Hbad Hin) as [x Hx].
    rewrite Hx. cbn [res_bind].
    pose proof (utf8_check_class _ _ _ _ Hx) as Hclass.
    destruct x as [c msg]. cbn in Hclass. subst c. now exists msg.
  - intros Hascii. rewrite utf8_check_ascii by exact Hascii.
    split; reflexivity.
Qed.

Lemma X27_webhook_outcomes_witness :
  services.parse_incoming_webhook "[1, 2]" = json.loads "[1, 2]"
  /\ raises (services.parse_incoming_webhook app.bad_payload)
            UnicodeDecodeError.
Proof.
  split.
  - apply (proj2 (proj2 (X27_webhook_outcomes "[1, 2]"))).
    repeat constructor.
  - apply (proj1 (proj2 (X27_webhook_outcomes app.bad_payload))
                 (ascii_of_nat 252)); [| reflexivity].
    vm_compute. do 11 right. left. reflexivity.
Defined.
